(** * Scratchpads: filename allocation, suggestion sanitizing and auto-rename

    A shallow embedding of the decision logic of the Scratchpads extension:
    - [AIFilenameService] (src/ai-filename.ts): [sanitizeFilename],
      [suggestFilename], the two suggestion backends, [postJSON] and
      [buildFinalFilename];
    - [ScratchpadsManager] (the manager file of src/unnamed/part_000):
      [baseFilenameExists], [findNextAvailableNumber], the file name chosen
      by [createScratchpad], [normalizePath], [isPathInsideRoot],
      [isScratchpadDocument] and [autoRenameScratchpadFromDocument].

    How the code is read:
    - JavaScript strings are sequences of UTF-16 code units, and every
      regular expression of the source is written without the [u] flag, so
      it works on code units: a string is a list of code units.  Each
      [replace], [test] and [match] is written as the function on lists it
      computes, next to its pattern.
    - A Number is a binary64 float; the only Numbers computed are counters
      and parsed digit strings, modelled as naturals with their rounding.
    - Asynchronous functions are programs over the calls that leave the
      code (the language model, the network, the file system, the editor);
      a run of a program against a host gives its outcome (a value, an
      exception, or a promise that never settles), the state of the host and
      the trace of the calls made.
    - What is not in src/ is a parameter: [String.prototype.toLowerCase],
      [JSON.parse], Node's [path] module, [Utils.getScratchpadFilePath], the
      settings and the host.
    - The logging calls ([log], [warn], [debug], [console.*]) decide nothing
      and are left out. *)

From Stdlib Require Import String Ascii NArith ZArith Lia Bool List DecimalString.
From Stdlib Require DecimalN.
From stdpp Require Import base decidable countable gmap.
Import ListNotations.

Local Open Scope N_scope.

(** * The model *)

(** ** Strings as lists of UTF-16 code units *)

Definition char := N.
Definition str := list char.

(** An ASCII literal as a JavaScript string. *)
Definition lit (s : string) : str := List.map N_of_ascii (list_ascii_of_string s).

Definition str_eqb (a b : str) : bool := bool_decide (a = b).

Definition is_empty (s : str) : bool :=
  match s with [] => true | _ => false end.

Module Ch.
Definition newline : char := 10.
Definition space : char := 32.
Definition dquote : char := 34.
Definition squote : char := 39.
Definition hyphen : char := 45.
Definition dot : char := 46.
Definition slash : char := 47.
Definition backslash : char := 92.
Definition underscore : char := 95.
Definition backtick : char := 96.
End Ch.

Definition in_range (lo hi c : char) : bool := (lo <=? c) && (c <=? hi).

Definition is_lower (c : char) : bool := in_range 97 122 c.
Definition is_upper (c : char) : bool := in_range 65 90 c.
(** [\d] (ASCII digits only, in every mode). *)
Definition is_digit (c : char) : bool := in_range 48 57 c.
Definition is_hyphen (c : char) : bool := c =? Ch.hyphen.

(** The class [[a-z0-9]]. *)
Definition is_az09 (c : char) : bool := is_lower c || is_digit c.

(** The class [[a-z0-9]] under the [i] flag and without the [u] flag: a code
    unit of 128 or more never canonicalizes to an ASCII one, so the class
    gains exactly the ASCII capitals. *)
Definition is_az09_i (c : char) : bool := is_az09 c || is_upper c.

(** LineTerminator: LF, CR, LS, PS.  [.] matches everything else. *)
Definition is_line_terminator (c : char) : bool :=
  (c =? 10) || (c =? 13) || (c =? 8232) || (c =? 8233).

(** WhiteSpace: TAB, VT, FF, SP, NBSP, ZWNBSP and the category Zs. *)
Definition is_white_space (c : char) : bool :=
  (c =? 9) || (c =? 11) || (c =? 12) || (c =? 32) || (c =? 160) ||
  (c =? 5760) || in_range 8192 8202 c || (c =? 8239) || (c =? 8287) ||
  (c =? 12288) || (c =? 65279).

(** [\s], which is also what [String.prototype.trim] removes. *)
Definition is_space (c : char) : bool := is_white_space c || is_line_terminator c.

Definition is_quote (c : char) : bool :=
  (c =? Ch.backtick) || (c =? Ch.dquote) || (c =? Ch.squote).

Fixpoint takeWhile (p : char -> bool) (s : str) : str :=
  match s with
  | [] => []
  | c :: r => if p c then c :: takeWhile p r else []
  end.

Fixpoint dropWhile (p : char -> bool) (s : str) : str :=
  match s with
  | [] => []
  | c :: r => if p c then dropWhile p r else s
  end.

(** [s.startsWith(p)], returning what follows the prefix. *)
Fixpoint strip_prefix (p s : str) : option str :=
  match p, s with
  | [], _ => Some s
  | a :: p', b :: s' => if a =? b then strip_prefix p' s' else None
  | _ :: _, [] => None
  end.

Definition startsWith (s p : str) : bool :=
  match strip_prefix p s with Some _ => true | None => false end.

(** [s.trim()]. *)
Definition trimStart (s : str) : str := dropWhile is_space s.
Definition trimEnd (s : str) : str := rev (dropWhile is_space (rev s)).
Definition trim (s : str) : str := trimEnd (trimStart s).

(** [s.slice(0, n)]. *)
Definition slice0 (n : N) (s : str) : str := firstn (N.to_nat n) s.

(** ** The sanitizer ([AIFilenameService.sanitizeFilename]) *)

(** [input.split('\n')[0] || '']: what precedes the first line feed. *)
Definition firstLine (input : str) : str :=
  takeWhile (fun c => negb (c =? Ch.newline)) input.

(** The first [replace], of the class of the backtick, the double quote and
    the single quote, globally, by the empty string. *)
Definition removeQuotes (s : str) : str :=
  List.filter (fun c => negb (is_quote c)) s.

(** [.replace(/\.[a-z0-9]+$/i, '')]: the regular expression is tried at
    every start position from the left; it matches at a dot that is followed,
    up to the end of the string, by one or more letters or digits. *)
Fixpoint stripExtension (s : str) : str :=
  match s with
  | [] => []
  | c :: r =>
      if (c =? Ch.dot) && negb (is_empty r) && forallb is_az09_i r
      then []
      else c :: stripExtension r
  end.

(** The characters [.replace(/[^a-z0-9\-\s_]/g, ' ')] keeps. *)
Definition is_kept (c : char) : bool :=
  is_az09 c || is_hyphen c || is_space c || (c =? Ch.underscore).

Definition blankForeign (s : str) : str :=
  List.map (fun c => if is_kept c then c else Ch.space) s.

(** [.replace(/[...]+/g, '-')] for a character class [p]: every maximal run
    of characters of the class becomes one hyphen (written when the last
    character of the run is reached). *)
Fixpoint collapseRuns (p : char -> bool) (s : str) : str :=
  match s with
  | [] => []
  | c :: r =>
      if p c then
        match r with
        | c' :: _ => if p c' then collapseRuns p r else Ch.hyphen :: collapseRuns p r
        | [] => [Ch.hyphen]
        end
      else c :: collapseRuns p r
  end.

(** The class [[\s_]]. *)
Definition is_space_or_underscore (c : char) : bool :=
  is_space c || (c =? Ch.underscore).

(** [.replace(/^-|-$/g, '')]: the first alternative removes a hyphen at
    index 0, the second one a hyphen at the last index (of what is left when
    the string is a single hyphen). *)
Definition stripLeadingHyphen (s : str) : str :=
  match s with
  | c :: r => if is_hyphen c then r else s
  | [] => []
  end.

Fixpoint stripTrailingHyphen (s : str) : str :=
  match s with
  | [] => []
  | [c] => if is_hyphen c then [] else [c]
  | c :: r => c :: stripTrailingHyphen r
  end.

Definition stripEdgeHyphens (s : str) : str :=
  stripTrailingHyphen (stripLeadingHyphen s).

Section Sanitizer.

(** [String.prototype.toLowerCase] follows the Unicode case mappings (it can
    even change the length of a string); it is a parameter. *)
Variable toLowerCase : str -> str.

(** The chain of replacements up to the first edge strip. *)
Definition cleanedBeforeSlice (input : str) : str :=
  stripEdgeHyphens
    (collapseRuns is_hyphen
      (collapseRuns is_space_or_underscore
        (blankForeign
          (stripExtension
            (removeQuotes
              (toLowerCase
                (trim (firstLine input)))))))).

(** src/ai-filename.ts, lines 207-228. *)
Definition sanitizeFilename (input : str) : option str :=
  let cleaned := stripEdgeHyphens (slice0 60 (cleanedBeforeSlice input)) in
  if is_empty cleaned then None else Some cleaned.

End Sanitizer.

(** The copy of the service at the head of src/unnamed/part_000 (lines
    140-158) ends its chain with [.slice(0, 60)]: it has no second edge
    strip. *)
Module Part000.

Definition sanitizeFilename (toLowerCase : str -> str) (input : str) : option str :=
  let cleaned := slice0 60 (cleanedBeforeSlice toLowerCase input) in
  if is_empty cleaned then None else Some cleaned.

End Part000.

(** ASCII lower-casing, the restriction of [toLowerCase] to ASCII input. *)
Definition asciiLower (s : str) : str :=
  List.map (fun c => if is_upper c then c + 32 else c) s.

(** ** The shape of a stem: [^[a-z0-9]+(-[a-z0-9]+)*$] *)

(** [[a-z0-9]+] *)
Definition is_word (w : str) : Prop := w <> [] /\ forallb is_az09 w = true.

Inductive matches_stem : str -> Prop :=
| stem_word w : is_word w -> matches_stem w
| stem_more w s : is_word w -> matches_stem s -> matches_stem (w ++ Ch.hyphen :: s).

Definition is_stem_char (c : char) : bool := is_az09 c || is_hyphen c.

Fixpoint no_hyphen_pair (s : str) : bool :=
  match s with
  | a :: r =>
      match r with
      | b :: _ => negb (is_hyphen a && is_hyphen b) && no_hyphen_pair r
      | [] => true
      end
  | [] => true
  end.

Definition head_not_hyphen (s : str) : bool :=
  match s with c :: _ => negb (is_hyphen c) | [] => true end.

Fixpoint last_not_hyphen (s : str) : bool :=
  match s with
  | [] => true
  | [c] => negb (is_hyphen c)
  | _ :: r => last_not_hyphen r
  end.

(** A decidable form of [matches_stem]. *)
Definition stemb (s : str) : bool :=
  negb (is_empty s) && forallb is_stem_char s && no_hyphen_pair s &&
  head_not_hyphen s && last_not_hyphen s.

(** ** JavaScript Numbers that hold a natural number *)

(** [parseInt] of an unsigned digit string and the counter of
    [findNextAvailableNumber] only produce Numbers whose value is a natural
    number or [Infinity].  A Number is a binary64 float: naturals below
    [2^53] are exact, larger ones are rounded to 53 significant bits. *)
Inductive Number : Set :=
| Int (n : N)
| Infinity.

#[global] Instance Number_eq_dec : EqDecision Number.
Proof. solve_decision. Defined.

#[global] Instance Number_countable : Countable Number.
Proof.
  refine (inj_countable'
            (fun x => match x with Int n => Some n | Infinity => None end)
            (fun o => match o with Some n => Int n | None => Infinity end) _).
  intros []; reflexivity.
Defined.

(** The Number nearest to a natural number: round to nearest, ties to even,
    on 53 significant bits; [2^1024] and above overflow to [Infinity]. *)
Definition toNumber (n : N) : Number :=
  if n <? 2 ^ 53 then Int n
  else
    let e := N.log2 n - 52 in
    let q := N.shiftr n e in
    let r := n mod 2 ^ e in
    let half := 2 ^ (e - 1) in
    let q' := if (half <? r) || ((r =? half) && N.odd q) then q + 1 else q in
    let v := q' * 2 ^ e in
    if v <? 2 ^ 1024 then Int v else Infinity.

(** [candidate++] *)
Definition increment (x : Number) : Number :=
  match x with
  | Int n => toNumber (n + 1)
  | Infinity => Infinity
  end.

(** The mathematical value of a string of ASCII digits. *)
Definition digitsValue (ds : str) : N :=
  fold_left (fun acc d => 10 * acc + (d - 48)) ds 0.

(** [parseInt(ds, 10)] for [ds] a match of [\d+]. *)
Definition parseInt10 (ds : str) : Number := toNumber (digitsValue ds).

(** Template interpolation of a Number.  An integral Number below [10^21]
    is printed as its decimal expansion; [findNextAvailableNumber] never
    returns more than [2^53] (lemma [probe_bound] below), so the exponent
    notation of larger Numbers is not reached and not modelled. *)
Definition numberToString (x : Number) : str :=
  match x with
  | Int n => lit (DecimalString.NilZero.string_of_uint (N.to_uint n))
  | Infinity => lit "Infinity"
  end.

(** ** The filename allocator ([ScratchpadsManager], part_000) *)

(** What [\.(.+)$] matches, anchored at the start of [s]: a dot, then one or
    more characters that are not line terminators, up to the end. *)
Definition dot_rest (s : str) : bool :=
  match s with
  | c :: r =>
      (c =? Ch.dot) && negb (is_empty r) &&
      forallb (fun x => negb (is_line_terminator x)) r
  | [] => false
  end.

(** [new RegExp(`^${escapedPrefix}\\.(.+)$`).test(file)]: the escaping of
    [baseFilename] puts a backslash before every character that is special
    in a pattern, so the prefix is matched literally. *)
Definition basePattern_test (baseFilename file : str) : bool :=
  match strip_prefix baseFilename file with
  | Some r => dot_rest r
  | None => false
  end.

(** [file.match(numberedPattern)] with the pattern
    [^${escapedPrefix}(\d+)\.(.+)$]; the result is the first group. *)
Definition numberedPattern_match (baseFilename file : str) : option str :=
  match strip_prefix baseFilename file with
  | Some r =>
      let ds := takeWhile is_digit r in
      if negb (is_empty ds) && dot_rest (dropWhile is_digit r)
      then Some ds else None
  | None => None
  end.

(** part_000, lines 754-768; [files] is [Utils.getScratchpadFiles()]. *)
Definition baseFilenameExists (files : list str) (baseFilename : str) : bool :=
  existsb (basePattern_test baseFilename) files.

(** The body of the [for] loop of [findNextAvailableNumber]. *)
Definition collectNumber (baseFilename : str) (used : gset Number) (file : str)
  : gset Number :=
  match numberedPattern_match baseFilename file with
  | Some ds => {[ parseInt10 ds ]} ∪ used
  | None => used
  end.

(** [usedNumbers] once the loop is over. *)
Definition usedNumbers (files : list str) (baseFilename : str) : gset Number :=
  fold_left (collectNumber baseFilename) files ∅.

(** [while (usedNumbers.has(candidate)) candidate++], with fuel: the loop
    of the source need not end once [candidate] reaches [2^53]. *)
Fixpoint probe (fuel : nat) (used : gset Number) (candidate : Number) : option Number :=
  match fuel with
  | O => None
  | S fuel' =>
      if bool_decide (candidate ∈ used)
      then probe fuel' used (increment candidate)
      else Some candidate
  end.

(** part_000, lines 784-818.  [None]: the fuel ran out. *)
Definition findNextAvailableNumber (fuel : nat) (files : list str) (baseFilename : str)
  : option Number :=
  let used := usedNumbers files baseFilename in
  if bool_decide (size used = 0%nat) then Some (Int 1)
  else probe fuel used (Int 1).

(** The file name computed by [createScratchpad] (part_000, lines 270-281)
    from the base name and the extension of the selected file type. *)
Definition createScratchpad_finalFilename
  (fuel : nat) (files : list str) (baseFilename ext : str) : option str :=
  if negb (baseFilenameExists files baseFilename)
  then Some (baseFilename ++ ext)
  else
    match findNextAvailableNumber fuel files baseFilename with
    | Some nextNumber => Some (baseFilename ++ numberToString nextNumber ++ ext)
    | None => None
    end.

(** ** Effects: calls to the host, exceptions, promises that never settle *)

Inductive Exn : Set :=
| Error (message : str)
| TypeError (message : str)
| SyntaxError (message : str).

(** How a call, an awaited promise or a whole function ends. *)
Inductive Outcome (A : Type) : Type :=
| Returned (a : A)
| Thrown (e : Exn)
| Pending.

Arguments Returned {A} a.
Arguments Thrown {A} e.
Arguments Pending {A}.

(** A selector passed to [vscode.lm.selectChatModels]. *)
Record Selector : Set := { vendor : str; family : option str }.

(** A chat model of the host, an opaque handle. *)
Definition Model := N.

(** How the async iteration of [response.text] ends. *)
Inductive StreamEnd : Set :=
| StreamDone
| StreamFails (e : Exn)
| StreamStalls.

Record ResponseStream : Set := { fragments : list str; streamEnd : StreamEnd }.

(** The body given to [JSON.stringify] in [suggestWithOpenAI]; the
    temperature 0.2 is kept as the fraction 1/5. *)
Record Message : Set := { role : str; content : str }.

Record Payload : Set := {
  model : str;
  messages : list Message;
  temperature : positive * positive;
  max_tokens : N
}.

(** What [postJSON] hands to [https.request], with the delay given to
    [req.setTimeout] ([None]: no timer is armed). *)
Record Request : Set := {
  method : str;
  hostname : str;
  path : str;
  headers : list (str * str);
  body : Payload;
  timeoutMs : option N
}.

(** The events Node delivers to the listeners of one request, in order. *)
Inductive ReqEvent : Set :=
| OnResponse (statusCode : option N)
| OnData (chunk : str)
| OnEnd
| OnError (e : Exn)
| OnTimeout.

(** [openEditor?.document.isDirty] of an editor found by
    [Utils.findOpenEditor]. *)
Record Editor : Set := { editorIsDirty : bool }.

(** The calls that leave the modelled code, indexed by what they return. *)
Inductive Call : Type -> Type :=
| SelectChatModels (selector : Selector) : Call (list Model)
| SendRequest (m : Model) (prompt : list str) : Call ResponseStream
| DisposeTokenSource : Call unit
| HttpsRequest (req : Request) : Call (list ReqEvent)
| DestroyRequest (e : Exn) : Call unit
| ExistsSync (p : str) : Call bool
| FindOpenEditor (p : str) : Call (option Editor)
| RenameFile (from to : str) : Call unit
| CloseAllTabsForFile (p : str) : Call unit
| OpenFile (p : str) : Call unit.

(** The functions of the service whose invocations are observed. *)
Inductive Callee : Set :=
| LocalBackend     (* suggestWithVSCodeLM *)
| RemoteBackend    (* suggestWithOpenAI *)
| ProviderChain.   (* suggestFilename *)

#[global] Instance Callee_eq_dec : EqDecision Callee.
Proof. solve_decision. Defined.

(** A mark left in the trace where the code invokes one of them. *)
Record Invocation : Set := { callee : Callee; arg_content : str; arg_fileExt : str }.

Definition localMark (content fileExt : str) : Invocation :=
  {| callee := LocalBackend; arg_content := content; arg_fileExt := fileExt |}.

Definition remoteMark (content fileExt : str) : Invocation :=
  {| callee := RemoteBackend; arg_content := content; arg_fileExt := fileExt |}.

Definition chainMark (content fileExt : str) : Invocation :=
  {| callee := ProviderChain; arg_content := content; arg_fileExt := fileExt |}.

(** Programs: trees of calls.  The continuation of a call receives its
    outcome, so that [try]/[catch] sees the exceptions of calls. *)
Inductive Prog (A : Type) : Type :=
| Ret (a : A)
| Throw (e : Exn)
| Hang
| Mark (m : Invocation) (k : Prog A)
| Vis (X : Type) (c : Call X) (k : Outcome X -> Prog A).

Arguments Ret {A} a.
Arguments Throw {A} e.
Arguments Hang {A}.
Arguments Mark {A} m k.
Arguments Vis {A X} c k.

Fixpoint bind {A B : Type} (p : Prog A) (f : A -> Prog B) : Prog B :=
  match p with
  | Ret a => f a
  | Throw e => Throw e
  | Hang => Hang
  | Mark m k => Mark m (bind k f)
  | Vis c k => Vis c (fun r => bind (k r) f)
  end.

#[global] Instance Prog_ret : MRet Prog := fun A a => Ret a.
#[global] Instance Prog_bind : MBind Prog := fun A B f p => bind p f.

(** An outcome as a program. *)
Definition lift {A : Type} (o : Outcome A) : Prog A :=
  match o with
  | Returned a => Ret a
  | Thrown e => Throw e
  | Pending => Hang
  end.

(** [await] of a call (or a synchronous call). *)
Definition call {X : Type} (c : Call X) : Prog X := Vis c lift.

(** [try { p } catch (e) { h e }] *)
Fixpoint try_catch {A : Type} (p : Prog A) (h : Exn -> Prog A) : Prog A :=
  match p with
  | Ret a => Ret a
  | Throw e => h e
  | Hang => Hang
  | Mark m k => Mark m (try_catch k h)
  | Vis c k => Vis c (fun r => try_catch (k r) h)
  end.

(** [try { p } finally { f }] *)
Fixpoint try_finally {A : Type} (p : Prog A) (f : Prog unit) : Prog A :=
  match p with
  | Ret a => f ;; Ret a
  | Throw e => f ;; Throw e
  | Hang => Hang
  | Mark m k => Mark m (try_finally k f)
  | Vis c k => Vis c (fun r => try_finally (k r) f)
  end.

(** What a run leaves behind. *)
Inductive Event : Type :=
| Invoked (m : Invocation)
| Called (X : Type) (c : Call X).

Arguments Called {X} c.

Section Run.

Context {World : Type}.

(** The host: how it answers a call in a given state. *)
Variable handler : forall X : Type, Call X -> World -> Outcome X * World.

Fixpoint run {A : Type} (p : Prog A) (w : World) : Outcome A * World * list Event :=
  match p with
  | Ret a => (Returned a, w, [])
  | Throw e => (Thrown e, w, [])
  | Hang => (Pending, w, [])
  | Mark m k =>
      let '(o, w', t) := run k w in (o, w', Invoked m :: t)
  | Vis c k =>
      let '(r, w1) := handler _ c w in
      let '(o, w2, t) := run (k r) w1 in
      (o, w2, Called c :: t)
  end.

End Run.

(** The parts of what a run gives. *)
Definition outcome_of {World A : Type} (r : Outcome A * World * list Event) : Outcome A :=
  fst (fst r).

Definition trace_of {World A : Type} (r : Outcome A * World * list Event) : list Event :=
  snd r.

(** Classification of events. *)
Definition is_rename (ev : Event) : bool :=
  match ev with Called (RenameFile _ _) => true | _ => false end.

Definition invokes (f : Callee) (ev : Event) : bool :=
  match ev with
  | Invoked m => bool_decide (callee m = f)
  | Called _ => false
  end.

(** The calls that change the file system or the editor tabs. *)
Definition is_mutation (ev : Event) : bool :=
  match ev with
  | Called (RenameFile _ _) | Called (CloseAllTabsForFile _) | Called (OpenFile _) => true
  | _ => false
  end.

(** ** Values read from JSON and from the configuration *)

(** A value produced by [JSON.parse], or [undefined].  A number is kept as
    the decimal it was written as: mantissa times ten to the exponent. *)
#[local] Set Warnings "-register-all".
Inductive JSValue : Set :=
| JUndefined
| JNull
| JBool (b : bool)
| JNumber (mantissa exponent : Z)
| JString (s : str)
| JArray (items : list JSValue)
| JObject (fields : list (str * JSValue)).
#[local] Set Warnings "register-all".

(** Whether a decimal denotes the Number zero: it is zero, or it is at most
    [2^-1075] in magnitude and rounds to zero. *)
Definition number_is_zero (mantissa exponent : Z) : bool :=
  ((mantissa =? 0) ||
   ((exponent <? 0) && (Z.abs mantissa * 2 ^ 1075 <=? 10 ^ (- exponent))))%Z.

(** ToBoolean. *)
Definition truthy (v : JSValue) : bool :=
  match v with
  | JUndefined | JNull => false
  | JBool b => b
  | JNumber m e => negb (number_is_zero m e)
  | JString s => negb (is_empty s)
  | JArray _ | JObject _ => true
  end.

Definition nullish (v : JSValue) : bool :=
  match v with JUndefined | JNull => true | _ => false end.

Fixpoint lookup_field (key : str) (fields : list (str * JSValue)) : JSValue :=
  match fields with
  | [] => JUndefined
  | (k, v) :: rest => if str_eqb k key then v else lookup_field key rest
  end.

(** [v.key] for [v] neither [undefined] nor [null] and [key] one of
    [choices], [message], [content], which no prototype defines. *)
Definition getProp (key : str) (v : JSValue) : JSValue :=
  match v with
  | JObject fields => lookup_field key fields
  | _ => JUndefined
  end.

(** [v[0]] for [v] neither [undefined] nor [null]. *)
Definition getIndex0 (v : JSValue) : JSValue :=
  match v with
  | JArray (x :: _) => x
  | JString (c :: _) => JString [c]
  | JObject fields => lookup_field (lit "0") fields
  | _ => JUndefined
  end.

(** [response.choices?.[0]?.message?.content]: the first access is a plain
    one and throws on [null]; each [?.] ends the chain with [undefined] when
    what precedes it is [undefined] or [null]. *)
Definition extractContent (response : JSValue) : Outcome JSValue :=
  if nullish response
  then Thrown (TypeError (lit "Cannot read properties of null"))
  else
    let choices := getProp (lit "choices") response in
    if nullish choices then Returned JUndefined
    else
      let first := getIndex0 choices in
      if nullish first then Returned JUndefined
      else
        let message := getProp (lit "message") first in
        if nullish message then Returned JUndefined
        else Returned (getProp (lit "content") message).

(** The settings read through [Config.getExtensionConfiguration]; [None] is
    a setting that is not set. *)
Record Config : Set := {
  renameProvider : option str;
  openAIApiKey : option str;
  openAIModel : option str;
  autoRenameMinChars : option Z;
  filePrefix : option str
}.

(** [(setting as string) || fallback] *)
Definition str_or (setting : option str) (fallback : str) : str :=
  match setting with
  | Some s => if is_empty s then fallback else s
  | None => fallback
  end.

(** [(setting as number) || fallback] *)
Definition num_or (setting : option Z) (fallback : Z) : Z :=
  match setting with
  | Some n => if (n =? 0)%Z then fallback else n
  | None => fallback
  end.

(** What the code probes of the runtime. *)
Record Host : Set := {
  has_lm : bool;                          (* vscode.lm *)
  has_LanguageModelChatMessage : bool;    (* vscode.LanguageModelChatMessage *)
  platform_win32 : bool;                  (* process.platform === 'win32' *)
  projectScratchpadsPath : str            (* Config.projectScratchpadsPath *)
}.

Definition DEFAULT_FILE_PREFIX : str := lit "scratch".

(** The functions of Node's [path] module the manager uses. *)
Class PathLib : Type := {
  path_dirname : str -> str;
  path_basename : str -> str;
  path_basename_ext : str -> str -> str;   (* path.basename(p, ext) *)
  path_extname : str -> str;
  path_resolve : str -> str;
  path_relative : str -> str -> str;
  path_isAbsolute : str -> bool
}.

(** ** The suggestion backends and the provider chain (src/ai-filename.ts) *)

Definition selectors : list Selector :=
  [ {| vendor := lit "copilot"; family := Some (lit "gpt-5-mini") |};
    {| vendor := lit "copilot"; family := Some (lit "gpt-4o-mini") |};
    {| vendor := lit "copilot"; family := None |} ].

(** The [for] loop over the selectors: [const [candidate] = await ...] takes
    the first element of the array, and the loop stops at the first one. *)
Fixpoint selectModel (sels : list Selector) : Prog (option Model) :=
  match sels with
  | [] => Ret None
  | selector :: rest =>
      candidates ← call (SelectChatModels selector);
      match candidates with
      | candidate :: _ => Ret (Some candidate)
      | [] => selectModel rest
      end
  end.

(** [for await (const fragment of response.text) output += fragment] *)
Definition collect (response : ResponseStream) : Prog str :=
  match streamEnd response with
  | StreamDone => Ret (List.concat (fragments response))
  | StreamFails e => Throw e
  | StreamStalls => Hang
  end.

Definition localInstruction (fileExt : str) : str :=
  lit "Generate a short, descriptive filename based on content. Respond with filename text only, no extension, no markdown, no quotes, lowercase with dashes only. Target extension: "
  ++ str_or (Some fileExt) (lit "none") ++ lit ".".

Definition systemInstruction : str :=
  lit "Return a concise lowercase filename with dashes only. Do not include extension, punctuation, code fences, quotes, or extra text.".

Definition userInstruction (fileExt content : str) : str :=
  lit "Suggest a filename for this " ++ str_or (Some fileExt) (lit "text")
  ++ lit " scratchpad:" ++ [Ch.newline; Ch.newline] ++ content.

(** [res.statusCode && res.statusCode >= 200 && res.statusCode < 300] *)
Definition status_ok (statusCode : option N) : bool :=
  match statusCode with
  | Some code => negb (code =? 0) && (200 <=? code) && (code <? 300)
  | None => false
  end.

Definition statusError : Exn := Error (lit "OpenAI request failed with status").
Definition timeoutError : Exn := Error (lit "OpenAI request timed out").

(** The listeners [postJSON] registers, run over the events of the request
    until its promise settles.  [res] is the status of the response once its
    stream is open and [data] what was received of it.  The promise settles
    once: at [end] by the status, at [error] by rejection.  The timeout
    listener destroys the request with an error, which Node reports to the
    [error] listener.  The run of [postJSON] ends where the promise settles:
    the events after that are no part of it.  (The listeners stay registered,
    so a timeout event that came after the promise settled would still
    destroy the request, once the backend has returned.)  A list of events
    that ends before the promise settled is a request that delivers nothing
    more: no timer runs on a connection that was closed, and the response
    stream has no [error] listener. *)
Fixpoint dispatch (timeout : option N) (events : list ReqEvent)
  (res : option (option N)) (data : str) : Prog str :=
  match events with
  | [] => Hang
  | ev :: rest =>
      match ev with
      | OnResponse statusCode => dispatch timeout rest (Some statusCode) []
      | OnData chunk =>
          match res with
          | Some _ => dispatch timeout rest res (data ++ chunk)
          | None => dispatch timeout rest res data
          end
      | OnEnd =>
          match res with
          | Some statusCode =>
              if status_ok statusCode then Ret data else Throw statusError
          | None => dispatch timeout rest res data
          end
      | OnError e => Throw e
      | OnTimeout =>
          match timeout with
          | Some _ => call (DestroyRequest timeoutError);; Throw timeoutError
          | None => dispatch timeout rest res data
          end
      end
  end.

Definition endpoint_hostname : str := lit "api.openai.com".
Definition endpoint_path : str := lit "/v1/chat/completions".

(** What [postJSON] gives to [https.request] for the one URL it is called
    with (the [Content-Length] header, the byte length of the serialized
    body, is left out); [timeout] is what is given to [req.setTimeout]. *)
Definition requestOf (timeout : option N) (payload : Payload)
  (extraHeaders : list (str * str)) : Request :=
  {| method := lit "POST";
     hostname := endpoint_hostname;
     path := endpoint_path;
     headers := (lit "Content-Type", lit "application/json") :: extraHeaders;
     body := payload;
     timeoutMs := timeout |}.

(** src/ai-filename.ts, lines 230-293. *)
Definition postJSON_with (timeout : option N) (payload : Payload)
  (extraHeaders : list (str * str)) : Prog str :=
  events ← call (HttpsRequest (requestOf timeout payload extraHeaders));
  dispatch timeout events None [].

Definition timeoutMs_const : N := 10000.

Definition postJSON : Payload -> list (str * str) -> Prog str :=
  postJSON_with (Some timeoutMs_const).

Section Service.

Variable toLowerCase : str -> str.

(** [JSON.parse]; [None] when it throws a [SyntaxError]. *)
Variable JSON_parse : str -> option JSValue.

Variable cfg : Config.
Variable host : Host.

(** The [try] block of [suggestWithVSCodeLM]. *)
Definition localBody (content fileExt : str) : Prog (option str) :=
  if negb (has_lm host) || negb (has_LanguageModelChatMessage host)
  then Ret None
  else
    found ← selectModel selectors;
    match found with
    | None => Ret None
    | Some m =>
        let prompt := [localInstruction fileExt; content] in
        output ← try_finally
                   (response ← call (SendRequest m prompt); collect response)
                   (call DisposeTokenSource);
        Ret (sanitizeFilename toLowerCase output)
    end.

(** src/ai-filename.ts, lines 59-140. *)
Definition suggestWithVSCodeLM (content fileExt : str) : Prog (option str) :=
  try_catch (localBody content fileExt) (fun _ => Ret None).

(** The [try] block of [suggestWithOpenAI] after the response arrived: it
    calls nothing, and returns or throws. *)
Definition readSuggestion (rawResponse : str) : Outcome (option str) :=
  match JSON_parse rawResponse with
  | None => Thrown (SyntaxError (lit "Unexpected token"))
  | Some response =>
      match extractContent response with
      | Returned text =>
          if negb (truthy text) then Returned None
          else
            match text with
            | JString s => Returned (sanitizeFilename toLowerCase s)
            | _ => Thrown (TypeError (lit "input.split is not a function"))
            end
      | Thrown e => Thrown e
      | Pending => Pending
      end
  end.

Definition requestPayload (content fileExt : str) : Payload :=
  {| model := str_or (openAIModel cfg) (lit "gpt-5-mini");
     messages := [ {| role := lit "system"; content := systemInstruction |};
                   {| role := lit "user"; content := userInstruction fileExt content |} ];
     temperature := (1, 5)%positive;
     max_tokens := 24 |}.

Definition apiKeyOf : str := str_or (openAIApiKey cfg) [].

Definition authorization : list (str * str) :=
  [(lit "Authorization", lit "Bearer " ++ apiKeyOf)].

(** The [try] block of [suggestWithOpenAI], over a given [postJSON]. *)
Definition remoteBody (post : Payload -> list (str * str) -> Prog str)
  (content fileExt : str) : Prog (option str) :=
  rawResponse ← post (requestPayload content fileExt) authorization;
  lift (readSuggestion rawResponse).

(** src/ai-filename.ts, lines 142-205, over a given [postJSON]. *)
Definition suggestWithOpenAI_over (post : Payload -> list (str * str) -> Prog str)
  (content fileExt : str) : Prog (option str) :=
  if is_empty apiKeyOf then Ret None
  else try_catch (remoteBody post content fileExt) (fun _ => Ret None).

Definition suggestWithOpenAI : str -> str -> Prog (option str) :=
  suggestWithOpenAI_over postJSON.

(** What [suggestWithOpenAI] makes of the outcome of [postJSON]. *)
Definition remoteResult (posted : Outcome str) : Outcome (option str) :=
  match posted with
  | Returned rawResponse =>
      match readSuggestion rawResponse with
      | Thrown _ => Returned None
      | other => other
      end
  | Thrown _ => Returned None
  | Pending => Pending
  end.

(** [if (vscodeSuggestion)] *)
Definition present (suggestion : option str) : bool :=
  match suggestion with
  | Some s => negb (is_empty s)
  | None => false
  end.

(** [(Config.getExtensionConfiguration(CONFIG_RENAME_PROVIDER) as
    RenameProvider) || 'auto'] *)
Definition providerOf : str := str_or (renameProvider cfg) (lit "auto").

(** src/ai-filename.ts, lines 28-57, over two given backends; each
    invocation of a backend leaves a mark. *)
Definition suggestFilename_over (localB remoteB : str -> str -> Prog (option str))
  (content fileExt : str) : Prog (option str) :=
  let provider := providerOf in
  let remoteStep :=
    if str_eqb provider (lit "openai") || str_eqb provider (lit "auto")
    then Mark (remoteMark content fileExt) (remoteB content fileExt)
    else Ret None in
  if str_eqb provider (lit "vscode") || str_eqb provider (lit "auto")
  then
    vscodeSuggestion ← Mark (localMark content fileExt) (localB content fileExt);
    if present vscodeSuggestion then Ret vscodeSuggestion else remoteStep
  else remoteStep.

Definition suggestFilename : str -> str -> Prog (option str) :=
  suggestFilename_over suggestWithVSCodeLM suggestWithOpenAI.

End Service.

(** src/ai-filename.ts, lines 295-298. *)
Definition buildFinalFilename {pathLib : PathLib} (baseName currentFilePath : str) : str :=
  baseName ++ path_extname currentFilePath.

(** ** The auto-rename orchestrator ([ScratchpadsManager], part_000) *)

Record Document : Set := {
  fileName : str;    (* document.fileName *)
  getText : str      (* document.getText() *)
}.

Definition is_separator (c : char) : bool := (c =? Ch.backslash) || (c =? Ch.slash).

(** [.replace(/[\\/]+$/, '')]: the trailing run of separators goes. *)
Definition stripTrailingSeparators (s : str) : str :=
  rev (dropWhile is_separator (rev s)).

(** [new RegExp(`^${escapedPrefix}\\d*$`).test(name)] *)
Definition scratchNamePattern_test (configuredPrefix name : str) : bool :=
  match strip_prefix configuredPrefix name with
  | Some r => forallb is_digit r
  | None => false
  end.

Section Manager.

Context {pathLib : PathLib}.

Variable toLowerCase : str -> str.
Variable JSON_parse : str -> option JSValue.

(** [Utils.getScratchpadFilePath], of a file that is not under src/: it
    resolves a file name to its path in the scratchpad folder. *)
Variable getScratchpadFilePath : str -> str.

Variable cfg : Config.
Variable host : Host.

(** part_000, lines 691-700. *)
Definition normalizePath (inputPath : str) : str :=
  let resolved := path_resolve inputPath in
  let withoutTrailing := stripTrailingSeparators resolved in
  if platform_win32 host then toLowerCase withoutTrailing else withoutTrailing.

(** part_000, lines 702-713. *)
Definition isPathInsideRoot (candidatePath rootPath : str) : bool :=
  if is_empty candidatePath || is_empty rootPath then false
  else if str_eqb candidatePath rootPath then true
  else
    let relativePath := path_relative rootPath candidatePath in
    negb (is_empty relativePath) && negb (startsWith relativePath (lit ".."))
    && negb (path_isAbsolute relativePath).

(** part_000, lines 661-681. *)
Definition isScratchpadDocument (document : Document) : bool :=
  let editorPath := path_dirname (fileName document) in
  let normalizedEditorPath := normalizePath editorPath in
  let normalizedProjectPath := normalizePath (projectScratchpadsPath host) in
  let matchesProjectFolder := str_eqb normalizedEditorPath normalizedProjectPath in
  let isUnderProjectScratchpads := isPathInsideRoot normalizedEditorPath normalizedProjectPath in
  matchesProjectFolder || isUnderProjectScratchpads.

(** [try { suggestion = await suggest(...) } catch { return }]: the
    outcome of the awaited call, as a value. *)
Definition attempt {A : Type} (p : Prog A) : Prog (option A) :=
  try_catch (x ← p; Ret (Some x)) (fun _ => Ret None).

(** The [try] block that ends [autoRenameScratchpadFromDocument]. *)
Definition commitRename (currentFilePath newFilePath : str) : Prog unit :=
  try_catch
    (openEditor ← call (FindOpenEditor currentFilePath);
     if match openEditor with Some editor => editorIsDirty editor | None => false end
     then Ret tt
     else
       call (RenameFile currentFilePath newFilePath);;
       match openEditor with
       | Some _ =>
           call (CloseAllTabsForFile currentFilePath);;
           call (OpenFile newFilePath)
       | None => Ret tt
       end)
    (fun _ => Ret tt).

(** What follows the suggestion step (part_000, lines 478-540). *)
Definition afterSuggestion (currentFilePath currentBaseName : str)
  (suggestion : option str) : Prog unit :=
  match suggestion with
  | None => Ret tt
  | Some stem =>
      if is_empty stem || str_eqb stem currentBaseName then Ret tt
      else
        let finalFileName := buildFinalFilename stem currentFilePath in
        let newFilePath := getScratchpadFilePath finalFileName in
        if str_eqb (normalizePath newFilePath) (normalizePath currentFilePath) then Ret tt
        else
          destinationExists ← call (ExistsSync newFilePath);
          if (destinationExists : bool) then Ret tt
          else commitRename currentFilePath newFilePath
  end.

(** The three gates that precede the suggestion step. *)
Definition trimmedContent (document : Document) : str := trim (getText document).

Definition minChars : Z := num_or (autoRenameMinChars cfg) 20.

Definition currentBaseNameOf (document : Document) : str :=
  let currentFileName := path_basename (fileName document) in
  path_basename_ext currentFileName (path_extname currentFileName).

Definition configuredPrefix : str := str_or (filePrefix cfg) DEFAULT_FILE_PREFIX.

(** part_000, lines 412-540, over a given provider chain; the invocation
    of the chain leaves a mark. *)
Definition autoRename_over (suggest : str -> str -> Prog (option str))
  (document : Document) : Prog unit :=
  if negb (isScratchpadDocument document) then Ret tt
  else
    let content := trimmedContent document in
    if (Z.of_nat (length content) <? minChars)%Z then Ret tt
    else
      let currentFilePath := fileName document in
      let currentFileName := path_basename currentFilePath in
      let currentBaseName := currentBaseNameOf document in
      if negb (scratchNamePattern_test configuredPrefix currentBaseName) then Ret tt
      else
        let maxChars := 6000 in
        let chainContent := slice0 maxChars content in
        let chainExt := path_extname currentFileName in
        outcome ← attempt
                    (Mark (chainMark chainContent chainExt)
                       (suggest chainContent chainExt));
        match outcome with
        | None => Ret tt
        | Some suggestion => afterSuggestion currentFilePath currentBaseName suggestion
        end.

Definition autoRenameScratchpadFromDocument : Document -> Prog unit :=
  autoRename_over (suggestFilename toLowerCase JSON_parse cfg host).

End Manager.

(** ** A POSIX instance of the path library and a host, for running the model *)

(** Node's [path.posix], after its documentation, relative to a working
    directory [cwd]. *)
Module Posix.

Definition is_slash (c : char) : bool := c =? Ch.slash.
Definition not_slash (c : char) : bool := negb (is_slash c).

Fixpoint segments_from (cur : str) (s : str) : list str :=
  match s with
  | [] => if is_empty cur then [] else [rev cur]
  | c :: r =>
      if is_slash c
      then if is_empty cur then segments_from [] r else rev cur :: segments_from [] r
      else segments_from (c :: cur) r
  end.

(** The non-empty components of a path. *)
Definition segments (s : str) : list str := segments_from [] s.

(** Removal of [.] and resolution of [..] ([acc] is reversed). *)
Fixpoint normalizeSegments (acc segs : list str) : list str :=
  match segs with
  | [] => rev acc
  | s :: r =>
      if str_eqb s (lit ".") then normalizeSegments acc r
      else if str_eqb s (lit "..") then normalizeSegments (tail acc) r
      else normalizeSegments (s :: acc) r
  end.

Definition join (segs : list str) : str :=
  match segs with
  | [] => []
  | s :: r => s ++ List.concat (List.map (fun x => Ch.slash :: x) r)
  end.

Definition isAbsolute (p : str) : bool :=
  match p with c :: _ => is_slash c | [] => false end.

Definition resolveSegments (cwd p : str) : list str :=
  normalizeSegments []
    (if isAbsolute p then segments p else segments cwd ++ segments p).

Definition resolve (cwd p : str) : str := Ch.slash :: join (resolveSegments cwd p).

Fixpoint dropCommon (a b : list str) : list str * list str :=
  match a, b with
  | x :: a', y :: b' => if str_eqb x y then dropCommon a' b' else (a, b)
  | _, _ => (a, b)
  end.

Definition relative (cwd from to : str) : str :=
  let '(up, down) := dropCommon (resolveSegments cwd from) (resolveSegments cwd to) in
  join (List.map (fun _ => lit "..") up ++ down).

Definition withoutTrailingSlashes (p : str) : str := rev (dropWhile is_slash (rev p)).

(** [path.posix.dirname]: what precedes the last slash that is followed by
    a component, trailing slashes apart; [/] when that slash is the first
    character, and [//] when it is the second one after a first slash. *)
Definition dirname (p : str) : str :=
  match p with
  | [] => lit "."
  | _ =>
      match withoutTrailingSlashes p with
      | [] => lit "/"
      | stem =>
          match dropWhile not_slash (rev stem) with
          | [] => lit "."
          | _ :: [] => lit "/"
          | _ :: [c] => if is_slash c then lit "//" else [c]
          | _ :: r => rev r
          end
      end
  end.

Definition basename (p : str) : str :=
  rev (takeWhile not_slash (rev (withoutTrailingSlashes p))).

Definition endsWith (s suffix : str) : bool := startsWith (rev s) (rev suffix).

Definition basename_ext (p ext : str) : str :=
  let b := basename p in
  if is_empty ext then b
  else if str_eqb ext p then []
  else if endsWith b ext && negb (str_eqb b ext)
       then firstn (length b - length ext) b
       else b.

(** From the last dot of the last component, unless there is none, or it is
    the first character of the component, or the component is [..]. *)
Definition extname (p : str) : str :=
  let b := basename p in
  let ext := rev (takeWhile (fun c => negb (c =? Ch.dot)) (rev b)) in
  if bool_decide (length ext = length b) then []
  else if bool_decide (S (length ext) = length b) then []
  else if str_eqb b (lit "..") then []
  else Ch.dot :: ext.

Definition lib (cwd : str) : PathLib :=
  {| path_dirname := dirname;
     path_basename := basename;
     path_basename_ext := basename_ext;
     path_extname := extname;
     path_resolve := resolve cwd;
     path_relative := relative cwd;
     path_isAbsolute := isAbsolute |}.

End Posix.

(** A host for running the model: a directory of files, the editors that are
    open, and fixed answers of the language model and of the network. *)
Module TestHost.

Record World : Set := {
  files : list str;
  editors : list (str * bool);
  models : list Model;
  stream : ResponseStream;
  network : list ReqEvent;
  requests : nat
}.

Definition findEditor (w : World) (p : str) : option Editor :=
  match List.find (fun e => str_eqb (fst e) p) (editors w) with
  | Some e => Some {| editorIsDirty := snd e |}
  | None => None
  end.

Definition rename (from to : str) (w : World) : World :=
  {| files := to :: List.filter (fun f => negb (str_eqb f from)) (files w);
     editors := editors w;
     models := models w;
     stream := stream w;
     network := network w;
     requests := requests w |}.

Definition countRequest (w : World) : World :=
  {| files := files w;
     editors := editors w;
     models := models w;
     stream := stream w;
     network := network w;
     requests := S (requests w) |}.

Definition handler (X : Type) (c : Call X) (w : World) : Outcome X * World :=
  match c in Call T return Outcome T * World with
  | SelectChatModels _ => (Returned (models w), w)
  | SendRequest _ _ => (Returned (stream w), w)
  | DisposeTokenSource => (Returned tt, w)
  | HttpsRequest _ => (Returned (network w), countRequest w)
  | DestroyRequest _ => (Returned tt, w)
  | ExistsSync p => (Returned (existsb (str_eqb p) (files w)), w)
  | FindOpenEditor p => (Returned (findEditor w p), w)
  | RenameFile from to =>
      if existsb (str_eqb from) (files w)
      then (Returned tt, rename from to w)
      else (Thrown (Error (lit "ENOENT")), w)
  | CloseAllTabsForFile _ => (Returned tt, w)
  | OpenFile _ => (Returned tt, w)
  end.

(** A stand-in for [JSON.parse]: the body is taken as the text of
    [choices[0].message.content]. *)
Definition parseAsContent (raw : str) : option JSValue :=
  Some (JObject [(lit "choices",
                  JArray [JObject [(lit "message",
                                    JObject [(lit "content", JString raw)])]])]).

Definition folder : str := lit "/home/u/scratchpads".

Definition getScratchpadFilePath (name : str) : str := folder ++ Ch.slash :: name.

Definition host : Host :=
  {| has_lm := false;
     has_LanguageModelChatMessage := false;
     platform_win32 := false;
     projectScratchpadsPath := folder |}.

Definition config (provider key : string) : Config :=
  {| renameProvider := Some (lit provider);
     openAIApiKey := Some (lit key);
     openAIModel := None;
     autoRenameMinChars := None;
     filePrefix := None |}.

Definition ok200 (bodyText : string) : list ReqEvent :=
  [OnResponse (Some 200); OnData (lit bodyText); OnEnd].

Definition world (names : list string) (events : list ReqEvent) : World :=
  {| files := List.map (fun n => getScratchpadFilePath (lit n)) names;
     editors := [];
     models := [];
     stream := {| fragments := []; streamEnd := StreamDone |};
     network := events;
     requests := 0 |}.

Definition document (name text : string) : Document :=
  {| fileName := getScratchpadFilePath (lit name); getText := lit text |}.

Definition pathLib : PathLib := Posix.lib (lit "/home/u").

End TestHost.

(** ** Notions the statements use *)

(** The four conditions [stemb] adds to non-emptiness. *)
Definition well_hyphenated (s : str) : Prop :=
  forallb is_stem_char s = true /\ no_hyphen_pair s = true /\
  head_not_hyphen s = true /\ last_not_hyphen s = true.

(** What [(.+)$] can match: a non-empty string without line terminator. *)
Definition is_extension (ext : str) : Prop :=
  ext <> [] /\ forallb (fun c => negb (is_line_terminator c)) ext = true.

(** [file] is [baseFilename], a dot and an extension. *)
Definition is_unsuffixed (baseFilename file : str) : Prop :=
  exists ext, file = baseFilename ++ Ch.dot :: ext /\ is_extension ext.

(** [file] is [baseFilename], one or more digits that parse to [n], a dot
    and an extension. *)
Definition is_numbered (baseFilename file : str) (n : Number) : Prop :=
  exists digits ext,
    file = baseFilename ++ digits ++ Ch.dot :: ext /\
    digits <> [] /\ forallb is_digit digits = true /\
    is_extension ext /\ parseInt10 digits = n.

(** The listing of the example of [findNextAvailableNumber]. *)
Definition example_files : list str :=
  [lit "s.js"; lit "s1.ts"; lit "s3.sql"; lit "s4.js"].

(** Arrays hold fewer than [2^32] elements. *)
Definition is_array {A : Type} (l : list A) : Prop := N.of_nat (length l) < 2 ^ 32.

(** What is left of the outcome of the local backend when the provider is
    [vscode]: a suggestion that is not present becomes [undefined]. *)
Definition keepPresent (o : Outcome (option str)) : Outcome (option str) :=
  match o with
  | Returned s => Returned (if present s then s else None)
  | other => other
  end.






(** The programs all of whose marks and calls are among the allowed ones. *)
Inductive emits_only (allowed : Event -> bool) {A : Type} : Prog A -> Prop :=
| emits_ret a : emits_only allowed (Ret a)
| emits_throw e : emits_only allowed (Throw e)
| emits_hang : emits_only allowed Hang
| emits_mark m k :
    allowed (Invoked m) = true -> emits_only allowed k ->
    emits_only allowed (Mark m k)
| emits_vis X (c : Call X) k :
    allowed (Called c) = true -> (forall r, emits_only allowed (k r)) ->
    emits_only allowed (Vis c k).

(** The events of the local backend, of the remote one, and of the chain. *)
Definition is_local_call (ev : Event) : bool :=
  match ev with
  | Called (SelectChatModels _) | Called (SendRequest _ _) | Called DisposeTokenSource => true
  | _ => false
  end.

Definition is_remote_call (ev : Event) : bool :=
  match ev with
  | Called (HttpsRequest _) | Called (DestroyRequest _) => true
  | _ => false
  end.

Definition is_chain_event (ev : Event) : bool :=
  is_local_call ev || is_remote_call ev
  || invokes LocalBackend ev || invokes RemoteBackend ev.

(** The events of the remote backend when every request carries the timer
    of 10000 ms. *)
Definition is_timed_remote_call (ev : Event) : bool :=
  match ev with
  | Called (HttpsRequest req) => bool_decide (timeoutMs req = Some timeoutMs_const)
  | Called (DestroyRequest _) => true
  | _ => false
  end.

(** The configured minimum of characters, 20 when the setting is not set. *)
Definition configuredMinimum (cfg : Config) : Z :=
  match autoRenameMinChars cfg with
  | Some m => m
  | None => 20%Z
  end.

(** The renames of a trace, as pairs of the old and the new path. *)
Definition rename_of (ev : Event) : option (str * str) :=
  match ev with
  | Called (RenameFile from to) => Some (from, to)
  | _ => None
  end.

(** Every rename is the one from [from] to [to]. *)
Definition renames_only (from to : str) (ev : Event) : bool :=
  match ev with
  | Called (RenameFile f t) => bool_decide (f = from /\ t = to)
  | _ => true
  end.

(** The document passes the three gates that precede the suggestion step. *)
Definition passes_gates {pathLib : PathLib} (toLowerCase : str -> str)
  (cfg : Config) (host : Host) (document : Document) : Prop :=
  isScratchpadDocument toLowerCase host document = true
  /\ (minChars cfg <= Z.of_nat (length (trimmedContent document)))%Z
  /\ scratchNamePattern_test (configuredPrefix cfg) (currentBaseNameOf document) = true.

(** What the orchestrator passes to the provider chain. *)
Definition chainContent (document : Document) : str :=
  slice0 6000 (trimmedContent document).

Definition chainExt {pathLib : PathLib} (document : Document) : str :=
  path_extname (path_basename (fileName document)).

(** The path a suggested stem renames the document to. *)
Definition destination {pathLib : PathLib} (getScratchpadFilePath : str -> str)
  (document : Document) (stem : str) : str :=
  getScratchpadFilePath (buildFinalFilename stem (fileName document)).

(** ** Notions of the further properties *)

(** What the sanitizer cleans: the first line, trimmed, lower-cased, without
    quotes and without a final extension. *)
Definition prepared (toLowerCase : str -> str) (input : str) : str :=
  stripExtension (removeQuotes (toLowerCase (trim (firstLine input)))).

(** The maximal runs of characters of [[a-z0-9]], in order. *)
Fixpoint az09_words (s : str) : list str :=
  match s with
  | [] => []
  | c :: r =>
      if is_az09 c then
        match r with
        | d :: _ =>
            if is_az09 d then
              match az09_words r with
              | w :: ws => (c :: w) :: ws
              | [] => [[c]]
              end
            else [c] :: az09_words r
        | [] => [[c]]
        end
      else az09_words r
  end.

(** Words joined by single hyphens. *)
Definition hyphenate (ws : list str) : str :=
  match ws with
  | [] => []
  | w :: rest => w ++ List.concat (List.map (cons Ch.hyphen) rest)
  end.

Definition is_ascii (c : char) : bool := c <? 128.

(** On ASCII input [toLowerCase] maps the capitals to the small letters and
    changes nothing else. *)
Definition lowers_ascii (toLowerCase : str -> str) : Prop :=
  forall s, forallb is_ascii s = true -> toLowerCase s = asciiLower s.

(** The class [[.*+?^${}()|[\]\\]] of the three prefix escapes. *)
Definition is_syntax_char (c : char) : bool :=
  existsb (N.eqb c) [46; 42; 43; 63; 94; 36; 123; 125; 40; 41; 124; 91; 93; 92].

(** [.replace(/[.*+?^${}()|[\]\\]/g, '\\$&')] (part_000, lines 444, 756 and
    788): a backslash goes before every character of the class. *)
Definition escapeRegExp (s : str) : str :=
  flat_map (fun c => if is_syntax_char c then [Ch.backslash; c] else [c]) s.

(** The string a pattern source matches literally, for a source made of
    characters outside the class and of characters of the class that a
    backslash precedes; [None] for any other source. *)
Fixpoint literalOfPattern (source : str) : option str :=
  match source with
  | [] => Some []
  | c :: r =>
      if c =? Ch.backslash then
        match r with
        | d :: r' =>
            if is_syntax_char d then option_map (cons d) (literalOfPattern r') else None
        | [] => None
        end
      else if is_syntax_char c then None
      else option_map (cons c) (literalOfPattern r)
  end.

(** The complement of [[a-z0-9]]. *)
Definition not_az09 (c : char) : bool := negb (is_az09 c).

(** The hyphen that a leading run outside [[a-z0-9]] leaves before the
    first word. *)
Definition leadingHyphen (s : str) : str :=
  match s, az09_words s with
  | c :: _, _ :: _ => if not_az09 c then [Ch.hyphen] else []
  | _, _ => []
  end.

(** Every value a program can return satisfies [P]. *)
Inductive returns_only {A : Type} (P : A -> Prop) : Prog A -> Prop :=
| returns_ret a : P a -> returns_only P (Ret a)
| returns_throw e : returns_only P (Throw e)
| returns_hang : returns_only P Hang
| returns_mark m k : returns_only P k -> returns_only P (Mark m k)
| returns_vis X (c : Call X) k :
    (forall r, returns_only P (k r)) -> returns_only P (Vis c k).

(** Kinds of calls. *)
Definition is_model_query (ev : Event) : bool :=
  match ev with Called (SelectChatModels _) => true | _ => false end.

#[global] Instance Message_eq_dec : EqDecision Message.
Proof. solve_decision. Defined.

#[global] Instance Payload_eq_dec : EqDecision Payload.
Proof. solve_decision. Defined.

#[global] Instance Request_eq_dec : EqDecision Request.
Proof. solve_decision. Defined.

(** The requests of an attempt carry the given text and nothing else: a
    request to a chat model has the instruction and the text as its prompt,
    a request to the network is the one [postJSON] builds for them. *)
Definition carries_only (cfg : Config) (content fileExt : str) (ev : Event) : bool :=
  match ev with
  | Called (SendRequest _ prompt) =>
      bool_decide (prompt = [localInstruction fileExt; content])
  | Called (HttpsRequest req) =>
      bool_decide (req = requestOf (Some timeoutMs_const)
                           (requestPayload cfg content fileExt) (authorization cfg))
  | _ => true
  end.

(** For a host whose answer to [selectChatModels] depends on the selector
    only: the model the loop over the selectors ends with, and the selectors
    it asks for. *)
Fixpoint firstModel (catalog : Selector -> list Model) (sels : list Selector) : option Model :=
  match sels with
  | [] => None
  | selector :: rest =>
      match catalog selector with
      | candidate :: _ => Some candidate
      | [] => firstModel catalog rest
      end
  end.

Fixpoint askedSelectors (catalog : Selector -> list Model) (sels : list Selector)
  : list Selector :=
  match sels with
  | [] => []
  | selector :: rest =>
      selector :: match catalog selector with
                  | _ :: _ => []
                  | [] => askedSelectors catalog rest
                  end
  end.

(** What the backends may return: nothing, or a stem of at most 60
    characters. *)
Definition is_suggestion (v : option str) : Prop :=
  match v with
  | Some stem => matches_stem stem /\ (length stem <= 60)%nat
  | None => True
  end.

(** A host with the language-model API, and a state of the test host with
    one chat model whose answer is streamed in two fragments. *)
Definition modelHost : Host :=
  {| has_lm := true;
     has_LanguageModelChatMessage := true;
     platform_win32 := false;
     projectScratchpadsPath := TestHost.folder |}.

Definition modelWorld : TestHost.World :=
  {| TestHost.files := [];
     TestHost.editors := [];
     TestHost.models := [7];
     TestHost.stream := {| fragments := [lit "Parse "; lit "CSV rows"];
                           streamEnd := StreamDone |};
     TestHost.network := [];
     TestHost.requests := 0 |}.

(** The place of an event in an attempt: the chain, the local backend, its
    three queries in the order of the selectors, its request and the disposal
    of the token source, the remote backend, its request and the destruction
    of the request, then the file system and the editor. *)
Definition selector_phase (selector : Selector) : nat :=
  match family selector with
  | Some f =>
      if str_eqb f (lit "gpt-5-mini") then 2
      else if str_eqb f (lit "gpt-4o-mini") then 3
      else 4
  | None => 4
  end.

Definition call_phase {X : Type} (c : Call X) : nat :=
  match c with
  | SelectChatModels selector => selector_phase selector
  | SendRequest _ _ => 5
  | DisposeTokenSource => 6
  | HttpsRequest _ => 8
  | DestroyRequest _ => 9
  | ExistsSync _ => 10
  | FindOpenEditor _ => 11
  | RenameFile _ _ => 12
  | CloseAllTabsForFile _ => 13
  | OpenFile _ => 14
  end.

Definition phase (ev : Event) : nat :=
  match ev with
  | Invoked m =>
      match callee m with
      | ProviderChain => 0
      | LocalBackend => 1
      | RemoteBackend => 7
      end
  | Called c => call_phase c
  end.

(** The phases of a trace go up strictly, from [lo] on. *)
Fixpoint ascending_from (lo : nat) (phases : list nat) : bool :=
  match phases with
  | [] => true
  | x :: rest => (lo <=? x)%nat && ascending_from (S x) rest
  end.

(** A program all of whose events have their phase in [lo, hi), each event
    in a later phase than the one before. *)
Inductive phased {A : Type} : nat -> nat -> Prog A -> Prop :=
| phased_ret lo hi a : phased lo hi (Ret a)
| phased_throw lo hi e : phased lo hi (Throw e)
| phased_hang lo hi : phased lo hi Hang
| phased_mark lo hi m k :
    (lo <= phase (Invoked m) < hi)%nat ->
    phased (S (phase (Invoked m))) hi k ->
    phased lo hi (Mark m k)
| phased_vis lo hi X (c : Call X) k :
    (lo <= phase (Called c) < hi)%nat ->
    (forall r, phased (S (phase (Called c))) hi (k r)) ->
    phased lo hi (Vis c k).

(** A state of the test host in which an editor shows [scratch3.js]. *)
Definition editorWorld (dirty : bool) : TestHost.World :=
  {| TestHost.files := [TestHost.getScratchpadFilePath (lit "scratch3.js")];
     TestHost.editors := [(TestHost.getScratchpadFilePath (lit "scratch3.js"), dirty)];
     TestHost.models := [];
     TestHost.stream := {| fragments := []; streamEnd := StreamDone |};
     TestHost.network := TestHost.ok200 "list users";
     TestHost.requests := 0 |}.

(** ** The commands of the manager ([ScratchpadsManager], part_000) *)

(** A file type, as [FiletypesManager] hands it over. *)
Record Filetype : Set := { name : str; ext : str }.

(** [vscode.TextEdit] *)
Record TextEdit : Set := { editRange : N; newText : str }.

(** A tab: its handle, and [tab.input.uri.fsPath] when its input is a
    [TabInputText]. *)
Record Tab : Set := { tabHandle : N; tabTextPath : option str }.

(** A tab group, an opaque handle. *)
Definition TabGroup := N.

(** The two settings the commands write. *)
Inductive SettingKey : Set :=
| CONFIG_DEFAULT_FILETYPE
| CONFIG_PROMPT_FOR_REMOVAL.

(** The settings the commands read, as [Config.getExtensionConfiguration]
    returns them ([JUndefined] when a setting is not set). *)
Record Settings : Set := {
  promptForFilename : JSValue;
  autoPaste : JSValue;
  autoFormat : JSValue;
  promptForRemoval : JSValue;
  renameWithExtension : JSValue
}.

(** What the commands call outside the manager, indexed by what a call
    returns. *)
Inductive HostOp : Type -> Type :=
| SelectFiletype (placeHolder : option str) : HostOp (option Filetype)
| GetDefaultFiletype : HostOp (option Filetype)
| NewFiletype : HostOp (option Filetype)
| RemoveFiletype : HostOp unit
| SetExtensionConfiguration (key : SettingKey) (value : JSValue) : HostOp unit
| InputBoxShow (placeHolder : str) (allowSpaces : bool) : HostOp (option str)
| GetScratchpadFiles : HostOp (list str)
| ShowInformationMessage (message : str) : HostOp unit
| ShowErrorMessage (message : str) : HostOp unit
| ShowWarningMessage (message : str) (modal : bool) (items : list str) : HostOp (option str)
| ShowQuickPick (items : list str) : HostOp (option str)
| FsExistsSync (p : str) : HostOp bool
| FsStatMtime (p : str) : HostOp Z
| FsUnlinkSync (p : str) : HostOp unit
| FsWriteFileSync (p data : str) : HostOp unit
| UtilsOpenFile (p : str) : HostOp unit
| UtilsCloseActiveEditor : HostOp unit
| UtilsRenameFile (from to : str) : HostOp unit
| UtilsPromptForNewFilename (current : str) : HostOp (option str)
| UtilsConfirmOverwrite (p fileName : str) : HostOp bool
| ClipboardReadText : HostOp str
| OpenTextDocument (p : str) : HostOp str
| ExecuteFormatDocumentProvider (uri : str) : HostOp (option (list TextEdit))
| ApplyEdit (uri : str) (edits : list TextEdit) : HostOp bool
| ActiveTextEditor : HostOp (option Document)
| SaveDocument (document : Document) : HostOp bool
| TabGroupsAll : HostOp (list TabGroup)
| TabGroupTabs (group : TabGroup) : HostOp (list Tab)
| TabGroupsClose (tab : Tab) : HostOp bool.

(** The commands as trees of such calls. *)
Inductive Script (A : Type) : Type :=
| Done (a : A)
| Fail (e : Exn)
| Stuck
| Do (X : Type) (op : HostOp X) (k : Outcome X -> Script A).

Arguments Done {A} a.
Arguments Fail {A} e.
Arguments Stuck {A}.
Arguments Do {A X} op k.

Fixpoint script_bind {A B : Type} (p : Script A) (f : A -> Script B) : Script B :=
  match p with
  | Done a => f a
  | Fail e => Fail e
  | Stuck => Stuck
  | Do op k => Do op (fun r => script_bind (k r) f)
  end.

#[global] Instance Script_ret : MRet Script := fun A a => Done a.
#[global] Instance Script_bind : MBind Script := fun A B f p => script_bind p f.

Definition settle {A : Type} (o : Outcome A) : Script A :=
  match o with
  | Returned a => Done a
  | Thrown e => Fail e
  | Pending => Stuck
  end.

(** A call whose result is awaited (or that is synchronous). *)
Definition act {X : Type} (op : HostOp X) : Script X := Do op settle.

(** A call whose promise is dropped: the command goes on whatever becomes
    of it. *)
Definition fire {X : Type} (op : HostOp X) : Script unit := Do op (fun _ => Done tt).

(** [try { p } catch (error) { h error }] *)
Fixpoint script_catch {A : Type} (p : Script A) (h : Exn -> Script A) : Script A :=
  match p with
  | Done a => Done a
  | Fail e => h e
  | Stuck => Stuck
  | Do op k => Do op (fun r => script_catch (k r) h)
  end.

(** What a run of a command leaves behind. *)
Inductive Step : Type :=
| Did (X : Type) (op : HostOp X).

Arguments Did {X} op.

Section Exec.

Context {World : Type}.

Variable handler : forall X : Type, HostOp X -> World -> Outcome X * World.

Fixpoint exec {A : Type} (p : Script A) (w : World) : Outcome A * World * list Step :=
  match p with
  | Done a => (Returned a, w, [])
  | Fail e => (Thrown e, w, [])
  | Stuck => (Pending, w, [])
  | Do op k =>
      let '(r, w1) := handler _ op w in
      let '(o, w2, t) := exec (k r) w1 in
      (o, w2, Did op :: t)
  end.

End Exec.

(** [String(error)] in a template: the name, then the message if any. *)
Definition exnToString (e : Exn) : str :=
  let '(errorName, message) :=
    match e with
    | Error m => (lit "Error", m)
    | TypeError m => (lit "TypeError", m)
    | SyntaxError m => (lit "SyntaxError", m)
    end in
  if is_empty message then errorName else errorName ++ lit ": " ++ message.

(** [ext.replace('.', '')]: a string pattern replaces its first occurrence
    only. *)
Fixpoint removeFirstDot (s : str) : str :=
  match s with
  | [] => []
  | c :: r => if c =? Ch.dot then r else c :: removeFirstDot r
  end.

(** [(string | undefined)] used as a condition. *)
Definition chosen (answer : option str) : option str :=
  match answer with
  | Some s => if is_empty s then None else Some s
  | None => None
  end.

(** One entry of [fileStats] in [openLatestScratchpad]. *)
Record FileStat : Set := { statName : str; statPath : str; mtime : Z }.

(** [fileStats.sort((a, b) => b.mtime.getTime() - a.mtime.getTime())]: the
    sort of an array is stable, so the result is the one of inserting the
    entries from the last to the first, each before the first entry that
    is not newer than it. *)
Fixpoint insertByMtime (x : FileStat) (sorted : list FileStat) : list FileStat :=
  match sorted with
  | [] => [x]
  | y :: rest =>
      if (mtime y - mtime x <=? 0)%Z then x :: sorted else y :: insertByMtime x rest
  end.

Definition sortByMtime (stats : list FileStat) : list FileStat :=
  fold_right insertByMtime [] stats.

Definition noScratchpadsToOpen : str := lit "Scratchpads: No scratchpads to open".

(** [isPromptForRemoval === undefined || isPromptForRemoval] *)
Definition asksBeforeRemoval (settings : Settings) : bool :=
  match promptForRemoval settings with
  | JUndefined => true
  | value => truthy value
  end.

(** The modal dialog of [confirmRemoval]. *)
Definition removalQuestion : HostOp (option str) :=
  ShowWarningMessage
    (lit "Scratchpads: Are you sure you want to remove all scratchpads?")
    true [lit "Yes"; lit "Always"].

Section Commands.

Context {pathLib : PathLib}.

Variable toLowerCase : str -> str.
Variable getScratchpadFilePath : str -> str.
Variable cfg : Config.
Variable settings : Settings.
Variable host : Host.

(** part_000, lines 612-627. *)
Definition autoFormatDoc (docUri : str) : Script unit :=
  textEdits ← act (ExecuteFormatDocumentProvider docUri);
  match textEdits with
  | Some edits => act (ApplyEdit docUri edits);; Done tt
  | None => Done tt
  end.

(** part_000, lines 594-606. *)
Definition createAndOpenScratchpadFile (filePath : str) : Script unit :=
  let isAutoPaste := truthy (autoPaste settings) in
  let isAutoFormat := truthy (autoFormat settings) in
  data ← (if isAutoPaste then act ClipboardReadText else Done []);
  act (FsWriteFileSync filePath data);;
  act (UtilsOpenFile filePath);;
  if isAutoPaste && isAutoFormat
  then doc ← act (OpenTextDocument filePath); autoFormatDoc doc
  else Done tt.

(** part_000, lines 249-286.  Each of [baseFilenameExists] and
    [findNextAvailableNumber] lists the folder anew; the loop of the latter
    has fuel, and a run out of fuel is a command that never returns. *)
Definition createScratchpad (fuel : nat) (filetype : option Filetype) : Script unit :=
  filetype ← match filetype with
             | Some ft => Done (Some ft)
             | None => act (SelectFiletype None)
             end;
  match filetype with
  | None => Done tt
  | Some ft =>
      let configPrefix := configuredPrefix cfg in
      baseFilename ←
        (if truthy (promptForFilename settings)
         then
           filenameFromUser ← act (InputBoxShow (lit "Enter a filename:") true);
           Done (match chosen filenameFromUser with
                 | Some s => s
                 | None => configPrefix
                 end)
         else Done configPrefix);
      files ← act GetScratchpadFiles;
      finalFilename ←
        (if negb (baseFilenameExists files baseFilename)
         then Done (baseFilename ++ ext ft)
         else
           files' ← act GetScratchpadFiles;
           match findNextAvailableNumber fuel files' baseFilename with
           | Some nextNumber => Done (baseFilename ++ numberToString nextNumber ++ ext ft)
           | None => Stuck
           end);
      createAndOpenScratchpadFile (getScratchpadFilePath finalFilename)
  end.

(** part_000, lines 291-306. *)
Definition createScratchpadDefault (fuel : nat) : Script unit :=
  defaultType ← act GetDefaultFiletype;
  defaultType ←
    match defaultType with
    | Some ft => Done (Some ft)
    | None =>
        selected ← act (SelectFiletype (Some (lit "Select default filetype")));
        match selected with
        | Some ft =>
            act (SetExtensionConfiguration CONFIG_DEFAULT_FILETYPE
                   (JString (removeFirstDot (ext ft))));;
            Done (Some ft)
        | None => Done None
        end
    end;
  match defaultType with
  | Some ft => createScratchpad fuel (Some ft)
  | None => Done tt
  end.

(** part_000, lines 311-329. *)
Definition openScratchpad : Script unit :=
  files ← act GetScratchpadFiles;
  match files with
  | [] => fire (ShowInformationMessage noScratchpadsToOpen)
  | _ =>
      selection ← act (ShowQuickPick files);
      match chosen selection with
      | None => Done tt
      | Some selected =>
          let filePath := getScratchpadFilePath selected in
          there ← act (FsExistsSync filePath);
          if (there : bool) then act (UtilsOpenFile filePath) else Done tt
      end
  end.

(** [files.map(...)] of [openLatestScratchpad]: one [statSync] per file, in
    the order of the listing. *)
Fixpoint statAll (files : list str) : Script (list FileStat) :=
  match files with
  | [] => Done []
  | file :: rest =>
      let filePath := getScratchpadFilePath file in
      modified ← act (FsStatMtime filePath);
      stats ← statAll rest;
      Done ({| statName := file; statPath := filePath; mtime := modified |} :: stats)
  end.

(** part_000, lines 336-364. *)
Definition openLatestScratchpad : Script unit :=
  files ← act GetScratchpadFiles;
  match files with
  | [] => fire (ShowInformationMessage noScratchpadsToOpen)
  | _ =>
      script_catch
        (fileStats ← statAll files;
         match sortByMtime fileStats with
         | latestFile :: _ => act (UtilsOpenFile (statPath latestFile))
         | [] => Fail (TypeError (lit "Cannot read properties of undefined"))
         end)
        (fun error =>
           fire (ShowErrorMessage
                   (lit "Scratchpads: Failed to open latest scratchpad: "
                    ++ exnToString error)))
  end.

(** part_000, lines 683-689. *)
Definition isScratchpadEditor (editor : option Document) : bool :=
  match editor with
  | Some document => isScratchpadDocument toLowerCase host document
  | None => false
  end.

Definition pleaseOpenScratchpad : str :=
  lit "Scratchpads: Please open a scratchpad file first".

(** part_000, lines 369-405. *)
Definition renameScratchpad : Script unit :=
  activeEditor ← act ActiveTextEditor;
  match activeEditor with
  | Some document =>
      if negb (isScratchpadEditor activeEditor)
      then fire (ShowInformationMessage pleaseOpenScratchpad)
      else
        let currentFilePath := fileName document in
        let currentFileName := path_basename currentFilePath in
        newFileName ← act (UtilsPromptForNewFilename currentFileName);
        match chosen newFileName with
        | None => Done tt
        | Some newName =>
            let fileExt := path_extname currentFileName in
            let finalFileName :=
              if truthy (renameWithExtension settings) then newName
              else newName ++ fileExt in
            let newFilePath := getScratchpadFilePath finalFileName in
            shouldProceed ← act (UtilsConfirmOverwrite newFilePath finalFileName);
            if negb shouldProceed then Done tt
            else
              script_catch
                (act (SaveDocument document);;
                 act UtilsCloseActiveEditor;;
                 act (UtilsRenameFile currentFilePath newFilePath);;
                 act (UtilsOpenFile newFilePath);;
                 fire (ShowInformationMessage
                         (lit "Scratchpads: Renamed to " ++ finalFileName)))
                (fun error =>
                   fire (ShowErrorMessage
                           (lit "Scratchpads: Failed to rename file: "
                            ++ exnToString error)))
        end
  | None => fire (ShowInformationMessage pleaseOpenScratchpad)
  end.

(** part_000, lines 545-562. *)
Definition removeScratchpad : Script unit :=
  files ← act GetScratchpadFiles;
  match files with
  | [] => fire (ShowInformationMessage (lit "Scratchpads: No scratchpads to delete"))
  | _ =>
      selection ← act (ShowQuickPick files);
      match chosen selection with
      | None => Done tt
      | Some selected =>
          act (FsUnlinkSync (getScratchpadFilePath selected));;
          fire (ShowInformationMessage (lit "Scratchpads: Removed " ++ selected))
      end
  end.

(** part_000, lines 633-654. *)
Definition confirmRemoval : Script bool :=
  if asksBeforeRemoval settings
  then
    answer ← act removalQuestion;
    match answer with
    | None => Done false
    | Some picked =>
        (if str_eqb picked (lit "Always")
         then fire (SetExtensionConfiguration CONFIG_PROMPT_FOR_REMOVAL (JBool false))
         else Done tt);;
        Done true
    end
  else Done true.

(** The inner loop of [closeTabs]. *)
Fixpoint closeTabsOf (scratchpadPaths : list str) (tabs : list Tab) : Script unit :=
  match tabs with
  | [] => Done tt
  | tab :: rest =>
      match tabTextPath tab with
      | Some tabPath =>
          if existsb (str_eqb tabPath) scratchpadPaths
          then act (TabGroupsClose tab);; closeTabsOf scratchpadPaths rest
          else closeTabsOf scratchpadPaths rest
      | None => closeTabsOf scratchpadPaths rest
      end
  end.

(** The outer loop of [closeTabs]. *)
Fixpoint closeTabGroups (scratchpadPaths : list str) (groups : list TabGroup) : Script unit :=
  match groups with
  | [] => Done tt
  | tabGroup :: rest =>
      tabs ← act (TabGroupTabs tabGroup);
      closeTabsOf scratchpadPaths tabs;;
      closeTabGroups scratchpadPaths rest
  end.

(** part_000, lines 718-732. *)
Definition closeTabs : Script unit :=
  scratchpadFiles ← act GetScratchpadFiles;
  let scratchpadPaths := List.map getScratchpadFilePath scratchpadFiles in
  groups ← act TabGroupsAll;
  closeTabGroups scratchpadPaths groups.

(** The loop of [deleteScratchpadFiles]. *)
Fixpoint unlinkAll (files : list str) : Script unit :=
  match files with
  | [] => Done tt
  | file :: rest => act (FsUnlinkSync (getScratchpadFilePath file));; unlinkAll rest
  end.

(** part_000, lines 737-747. *)
Definition deleteScratchpadFiles : Script unit :=
  files ← act GetScratchpadFiles;
  unlinkAll files;;
  fire (ShowInformationMessage (lit "Scratchpads: Removed all scratchpads")).

(** part_000, lines 567-572. *)
Definition removeAllScratchpads : Script unit :=
  confirmed ← confirmRemoval;
  if (confirmed : bool) then closeTabs;; deleteScratchpadFiles else Done tt.

(** part_000, lines 577-580. *)
Definition newFiletype (fuel : nat) : Script unit :=
  newFileType ← act NewFiletype;
  match newFileType with
  | Some ft => createScratchpad fuel (Some ft)
  | None => Done tt
  end.

(** part_000, lines 585-587. *)
Definition removeFiletype : Script unit := act RemoveFiletype.

End Commands.

(** The parts of what a run of a command gives. *)
Definition result_of {World A : Type} (r : Outcome A * World * list Step) : Outcome A :=
  fst (fst r).

Definition steps_of {World A : Type} (r : Outcome A * World * list Step) : list Step :=
  snd r.

(** A command all of whose calls are allowed and all of whose results
    satisfy [returns], on a host whose answers are as [answers] says. *)
Inductive does_only (allowed : Step -> Prop)
  (answers : forall X : Type, HostOp X -> Outcome X -> Prop) {A : Type}
  (returns : A -> Prop) : Script A -> Prop :=
| does_done a : returns a -> does_only allowed answers returns (Done a)
| does_fail e : does_only allowed answers returns (Fail e)
| does_stuck : does_only allowed answers returns Stuck
| does_do X (op : HostOp X) k :
    allowed (Did op) ->
    (forall r, answers X op r -> does_only allowed answers returns (k r)) ->
    does_only allowed answers returns (Do op k).

(** Any result. *)
Definition any {A : Type} (a : A) : Prop := True.

(** An extension as the file types have it: a dot, then the extension. *)
Definition dotted_extension (s : str) : Prop :=
  exists e, s = Ch.dot :: e /\ is_extension e.

(** A host whose listing of the folder is [files] throughout. *)
Definition lists (files : list str) (X : Type) (op : HostOp X) : Outcome X -> Prop :=
  match op in HostOp T return Outcome T -> Prop with
  | GetScratchpadFiles => fun r => r = Returned files
  | _ => fun _ => True
  end.

(** A host that lists [files] throughout, and whose file types have
    dotted extensions. *)
Definition lists_and_offers (files : list str) (X : Type) (op : HostOp X)
  : Outcome X -> Prop :=
  match op in HostOp T return Outcome T -> Prop with
  | GetScratchpadFiles => fun r => r = Returned files
  | SelectFiletype _ =>
      fun r => forall ft, r = Returned (Some ft) -> dotted_extension (ext ft)
  | _ => fun _ => True
  end.

(** A write goes to the path of a name that the listing does not hold. *)
Definition writes_new_names (getScratchpadFilePath : str -> str) (files : list str)
  (step : Step) : Prop :=
  match step with
  | Did (FsWriteFileSync p _) =>
      exists fileName, p = getScratchpadFilePath fileName /\ ~ In fileName files
  | _ => True
  end.

(** What is removed is a listed scratchpad: a file that is unlinked, and
    the file that a closed tab shows. *)
Definition removes_scratchpads (getScratchpadFilePath : str -> str) (files : list str)
  (step : Step) : Prop :=
  match step with
  | Did (FsUnlinkSync p) =>
      exists file, In file files /\ p = getScratchpadFilePath file
  | Did (TabGroupsClose tab) =>
      exists file, In file files /\ tabTextPath tab = Some (getScratchpadFilePath file)
  | _ => True
  end.

(** Kinds of steps. *)
Definition is_question (step : Step) : bool :=
  match step with
  | Did (ShowWarningMessage _ _ _) => true
  | _ => false
  end.


(** A desk to try the commands on: a host that never fails, with a fixed
    listing, fixed modification times, one answer to every question, one
    editor, one offered file type and the same tabs in every group. *)
Record Desk : Type := {
  deskFiles : list str;
  deskMtime : str -> Z;
  deskAnswer : option str;
  deskEditor : option Document;
  deskOffer : option Filetype;
  deskDefault : option Filetype;
  deskTabs : list Tab
}.

Definition deskHost (desk : Desk) (X : Type) (op : HostOp X) (w : unit)
  : Outcome X * unit :=
  (match op in HostOp T return Outcome T with
   | SelectFiletype _ => Returned (deskOffer desk)
   | GetDefaultFiletype => Returned (deskDefault desk)
   | NewFiletype => Returned (deskOffer desk)
   | RemoveFiletype => Returned tt
   | SetExtensionConfiguration _ _ => Returned tt
   | InputBoxShow _ _ => Returned (deskAnswer desk)
   | GetScratchpadFiles => Returned (deskFiles desk)
   | ShowInformationMessage _ => Returned tt
   | ShowErrorMessage _ => Returned tt
   | ShowWarningMessage _ _ _ => Returned (deskAnswer desk)
   | ShowQuickPick _ => Returned (deskAnswer desk)
   | FsExistsSync _ => Returned true
   | FsStatMtime p => Returned (deskMtime desk p)
   | FsUnlinkSync _ => Returned tt
   | FsWriteFileSync _ _ => Returned tt
   | UtilsOpenFile _ => Returned tt
   | UtilsCloseActiveEditor => Returned tt
   | UtilsRenameFile _ _ => Returned tt
   | UtilsPromptForNewFilename _ => Returned (deskAnswer desk)
   | UtilsConfirmOverwrite _ _ => Returned true
   | ClipboardReadText => Returned []
   | OpenTextDocument p => Returned p
   | ExecuteFormatDocumentProvider _ => Returned None
   | ApplyEdit _ _ => Returned true
   | ActiveTextEditor => Returned (deskEditor desk)
   | SaveDocument _ => Returned true
   | TabGroupsAll => Returned [0]
   | TabGroupTabs _ => Returned (deskTabs desk)
   | TabGroupsClose _ => Returned true
   end, w).

Definition typescript : Filetype := {| name := lit "TypeScript"; ext := lit ".ts" |}.

Definition exampleDesk : Desk := {|
  deskFiles := example_files;
  deskMtime := fun p => Z.of_nat (length p);
  deskAnswer := None;
  deskEditor := None;
  deskOffer := Some typescript;
  deskDefault := None;
  deskTabs := [ {| tabHandle := 1; tabTextPath := Some (TestHost.getScratchpadFilePath (lit "s1.ts")) |};
                {| tabHandle := 2; tabTextPath := Some (lit "/src/main.ts") |};
                {| tabHandle := 3; tabTextPath := None |} ]
|}.

Definition plainSettings : Settings := {|
  promptForFilename := JUndefined;
  autoPaste := JUndefined;
  autoFormat := JUndefined;
  promptForRemoval := JUndefined;
  renameWithExtension := JUndefined
|}.

(** The calls of [closeTabs] and [deleteScratchpadFiles]. *)
Definition is_cleanup (step : Step) : bool :=
  match step with
  | Did GetScratchpadFiles | Did TabGroupsAll | Did (TabGroupTabs _)
  | Did (TabGroupsClose _) | Did (FsUnlinkSync _) | Did (ShowInformationMessage _) => true
  | _ => false
  end.

(** The tabs among [tabs] that [closeTabs] closes: the text tabs at one of
    the paths. *)
Definition scratchpadTabs (scratchpadPaths : list str) (tabs : list Tab) : list Tab :=
  List.filter
    (fun tab =>
       match tabTextPath tab with
       | Some tabPath => existsb (str_eqb tabPath) scratchpadPaths
       | None => false
       end)
    tabs.

(** The calls of [closeTabs] and of [deleteScratchpadFiles] when no call
    fails, for a listing, the tab groups and their tabs. *)
Definition closeSteps (getScratchpadFilePath : str -> str) (files : list str)
  (groups : list TabGroup) (tabsOf : TabGroup -> list Tab) : list Step :=
  Did GetScratchpadFiles :: Did TabGroupsAll
  :: flat_map
       (fun group =>
          Did (TabGroupTabs group)
          :: List.map (fun tab => Did (TabGroupsClose tab))
               (scratchpadTabs (List.map getScratchpadFilePath files) (tabsOf group)))
       groups.

Definition deleteSteps (getScratchpadFilePath : str -> str) (files : list str)
  : list Step :=
  Did GetScratchpadFiles
  :: List.map (fun file => Did (FsUnlinkSync (getScratchpadFilePath file))) files
  ++ [Did (ShowInformationMessage (lit "Scratchpads: Removed all scratchpads"))].

(** A host on which the removal meets no failure: the listing, the tab
    groups and their tabs stay the same, and closing a tab and unlinking a
    file return. *)
Definition removal_goes_through {World : Type}
  (handler : forall X : Type, HostOp X -> World -> Outcome X * World)
  (files : list str) (groups : list TabGroup) (tabsOf : TabGroup -> list Tab) : Prop :=
  (forall w, fst (handler _ GetScratchpadFiles w) = Returned files)
  /\ (forall w, fst (handler _ TabGroupsAll w) = Returned groups)
  /\ (forall group w, fst (handler _ (TabGroupTabs group) w) = Returned (tabsOf group))
  /\ (forall tab w, exists closed, fst (handler _ (TabGroupsClose tab) w) = Returned closed)
  /\ (forall p w, fst (handler _ (FsUnlinkSync p) w) = Returned tt).

Definition is_setting (step : Step) : bool :=
  match step with
  | Did (SetExtensionConfiguration _ _) => true
  | _ => false
  end.

Definition neverAsk : Settings := {|
  promptForFilename := JUndefined;
  autoPaste := JUndefined;
  autoFormat := JUndefined;
  promptForRemoval := JBool false;
  renameWithExtension := JUndefined
|}.

Definition answering (answer : string) : Desk := {|
  deskFiles := example_files;
  deskMtime := fun p => Z.of_nat (length p);
  deskAnswer := Some (lit answer);
  deskEditor := Some (TestHost.document "s1.ts" "let rows = 1");
  deskOffer := None;
  deskDefault := Some typescript;
  deskTabs := deskTabs exampleDesk
|}.

(** The calls of the loops, as steps. *)
Definition unlinkStep (getScratchpadFilePath : str -> str) (file : str) : Step :=
  Did (FsUnlinkSync (getScratchpadFilePath file)).

Definition statStep (getScratchpadFilePath : str -> str) (file : str) : Step :=
  Did (FsStatMtime (getScratchpadFilePath file)).

Definition is_error_message (step : Step) : bool :=
  match step with
  | Did (ShowErrorMessage _) => true
  | _ => false
  end.

(** The calls by which [renameScratchpad] changes the editor or the
    files. *)
Definition is_rename_action (step : Step) : bool :=
  match step with
  | Did (SaveDocument _) | Did UtilsCloseActiveEditor | Did (UtilsRenameFile _ _)
  | Did (UtilsOpenFile _) => true
  | _ => false
  end.

(** The name [renameScratchpad] renames to. *)
Definition renamedTo {pathLib : PathLib} (settings : Settings) (document : Document)
  (newName : str) : str :=
  if truthy (renameWithExtension settings) then newName
  else newName ++ path_extname (path_basename (fileName document)).

(** The calls of a rename that goes through, after the questions. *)
Definition renamePlan (getScratchpadFilePath : str -> str) (document : Document)
  (finalFileName : str) : list Step :=
  [ Did (SaveDocument document);
    Did UtilsCloseActiveEditor;
    Did (UtilsRenameFile (fileName document) (getScratchpadFilePath finalFileName));
    Did (UtilsOpenFile (getScratchpadFilePath finalFileName));
    Did (ShowInformationMessage (lit "Scratchpads: Renamed to " ++ finalFileName)) ].

(** No dot in a string. *)
Definition dotless (s : str) : bool := forallb (fun c => negb (c =? Ch.dot)) s.

Definition declaration : Filetype := {| name := lit "Declarations"; ext := lit ".d.ts" |}.

Definition offering (ft : Filetype) : Desk := {|
  deskFiles := example_files;
  deskMtime := fun p => Z.of_nat (length p);
  deskAnswer := None;
  deskEditor := None;
  deskOffer := Some ft;
  deskDefault := None;
  deskTabs := []
|}.

(** * Properties *)

(** ** The patterns on examples *)

Example stripEdgeHyphens_examples :
  stripEdgeHyphens (lit "-") = [] /\ stripEdgeHyphens (lit "--") = [] /\
  stripEdgeHyphens (lit "-a-") = lit "a" /\ stripEdgeHyphens (lit "---") = lit "-" /\
  stripEdgeHyphens (lit "a-b") = lit "a-b".
Proof. repeat split; reflexivity. Qed.

Example collapseRuns_examples :
  collapseRuns is_space_or_underscore (lit "a _ b__c ") = lit "a-b-c-" /\
  collapseRuns is_hyphen (lit "--a---b-") = lit "-a-b-".
Proof. split; reflexivity. Qed.

Example stripExtension_examples :
  stripExtension (lit "notes.txt") = lit "notes" /\
  stripExtension (lit "a.b.c") = lit "a.b" /\
  stripExtension (lit "a.b c") = lit "a.b c" /\
  stripExtension (lit "a.") = lit "a." /\
  stripExtension (lit ".JS") = [].
Proof. repeat split; reflexivity. Qed.

Example trim_examples :
  trim (lit "  a b  ") = lit "a b" /\ trim [9; 160; 97; 8232; 13] = [97] /\ trim (lit "   ") = [].
Proof. repeat split; reflexivity. Qed.

Example basePattern_examples :
  basePattern_test (lit "s") (lit "s.js") = true /\
  basePattern_test (lit "s") (lit "s1.js") = false /\
  basePattern_test (lit "s") (lit "s.") = false /\
  basePattern_test (lit "a.b") (lit "a.b.md") = true /\
  basePattern_test (lit "a.b") (lit "aXb.md") = false.
Proof. repeat split; reflexivity. Qed.

Example numberedPattern_examples :
  numberedPattern_match (lit "s") (lit "s12.tar.gz") = Some (lit "12") /\
  numberedPattern_match (lit "s") (lit "s.js") = None /\
  numberedPattern_match (lit "s") (lit "s1") = None /\
  numberedPattern_match (lit "s") (lit "sx1.js") = None /\
  numberedPattern_match (lit "s1") (lit "s12.js") = Some (lit "2").
Proof. repeat split; reflexivity. Qed.

Example scratchNamePattern_examples :
  scratchNamePattern_test (lit "scratch") (lit "scratch") = true /\
  scratchNamePattern_test (lit "scratch") (lit "scratch12") = true /\
  scratchNamePattern_test (lit "scratch") (lit "scratch-notes") = false /\
  scratchNamePattern_test (lit "scratch") (lit "my-scratch1") = false.
Proof. repeat split; reflexivity. Qed.

Example toNumber_examples :
  toNumber 42 = Int 42 /\
  toNumber (2 ^ 53 + 1) = Int (2 ^ 53) /\
  toNumber (2 ^ 53 + 3) = Int (2 ^ 53 + 4) /\
  parseInt10 (lit "007") = Int 7 /\
  numberToString (Int 12) = lit "12".
Proof. repeat split; vm_compute; reflexivity. Qed.

(** [path.posix.dirname] at the roots and with doubled slashes. *)
Example posix_dirname_examples :
  Posix.dirname (lit "/a/b/c") = lit "/a/b" /\
  Posix.dirname (lit "/a") = lit "/" /\
  Posix.dirname (lit "//a") = lit "//" /\
  Posix.dirname (lit "//a/") = lit "//" /\
  Posix.dirname (lit "///a") = lit "//" /\
  Posix.dirname (lit "a//b") = lit "a/" /\
  Posix.dirname (lit "a/") = lit "." /\
  Posix.dirname (lit "//") = lit "/" /\
  Posix.dirname [] = lit ".".
Proof. repeat split; reflexivity. Qed.

(** The examples of the documentation of [path.extname]. *)
Example posix_extname_examples :
  Posix.extname (lit "index.html") = lit ".html" /\
  Posix.extname (lit "index.coffee.md") = lit ".md" /\
  Posix.extname (lit "index.") = lit "." /\
  Posix.extname (lit "index") = [] /\
  Posix.extname (lit ".index") = [] /\
  Posix.extname (lit ".index.md") = lit ".md".
Proof. repeat split; reflexivity. Qed.

(** ** Characters and elementary list facts *)

Ltac unfold_chars :=
  unfold is_stem_char, is_kept, is_space_or_underscore, is_quote, is_space,
    is_white_space, is_line_terminator, is_az09_i, is_az09, is_hyphen, is_digit,
    is_upper, is_lower, is_separator, in_range, Ch.newline, Ch.space, Ch.dquote,
    Ch.squote, Ch.hyphen, Ch.dot, Ch.slash, Ch.backslash, Ch.underscore,
    Ch.backtick in *.

Ltac bool_to_prop :=
  repeat (rewrite ?orb_true_iff, ?andb_true_iff, ?negb_true_iff, ?orb_false_iff,
            ?andb_false_iff, ?negb_false_iff, ?N.leb_le, ?N.eqb_eq, ?N.leb_gt,
            ?N.eqb_neq, ?N.ltb_lt, ?N.ltb_ge in *).

(** Closes a goal about the class of one character. *)
Ltac char_facts := unfold_chars; bool_to_prop; lia.





Lemma stem_char_kept c : is_stem_char c = true -> is_kept c = true.
Proof. intros H. char_facts. Qed.


Lemma kept_not_sou_stem c :
  is_kept c = true -> is_space_or_underscore c = false -> is_stem_char c = true.
Proof. intros H1 H2. char_facts. Qed.

Lemma stem_char_cases c : is_stem_char c = true -> is_hyphen c = false -> is_az09 c = true.
Proof. intros H1 H2. char_facts. Qed.

Lemma az09_stem_char c : is_az09 c = true -> is_stem_char c = true.
Proof. intros H. char_facts. Qed.

Lemma az09_not_hyphen c : is_az09 c = true -> is_hyphen c = false.
Proof. intros H. char_facts. Qed.

Lemma is_hyphen_eq c : is_hyphen c = true -> c = Ch.hyphen.
Proof. unfold is_hyphen. apply N.eqb_eq. Qed.

Lemma hyphen_stem_char : is_stem_char Ch.hyphen = true.
Proof. reflexivity. Qed.

Lemma is_empty_true (s : str) : is_empty s = true <-> s = [].
Proof. destruct s; simpl; split; congruence. Qed.

Lemma is_empty_false (s : str) : is_empty s = false <-> s <> [].
Proof. destruct s; simpl; split; congruence. Qed.

Lemma str_eqb_eq (a b : str) : str_eqb a b = true <-> a = b.
Proof. unfold str_eqb. apply bool_decide_eq_true. Qed.

Lemma str_eqb_neq (a b : str) : str_eqb a b = false <-> a <> b.
Proof. unfold str_eqb. apply bool_decide_eq_false. Qed.

Lemma takeWhile_all p s : forallb p s = true -> takeWhile p s = s.
Proof.
  induction s as [|c r IH]; simpl; [reflexivity|].
  intros H. apply andb_true_iff in H as [Hc Hr].
  rewrite Hc, IH by assumption. reflexivity.
Qed.


Lemma takeWhile_dropWhile p s : takeWhile p s ++ dropWhile p s = s.
Proof.
  induction s as [|c r IH]; simpl; [reflexivity|].
  destruct (p c); simpl; [rewrite IH|]; reflexivity.
Qed.

Lemma takeWhile_forallb p s : forallb p (takeWhile p s) = true.
Proof.
  induction s as [|c r IH]; simpl; [reflexivity|].
  destruct (p c) eqn:E; simpl; [rewrite E, IH|]; reflexivity.
Qed.

Lemma dropWhile_head p s c r : dropWhile p s = c :: r -> p c = false.
Proof.
  induction s as [|d s IH]; simpl; [discriminate|].
  destruct (p d) eqn:E; [exact IH|].
  intros [= -> _]. exact E.
Qed.

Lemma forallb_rev_true (p : char -> bool) s : forallb p s = true -> forallb p (rev s) = true.
Proof.
  rewrite !forallb_forall. intros H x Hx. apply H, in_rev, Hx.
Qed.

Lemma forallb_weaken (p q : char -> bool) s :
  (forall c, p c = true -> q c = true) -> forallb p s = true -> forallb q s = true.
Proof.
  intros Hpq. rewrite !forallb_forall. intros H x Hx. apply Hpq, H, Hx.
Qed.

Lemma forallb_firstn (p : char -> bool) n s :
  forallb p s = true -> forallb p (firstn n s) = true.
Proof.
  revert n. induction s as [|c r IH]; intros [|n]; simpl; try reflexivity.
  intros H. apply andb_true_iff in H as [Hc Hr].
  rewrite Hc. simpl. apply IH, Hr.
Qed.

Lemma strip_prefix_app p r : strip_prefix p (p ++ r) = Some r.
Proof.
  induction p as [|a p IH]; simpl; [reflexivity|].
  rewrite N.eqb_refl. exact IH.
Qed.

Lemma strip_prefix_Some p s r : strip_prefix p s = Some r -> s = p ++ r.
Proof.
  revert s. induction p as [|a p IH]; intros s; simpl.
  - intros [= ->]. reflexivity.
  - destruct s as [|b s]; [discriminate|].
    destruct (N.eqb_spec a b) as [->|]; [|discriminate].
    intros H. rewrite (IH _ H). reflexivity.
Qed.

Lemma strip_prefix_iff p s r : strip_prefix p s = Some r <-> s = p ++ r.
Proof.
  split; [apply strip_prefix_Some|]. intros ->. apply strip_prefix_app.
Qed.

(** ** The sanitizer: shape of the result *)

Lemma collapseRuns_cons p c r :
  collapseRuns p (c :: r) =
  if p c then
    match r with
    | c' :: _ => if p c' then collapseRuns p r else Ch.hyphen :: collapseRuns p r
    | [] => [Ch.hyphen]
    end
  else c :: collapseRuns p r.
Proof. reflexivity. Qed.

Lemma no_hyphen_pair_cons a b r :
  no_hyphen_pair (a :: b :: r) = negb (is_hyphen a && is_hyphen b) && no_hyphen_pair (b :: r).
Proof. reflexivity. Qed.

Lemma no_hyphen_pair_tail c r : no_hyphen_pair (c :: r) = true -> no_hyphen_pair r = true.
Proof.
  destruct r as [|d r]; [reflexivity|].
  rewrite no_hyphen_pair_cons. intros H. apply andb_true_iff in H as [_ H]. exact H.
Qed.

Lemma no_hyphen_pair_plain c r :
  is_hyphen c = false -> no_hyphen_pair r = true -> no_hyphen_pair (c :: r) = true.
Proof.
  intros Hc Hr. destruct r as [|d r]; [reflexivity|].
  rewrite no_hyphen_pair_cons, Hc, Hr. reflexivity.
Qed.

Lemma forallb_cons_eq (p : char -> bool) c r : forallb p (c :: r) = p c && forallb p r.
Proof. reflexivity. Qed.

Lemma blankForeign_kept s : forallb is_kept (blankForeign s) = true.
Proof.
  induction s as [|c r IH]; simpl; [reflexivity|].
  rewrite IH, andb_true_r. destruct (is_kept c) eqn:E; [exact E | reflexivity].
Qed.

Lemma collapse_separators_stem s :
  forallb is_kept s = true ->
  forallb is_stem_char (collapseRuns is_space_or_underscore s) = true.
Proof.
  induction s as [|c r IH]; [reflexivity|].
  intros H. simpl in H. apply andb_true_iff in H as [Hc Hr].
  specialize (IH Hr). rewrite collapseRuns_cons.
  destruct (is_space_or_underscore c) eqn:E.
  - destruct r as [|c' r']; [reflexivity|].
    destruct (is_space_or_underscore c'); [exact IH|].
    rewrite forallb_cons_eq, hyphen_stem_char. exact IH.
  - rewrite forallb_cons_eq, (kept_not_sou_stem c Hc E). exact IH.
Qed.

Lemma collapse_hyphens_stem s :
  forallb is_stem_char s = true ->
  forallb is_stem_char (collapseRuns is_hyphen s) = true.
Proof.
  induction s as [|c r IH]; [reflexivity|].
  intros H. simpl in H. apply andb_true_iff in H as [Hc Hr].
  specialize (IH Hr). rewrite collapseRuns_cons.
  destruct (is_hyphen c).
  - destruct r as [|c' r']; [reflexivity|].
    destruct (is_hyphen c'); [exact IH|].
    rewrite forallb_cons_eq, hyphen_stem_char. exact IH.
  - rewrite forallb_cons_eq, Hc. exact IH.
Qed.

Lemma collapse_hyphens_no_pair s : no_hyphen_pair (collapseRuns is_hyphen s) = true.
Proof.
  induction s as [|c r IH]; [reflexivity|].
  rewrite collapseRuns_cons. destruct (is_hyphen c) eqn:Ec.
  - destruct r as [|c' r']; [reflexivity|].
    destruct (is_hyphen c') eqn:Ec'; [exact IH|].
    rewrite collapseRuns_cons, Ec' in *.
    rewrite no_hyphen_pair_cons, Ec', andb_false_r. exact IH.
  - apply no_hyphen_pair_plain; assumption.
Qed.

Lemma stripLeading_forallb p s :
  forallb p s = true -> forallb p (stripLeadingHyphen s) = true.
Proof.
  destruct s as [|c r]; [reflexivity|]. simpl.
  destruct (is_hyphen c); [|exact (fun H => H)].
  intros H. apply andb_true_iff in H as [_ H]. exact H.
Qed.

Lemma stripLeading_no_pair s :
  no_hyphen_pair s = true -> no_hyphen_pair (stripLeadingHyphen s) = true.
Proof.
  destruct s as [|c r]; [reflexivity|]. unfold stripLeadingHyphen.
  destruct (is_hyphen c); [apply no_hyphen_pair_tail | exact (fun H => H)].
Qed.

Lemma stripLeading_head s :
  no_hyphen_pair s = true -> head_not_hyphen (stripLeadingHyphen s) = true.
Proof.
  destruct s as [|c r]; [reflexivity|]. unfold stripLeadingHyphen.
  destruct (is_hyphen c) eqn:Ec.
  - destruct r as [|d r]; [reflexivity|].
    rewrite no_hyphen_pair_cons, Ec. simpl.
    intros H. apply andb_true_iff in H as [H _]. exact H.
  - intros _. simpl. rewrite Ec. reflexivity.
Qed.


Lemma stripTrailing_cons c d r :
  stripTrailingHyphen (c :: d :: r) = c :: stripTrailingHyphen (d :: r).
Proof. reflexivity. Qed.

Lemma stripTrailing_nil s :
  stripTrailingHyphen s = [] -> s = [] \/ exists c, s = [c] /\ is_hyphen c = true.
Proof.
  destruct s as [|c [|d r]]; [left; reflexivity | | discriminate].
  simpl. destruct (is_hyphen c) eqn:E; [|discriminate].
  intros _. right. exists c. split; [reflexivity | exact E].
Qed.

Lemma stripTrailing_forallb p s :
  forallb p s = true -> forallb p (stripTrailingHyphen s) = true.
Proof.
  induction s as [|c [|d r] IH]; [reflexivity | |].
  - simpl. destruct (is_hyphen c); [reflexivity | exact (fun H => H)].
  - rewrite stripTrailing_cons. intros H.
    rewrite forallb_cons_eq in H.
    apply andb_true_iff in H as [Hc Hr].
    rewrite forallb_cons_eq, Hc. exact (IH Hr).
Qed.

Lemma stripTrailing_head s :
  head_not_hyphen s = true -> head_not_hyphen (stripTrailingHyphen s) = true.
Proof.
  destruct s as [|c [|d r]]; [reflexivity | |].
  - simpl. destruct (is_hyphen c) eqn:E; [reflexivity|].
    simpl. rewrite E. reflexivity.
  - rewrite stripTrailing_cons. exact (fun H => H).
Qed.

Lemma stripTrailing_no_pair s :
  no_hyphen_pair s = true -> no_hyphen_pair (stripTrailingHyphen s) = true.
Proof.
  induction s as [|c [|d r] IH]; [reflexivity | |].
  - simpl. destruct (is_hyphen c); reflexivity.
  - rewrite stripTrailing_cons, no_hyphen_pair_cons. intros H.
    apply andb_true_iff in H as [Hcd Hr]. specialize (IH Hr).
    destruct (stripTrailingHyphen (d :: r)) as [|d' r'] eqn:E; [reflexivity|].
    assert (d' = d) as ->.
    { destruct r as [|e r]; simpl in E.
      - destruct (is_hyphen d); [discriminate | congruence].
      - congruence. }
    rewrite no_hyphen_pair_cons, Hcd. exact IH.
Qed.

Lemma stripTrailing_last s :
  no_hyphen_pair s = true -> last_not_hyphen (stripTrailingHyphen s) = true.
Proof.
  induction s as [|c [|d r] IH]; [reflexivity | |].
  - simpl. destruct (is_hyphen c) eqn:E; [reflexivity|]. simpl. rewrite E. reflexivity.
  - rewrite stripTrailing_cons, no_hyphen_pair_cons. intros H.
    apply andb_true_iff in H as [Hcd Hr]. specialize (IH Hr).
    destruct (stripTrailingHyphen (d :: r)) as [|d' r'] eqn:E.
    + apply stripTrailing_nil in E as [E | (x & E & Hx)]; [discriminate|].
      injection E as -> ->. rewrite Hx, andb_true_r in Hcd. exact Hcd.
    + exact IH.
Qed.

Lemma stripTrailing_id s : last_not_hyphen s = true -> stripTrailingHyphen s = s.
Proof.
  induction s as [|c [|d r] IH]; [reflexivity | |].
  - simpl. intros H. apply negb_true_iff in H. rewrite H. reflexivity.
  - intros H. rewrite stripTrailing_cons, IH; [reflexivity | exact H].
Qed.

Lemma firstn_no_pair n s : no_hyphen_pair s = true -> no_hyphen_pair (firstn n s) = true.
Proof.
  revert n. induction s as [|c r IH]; intros [|n]; try reflexivity.
  intros H. rewrite firstn_cons.
  pose proof (no_hyphen_pair_tail _ _ H) as Hr. specialize (IH n Hr).
  destruct r as [|d r]; [destruct n; reflexivity|].
  destruct n as [|n]; [reflexivity|].
  rewrite firstn_cons in *. rewrite no_hyphen_pair_cons in *.
  apply andb_true_iff in H as [H _]. rewrite H. exact IH.
Qed.

Lemma firstn_head n s : head_not_hyphen s = true -> head_not_hyphen (firstn n s) = true.
Proof. destruct s, n; simpl; auto. Qed.

Lemma stripEdge_well_hyphenated s :
  forallb is_stem_char s = true -> no_hyphen_pair s = true ->
  well_hyphenated (stripEdgeHyphens s).
Proof.
  intros Hc Hp. unfold stripEdgeHyphens. repeat split.
  - apply stripTrailing_forallb, stripLeading_forallb, Hc.
  - apply stripTrailing_no_pair, stripLeading_no_pair, Hp.
  - apply stripTrailing_head, stripLeading_head, Hp.
  - apply stripTrailing_last, stripLeading_no_pair, Hp.
Qed.

Lemma cleanedBeforeSlice_well_hyphenated toLowerCase input :
  well_hyphenated (cleanedBeforeSlice toLowerCase input).
Proof.
  unfold cleanedBeforeSlice. apply stripEdge_well_hyphenated.
  - apply collapse_hyphens_stem, collapse_separators_stem, blankForeign_kept.
  - apply collapse_hyphens_no_pair.
Qed.

Lemma cleaned_well_hyphenated toLowerCase input :
  well_hyphenated (stripEdgeHyphens (slice0 60 (cleanedBeforeSlice toLowerCase input))).
Proof.
  destruct (cleanedBeforeSlice_well_hyphenated toLowerCase input) as (Hc & Hp & _ & _).
  apply stripEdge_well_hyphenated; unfold slice0.
  - apply forallb_firstn, Hc.
  - apply firstn_no_pair, Hp.
Qed.

Lemma stripEdge_length s : (length (stripEdgeHyphens s) <= length s)%nat.
Proof.
  unfold stripEdgeHyphens.
  assert (forall t, (length (stripTrailingHyphen t) <= length t)%nat) as Ht.
  { induction t as [|c [|d r] IH]; simpl; [lia | destruct (is_hyphen c); simpl; lia |].
    simpl in IH. lia. }
  assert (length (stripLeadingHyphen s) <= length s)%nat as Hl.
  { destruct s as [|c r]; simpl; [lia|]. destruct (is_hyphen c); simpl; lia. }
  specialize (Ht (stripLeadingHyphen s)). lia.
Qed.

(** [matches_stem] from the boolean conditions. *)
Lemma stem_prepend c s : is_az09 c = true -> matches_stem s -> matches_stem (c :: s).
Proof.
  intros Hc H. destruct H as [w [Hw1 Hw2] | w s [Hw1 Hw2] Hs].
  - apply stem_word. split; [discriminate|]. simpl. rewrite Hc. exact Hw2.
  - apply (stem_more (c :: w) s); [|exact Hs].
    split; [discriminate|]. simpl. rewrite Hc. exact Hw2.
Qed.

Lemma stem_of_well_hyphenated n s :
  (length s <= n)%nat -> s <> [] -> well_hyphenated s -> matches_stem s.
Proof.
  revert s. induction n as [|n IH]; intros s Hn Hne (Hc & Hp & Hh & Hl).
  - destruct s; [congruence | simpl in Hn; lia].
  - destruct s as [|c r]; [congruence|].
    rewrite forallb_cons_eq in Hc. apply andb_true_iff in Hc as [Hc Hr].
    simpl in Hh. apply negb_true_iff in Hh.
    pose proof (stem_char_cases c Hc Hh) as Hcz.
    pose proof (no_hyphen_pair_tail _ _ Hp) as Hp1.
    destruct r as [|d r'].
    { apply stem_word. split; [discriminate|]. simpl. rewrite Hcz. reflexivity. }
    assert (last_not_hyphen (d :: r') = true) as Hl1 by exact Hl.
    destruct (is_hyphen d) eqn:Ed.
    + (* a word of one character, a hyphen, and the rest *)
      destruct r' as [|e r''].
      { simpl in Hl1. rewrite Ed in Hl1. discriminate. }
      apply is_hyphen_eq in Ed as ->.
      apply (stem_more [c] (e :: r'')).
      { split; [discriminate|]. simpl. rewrite Hcz. reflexivity. }
      rewrite forallb_cons_eq in Hr. apply andb_true_iff in Hr as [_ Hr].
      rewrite no_hyphen_pair_cons in Hp1. apply andb_true_iff in Hp1 as [Hde Hp2].
      apply IH; [simpl in *; lia | discriminate |].
      repeat split; [exact Hr | exact Hp2 | | exact Hl1].
      simpl. simpl in Hde. exact Hde.
    + apply stem_prepend; [exact Hcz|].
      apply IH; [simpl in *; lia | discriminate |].
      repeat split; [exact Hr | exact Hp1 | | exact Hl1].
      simpl. rewrite Ed. reflexivity.
Qed.

Lemma stemb_matches s : stemb s = true -> matches_stem s.
Proof.
  unfold stemb. intros H.
  repeat (apply andb_true_iff in H as [H ?]).
  apply negb_true_iff, is_empty_false in H.
  apply (stem_of_well_hyphenated (length s)); [lia | exact H | repeat split; assumption].
Qed.

Lemma matches_stem_nonempty s : matches_stem s -> s <> [].
Proof.
  intros [w [Hw _] | w t [Hw _] _]; [exact Hw|].
  destruct w; [congruence | discriminate].
Qed.

Lemma last_not_hyphen_app w t : t <> [] -> last_not_hyphen (w ++ t) = last_not_hyphen t.
Proof.
  intros Ht. induction w as [|c w IH]; [reflexivity|].
  simpl. destruct (w ++ t) eqn:E; [|exact IH].
  destruct w, t; simpl in E; congruence.
Qed.

Lemma last_not_hyphen_word w : is_word w -> last_not_hyphen w = true.
Proof.
  intros [Hne Hw]. induction w as [|c [|d r] IH]; [congruence | |].
  - simpl in *. rewrite andb_true_r in Hw. rewrite (az09_not_hyphen c Hw). reflexivity.
  - change (is_az09 c && forallb is_az09 (d :: r) = true) in Hw.
    apply andb_true_iff in Hw as [_ Hw]. apply IH; [discriminate | exact Hw].
Qed.

Lemma matches_stem_last s : matches_stem s -> last_not_hyphen s = true.
Proof.
  induction 1 as [w Hw | w t Hw Ht IH].
  - apply last_not_hyphen_word, Hw.
  - rewrite last_not_hyphen_app by discriminate.
    pose proof (matches_stem_nonempty _ Ht) as Hne.
    destruct t as [|e t']; [congruence|]. exact IH.
Qed.

(** ** The sanitizer: claims C2 and C3 *)

Lemma sanitize_Some toLowerCase input stem :
  sanitizeFilename toLowerCase input = Some stem ->
  stem <> [] /\ (length stem <= 60)%nat /\ well_hyphenated stem.
Proof.
  unfold sanitizeFilename. cbv zeta.
  pose proof (cleaned_well_hyphenated toLowerCase input) as Hw.
  pose proof (stripEdge_length (slice0 60 (cleanedBeforeSlice toLowerCase input))) as Hlen.
  destruct (is_empty _) eqn:E; [discriminate|].
  intros [= <-]. split; [apply is_empty_false, E|]. split; [|exact Hw].
  unfold slice0 in Hlen at 2. rewrite length_firstn in Hlen.
  change (N.to_nat 60) with 60%nat in Hlen. lia.
Qed.


(** The truncation case: the 60th character is the hyphen that the second
    strip removes. *)
Example sanitize_truncation :
  sanitizeFilename asciiLower (repeat 97 59 ++ lit " b") = Some (repeat 97 59).
Proof. vm_compute. reflexivity. Qed.

Example sanitize_end_to_end :
  sanitizeFilename asciiLower (lit "Reverse-String Helper!! .js")
  = Some (lit "reverse-string-helper").
Proof. vm_compute. reflexivity. Qed.



Lemma stripExtension_no_dot s :
  forallb (fun c => negb (c =? Ch.dot)) s = true -> stripExtension s = s.
Proof.
  induction s as [|c r IH]; [reflexivity|].
  rewrite forallb_cons_eq. intros H. apply andb_true_iff in H as [Hc Hr].
  apply negb_true_iff in Hc. simpl. rewrite Hc, (IH Hr). reflexivity.
Qed.

Lemma removeQuotes_none s :
  forallb (fun c => negb (is_quote c)) s = true -> removeQuotes s = s.
Proof.
  unfold removeQuotes. induction s as [|c r IH]; [reflexivity|].
  rewrite forallb_cons_eq. intros H. apply andb_true_iff in H as [Hc Hr].
  simpl. rewrite Hc, (IH Hr). reflexivity.
Qed.







(** The copy at the head of part_000 stops after [.slice(0, 60)]: there, a
    hyphen at index 59 stays, and the result is not a fixed point. *)
Lemma part000_sanitize_keeps_trailing_hyphen :
  Part000.sanitizeFilename asciiLower (repeat 97 59 ++ lit " b")
  = Some (repeat 97 59 ++ lit "-")
  /\ ~ matches_stem (repeat 97 59 ++ lit "-")
  /\ Part000.sanitizeFilename asciiLower (repeat 97 59 ++ lit "-") = Some (repeat 97 59).
Proof.
  split; [vm_compute; reflexivity|]. split; [|vm_compute; reflexivity].
  intros H. apply matches_stem_last in H. vm_compute in H. discriminate.
Qed.

(** ** Numbers *)

Lemma toNumber_exact n : n < 2 ^ 53 -> toNumber n = Int n.
Proof.
  intros H. unfold toNumber. apply N.ltb_lt in H. rewrite H. reflexivity.
Qed.

(** Rounding never takes a natural number of [2^53] or more below [2^53]. *)
Lemma toNumber_large n :
  2 ^ 53 <= n -> toNumber n = Infinity \/ exists m, toNumber n = Int m /\ 2 ^ 53 <= m.
Proof.
  intros H. unfold toNumber.
  destruct (N.ltb_spec n (2 ^ 53)) as [Hlt|_]; [lia|]. cbv zeta.
  destruct (_ <? 2 ^ 1024); [right | left; reflexivity].
  eexists. split; [reflexivity|].
  set (e := N.log2 n - 52).
  assert (53 <= N.log2 n) as Hlog.
  { rewrite <- (N.log2_pow2 53) by lia. apply N.log2_le_mono, H. }
  assert (2 ^ N.log2 n <= n) as Hpow by (apply N.log2_spec; lia).
  assert (N.log2 n = e + 52) as He by (unfold e; lia).
  assert (2 ^ 52 <= N.shiftr n e) as Hq.
  { rewrite N.shiftr_div_pow2. apply N.div_le_lower_bound.
    - apply N.pow_nonzero. lia.
    - rewrite <- N.pow_add_r, <- He. exact Hpow. }
  assert (2 <= 2 ^ e) as H2.
  { change 2 with (2 ^ 1) at 1. apply N.pow_le_mono_r; unfold e; lia. }
  set (q := N.shiftr n e) in *.
  assert (2 ^ 53 <= q * 2 ^ e) as Hv.
  { change (2 ^ 53) with (2 ^ 52 * 2). apply N.mul_le_mono; assumption. }
  destruct (_ || _); [|exact Hv].
  rewrite N.mul_add_distr_r. lia.
Qed.

Lemma increment_exact c : c + 1 < 2 ^ 53 -> increment (Int c) = Int (c + 1).
Proof. intros H. simpl. apply toNumber_exact, H. Qed.

(** ** The allocator: the patterns *)

Lemma dot_rest_iff s : dot_rest s = true <-> exists ext, s = Ch.dot :: ext /\ is_extension ext.
Proof.
  unfold dot_rest, is_extension. split.
  - destruct s as [|c r]; [discriminate|]. intros H.
    apply andb_true_iff in H as [H Hr]. apply andb_true_iff in H as [Hc Hne].
    apply N.eqb_eq in Hc as ->. apply negb_true_iff, is_empty_false in Hne.
    exists r. auto.
  - intros (ext & -> & Hne & Hr). apply is_empty_false in Hne.
    rewrite N.eqb_refl, Hne, Hr. reflexivity.
Qed.

Lemma basePattern_test_iff baseFilename file :
  basePattern_test baseFilename file = true <-> is_unsuffixed baseFilename file.
Proof.
  unfold basePattern_test, is_unsuffixed. split.
  - destruct (strip_prefix baseFilename file) as [r|] eqn:E; [|discriminate].
    apply strip_prefix_Some in E as ->. intros H.
    apply dot_rest_iff in H as (ext & -> & Hext). exists ext. auto.
  - intros (ext & -> & Hext). rewrite strip_prefix_app.
    apply dot_rest_iff. exists ext. auto.
Qed.

Lemma baseFilenameExists_iff files baseFilename :
  baseFilenameExists files baseFilename = true <->
  exists file, In file files /\ is_unsuffixed baseFilename file.
Proof.
  unfold baseFilenameExists. rewrite existsb_exists.
  split; intros (file & Hin & H); exists file; split; try assumption;
    apply basePattern_test_iff, H.
Qed.

Lemma takeWhile_app_stop p w c t :
  forallb p w = true -> p c = false -> takeWhile p (w ++ c :: t) = w.
Proof.
  intros Hw Hc. induction w as [|a w IH]; simpl.
  - rewrite Hc. reflexivity.
  - rewrite forallb_cons_eq in Hw. apply andb_true_iff in Hw as [Ha Hw].
    rewrite Ha, (IH Hw). reflexivity.
Qed.

Lemma dropWhile_app_stop p w c t :
  forallb p w = true -> p c = false -> dropWhile p (w ++ c :: t) = c :: t.
Proof.
  intros Hw Hc. induction w as [|a w IH]; simpl.
  - rewrite Hc. reflexivity.
  - rewrite forallb_cons_eq in Hw. apply andb_true_iff in Hw as [Ha Hw].
    rewrite Ha. exact (IH Hw).
Qed.

Lemma numberedPattern_match_iff baseFilename file digits :
  numberedPattern_match baseFilename file = Some digits <->
  exists ext,
    file = baseFilename ++ digits ++ Ch.dot :: ext /\
    digits <> [] /\ forallb is_digit digits = true /\ is_extension ext.
Proof.
  unfold numberedPattern_match. split.
  - destruct (strip_prefix baseFilename file) as [r|] eqn:E; [|discriminate].
    apply strip_prefix_Some in E as ->. cbv zeta.
    destruct (negb _ && _) eqn:H; [|discriminate]. intros [= <-].
    apply andb_true_iff in H as [Hne Hdot].
    apply negb_true_iff, is_empty_false in Hne.
    apply dot_rest_iff in Hdot as (ext & Hdrop & Hext).
    exists ext. repeat split; try assumption; try apply Hext.
    + rewrite <- Hdrop, takeWhile_dropWhile. reflexivity.
    + apply takeWhile_forallb.
  - intros (ext & -> & Hne & Hd & Hext). rewrite strip_prefix_app. cbv zeta.
    rewrite takeWhile_app_stop, dropWhile_app_stop by (assumption || reflexivity).
    apply is_empty_false in Hne. rewrite Hne.
    assert (dot_rest (Ch.dot :: ext) = true) as -> by (apply dot_rest_iff; eauto).
    reflexivity.
Qed.

(** ** The allocator: the set of used numbers and the probe *)

Lemma collect_elem_of baseFilename files (acc : gset Number) x :
  x ∈ fold_left (collectNumber baseFilename) files acc <->
  x ∈ acc \/ exists file, In file files /\ is_numbered baseFilename file x.
Proof.
  revert acc. induction files as [|f files IH]; intros acc; simpl.
  - split; [auto | intros [H | (file & [] & _)]; exact H].
  - rewrite IH. unfold collectNumber.
    destruct (numberedPattern_match baseFilename f) as [ds|] eqn:E.
    + apply numberedPattern_match_iff in E as (ext & Hf & Hne & Hd & Hext).
      rewrite elem_of_union, elem_of_singleton. split.
      * intros [[-> | H] | (file & Hin & H)]; [right | left | right]; eauto.
        exists f. split; [left; reflexivity|]. exists ds, ext. auto.
      * intros [H | (file & [<- | Hin] & H)]; eauto.
        destruct H as (ds' & ext' & Hf' & Hne' & Hd' & Hext' & <-).
        left. left.
        assert (numberedPattern_match baseFilename f = Some ds) as H1
          by (apply numberedPattern_match_iff; eauto).
        assert (numberedPattern_match baseFilename f = Some ds') as H2
          by (apply numberedPattern_match_iff; eauto).
        congruence.
    + split.
      * intros [H | (file & Hin & H)]; eauto.
      * intros [H | (file & [<- | Hin] & H)]; eauto.
        destruct H as (ds' & ext' & Hf' & Hne' & Hd' & Hext' & _).
        assert (numberedPattern_match baseFilename f = Some ds') as H2
          by (apply numberedPattern_match_iff; eauto).
        congruence.
Qed.

(** A number is used exactly when a file of the listing carries it. *)
Lemma usedNumbers_elem_of files baseFilename x :
  x ∈ usedNumbers files baseFilename <->
  exists file, In file files /\ is_numbered baseFilename file x.
Proof.
  unfold usedNumbers. rewrite collect_elem_of. split; [intros [H|H]; [set_solver | exact H] | auto].
Qed.

Lemma collect_size baseFilename files (acc : gset Number) :
  (size (fold_left (collectNumber baseFilename) files acc) <= size acc + length files)%nat.
Proof.
  revert acc. induction files as [|f files IH]; intros acc; simpl; [lia|].
  etransitivity; [apply IH|].
  unfold collectNumber. destruct (numberedPattern_match baseFilename f); [|lia].
  rewrite size_union_alt, size_singleton.
  pose proof (subseteq_size (acc ∖ {[parseInt10 s]}) acc) as Hd.
  assert (acc ∖ {[parseInt10 s]} ⊆ acc) as Hsub
    by (intros y Hy; apply elem_of_difference in Hy; apply Hy).
  specialize (Hd Hsub). lia.
Qed.

Lemma usedNumbers_size files baseFilename :
  (size (usedNumbers files baseFilename) <= length files)%nat.
Proof.
  pose proof (collect_size baseFilename files ∅) as H.
  rewrite size_empty in H. exact H.
Qed.

(** A set that holds [1 .. c] has at least [c] elements. *)
Lemma initial_segment_size (used : gset Number) (c : nat) :
  (forall j, (1 <= j <= c)%nat -> Int (N.of_nat j) ∈ used) -> (c <= size used)%nat.
Proof.
  intros H.
  set (l := (fun j => Int (N.of_nat j)) <$> seq 1 c).
  assert (NoDup l) as Hnd.
  { apply NoDup_fmap_2; [|apply NoDup_seq]. intros a b [=]. lia. }
  assert (list_to_set l ⊆ used) as Hsub.
  { intros x Hx. apply elem_of_list_to_set in Hx.
    apply list_elem_of_fmap in Hx as (j & -> & Hj).
    apply elem_of_seq in Hj. apply H. lia. }
  apply subseteq_size in Hsub. rewrite size_list_to_set in Hsub by exact Hnd.
  unfold l in Hsub. rewrite length_fmap, length_seq in Hsub. exact Hsub.
Qed.

Lemma initial_segment_size_N (used : gset Number) (c : N) :
  (forall j, 1 <= j <= c -> Int j ∈ used) -> c <= N.of_nat (size used).
Proof.
  intros H. pose proof (initial_segment_size used (N.to_nat c)) as Hc.
  assert (N.to_nat c <= size used)%nat; [|lia].
  apply Hc. intros j Hj. apply H. lia.
Qed.

(** The probe, started below the first gap and with fuel for what is left
    of the set, stops at the first gap. *)
Lemma probe_spec (used : gset Number) fuel c :
  1 <= c ->
  (forall j, 1 <= j < c -> Int j ∈ used) ->
  N.of_nat (size used) < 2 ^ 53 - 1 ->
  N.of_nat (size used) + 1 < N.of_nat fuel + c ->
  exists k,
    probe fuel used (Int c) = Some (Int k) /\ c <= k /\
    (Int k ∉ used) /\ (forall j, 1 <= j < k -> Int j ∈ used).
Proof.
  revert c. induction fuel as [|fuel IH]; intros c Hc Hbelow Hsize Hfuel.
  - pose proof (initial_segment_size_N used (c - 1)) as Hp.
    assert (c - 1 <= N.of_nat (size used)) by (apply Hp; intros j Hj; apply Hbelow; lia).
    lia.
  - simpl. destruct (bool_decide (Int c ∈ used)) eqn:E.
    + apply bool_decide_eq_true in E.
      assert (c <= N.of_nat (size used)) as Hle.
      { apply initial_segment_size_N. intros j Hj.
        destruct (N.eq_dec j c) as [->|]; [exact E | apply Hbelow; lia]. }
      rewrite toNumber_exact by lia.
      destruct (IH (c + 1)) as (k & Hk & Hck & Hnot & Hall); try lia.
      * intros j Hj. destruct (N.eq_dec j c) as [->|]; [exact E | apply Hbelow; lia].
      * exists k. repeat split; try assumption. lia.
    + apply bool_decide_eq_false in E. exists c. repeat split; try assumption. lia.
Qed.

Lemma findNextAvailableNumber_spec fuel files baseFilename :
  is_array files -> (length files < fuel)%nat ->
  exists k,
    findNextAvailableNumber fuel files baseFilename = Some (Int k) /\ 1 <= k /\
    (Int k ∉ usedNumbers files baseFilename) /\
    (forall j, 1 <= j < k -> Int j ∈ usedNumbers files baseFilename).
Proof.
  unfold is_array. intros Harr Hfuel. unfold findNextAvailableNumber. cbv zeta.
  pose proof (usedNumbers_size files baseFilename) as Hsize.
  destruct (bool_decide (size (usedNumbers files baseFilename) = 0%nat)) eqn:E.
  - apply bool_decide_eq_true in E. apply size_empty_inv in E.
    exists 1. split; [reflexivity|]. split; [lia|]. split; [|intros j Hj; lia].
    intros H. apply E in H. exact (not_elem_of_empty _ H).
  - assert (2 ^ 32 < 2 ^ 53 - 1) as Hpow by reflexivity.
    apply bool_decide_eq_false in E.
    apply probe_spec; [lia | intros j Hj; lia | lia | lia].
Qed.

Lemma probe_more_fuel used fuel fuel' c k :
  probe fuel used c = Some k -> (fuel <= fuel')%nat -> probe fuel' used c = Some k.
Proof.
  revert fuel' c. induction fuel as [|fuel IH]; intros fuel' c; [discriminate|].
  intros H Hle. destruct fuel' as [|fuel']; [lia|]. simpl in *.
  destruct (bool_decide (c ∈ used)); [|exact H]. apply IH; [exact H | lia].
Qed.

Lemma finalFilename_more_fuel fuel fuel' files baseFilename ext name :
  createScratchpad_finalFilename fuel files baseFilename ext = Some name ->
  (fuel <= fuel')%nat ->
  createScratchpad_finalFilename fuel' files baseFilename ext = Some name.
Proof.
  unfold createScratchpad_finalFilename, findNextAvailableNumber. cbv zeta.
  destruct (negb _); [auto|].
  destruct (bool_decide _); [auto|].
  destruct (probe fuel _ _) as [n|] eqn:E; [|discriminate].
  intros H Hle. rewrite (probe_more_fuel _ _ _ _ _ E Hle). exact H.
Qed.

(** At [2^53] the counter no longer moves: the loop of the source would not
    end on a set that holds every number up to there, hence the fuel. *)
Lemma increment_stuck : increment (Int (2 ^ 53)) = Int (2 ^ 53).
Proof. vm_compute. reflexivity. Qed.

Lemma probe_bound used fuel c x :
  c <= 2 ^ 53 -> probe fuel used (Int c) = Some x -> exists k, x = Int k /\ k <= 2 ^ 53.
Proof.
  revert c. induction fuel as [|fuel IH]; intros c Hc; [discriminate|].
  simpl. destruct (bool_decide (Int c ∈ used)).
  - destruct (N.lt_ge_cases (c + 1) (2 ^ 53)) as [Hlt|Hge].
    + rewrite toNumber_exact by exact Hlt. apply IH. lia.
    + assert (c + 1 = 2 ^ 53 \/ c + 1 = 2 ^ 53 + 1) as [-> | ->] by lia.
      * change (toNumber (2 ^ 53)) with (increment (Int (2 ^ 53 - 1))).
        replace (increment (Int (2 ^ 53 - 1))) with (Int (2 ^ 53))
          by (vm_compute; reflexivity).
        apply IH. lia.
      * change (toNumber (2 ^ 53 + 1)) with (increment (Int (2 ^ 53))).
        rewrite increment_stuck. apply IH. lia.
  - intros [= <-]. exists c. split; [reflexivity | exact Hc].
Qed.

(** ** The allocator: claims C1 and C4 *)

Lemma finalFilename_numbered fuel files baseFilename :
  is_array files -> (length files < fuel)%nat ->
  (exists file, In file files /\ is_unsuffixed baseFilename file) ->
  exists k : N,
    1 <= k /\
    (forall file, In file files -> ~ is_numbered baseFilename file (Int k)) /\
    (forall j, 1 <= j < k ->
               exists file, In file files /\ is_numbered baseFilename file (Int j)) /\
    (forall ext,
        createScratchpad_finalFilename fuel files baseFilename ext
        = Some (baseFilename ++ numberToString (Int k) ++ ext)).
Proof.
  intros Harr Hfuel Hbase. apply baseFilenameExists_iff in Hbase.
  destruct (findNextAvailableNumber_spec fuel files baseFilename Harr Hfuel)
    as (k & Hk & H1 & Hfree & Hused).
  exists k. split; [exact H1|]. split; [|split].
  - intros file Hin Hnum. apply Hfree, usedNumbers_elem_of. eauto.
  - intros j Hj. apply usedNumbers_elem_of, Hused, Hj.
  - intros ext. unfold createScratchpad_finalFilename. rewrite Hbase, Hk. reflexivity.
Qed.

(** C1.  When the listing (an array) holds a file [baseName.ext'], there is
    an integer [k >= 1], the lowest one that no file [baseName + digits + . +
    extension] of the listing parses to, such that for every requested
    extension the allocator returns the base name, then [k], then that
    extension; the fuel of the probe need only exceed the number of files.
    With the listing [s.js, s1.ts, s3.sql, s4.js] and the base name [s], the
    number is 2 for every extension. *)
Theorem allocator_lowest_free_number :
  (forall (files : list str) (baseFilename : str) (fuel : nat),
      is_array files -> (length files < fuel)%nat ->
      (exists file, In file files /\ is_unsuffixed baseFilename file) ->
      exists k : N,
        1 <= k /\
        (forall file, In file files -> ~ is_numbered baseFilename file (Int k)) /\
        (forall j, 1 <= j < k ->
                   exists file, In file files /\ is_numbered baseFilename file (Int j)) /\
        (forall ext,
            createScratchpad_finalFilename fuel files baseFilename ext
            = Some (baseFilename ++ numberToString (Int k) ++ ext)))
  /\
  (forall (ext : str) (fuel : nat),
      (length example_files < fuel)%nat ->
      createScratchpad_finalFilename fuel example_files (lit "s") ext
      = Some (lit "s" ++ lit "2" ++ ext)).
Proof.
  split; [intros files baseFilename fuel; apply finalFilename_numbered|].
  intros ext fuel Hfuel.
  apply (finalFilename_more_fuel 5%nat); [|exact Hfuel].
  unfold createScratchpad_finalFilename.
  assert (baseFilenameExists example_files (lit "s") = true) as ->
      by (vm_compute; reflexivity).
  assert (findNextAvailableNumber 5 example_files (lit "s") = Some (Int 2)) as ->
      by (vm_compute; reflexivity).
  reflexivity.
Qed.

Lemma allocator_lowest_free_number_witness :
  exists k : N,
    1 <= k /\
    (forall file, In file example_files -> ~ is_numbered (lit "s") file (Int k)) /\
    (forall j, 1 <= j < k ->
               exists file, In file example_files /\ is_numbered (lit "s") file (Int j)) /\
    (forall ext,
        createScratchpad_finalFilename 5 example_files (lit "s") ext
        = Some (lit "s" ++ numberToString (Int k) ++ ext)).
Proof.
  apply (proj1 allocator_lowest_free_number example_files (lit "s") 5%nat).
  - unfold is_array. simpl. lia.
  - simpl. lia.
  - exists (lit "s.js"). split; [left; reflexivity|].
    apply basePattern_test_iff. reflexivity.
Defined.

Lemma usedNumbers_empty files baseFilename :
  (forall file n, In file files -> ~ is_numbered baseFilename file n) ->
  usedNumbers files baseFilename = ∅.
Proof.
  intros H. apply elem_of_equiv_empty_L. intros x Hx.
  apply usedNumbers_elem_of in Hx as (file & Hin & Hnum). exact (H file x Hin Hnum).
Qed.

(** C4.  When no file of the listing is [baseName.ext'], the allocator
    returns the base name and the extension, with no number; when one is but
    no file is [baseName + digits + . + extension], the number is 1.  So
    [allocate scratch .md []] is [scratch.md], and [allocate scratch .py
    [scratch.md]] is [scratch1.py]. *)
Theorem allocator_unsuffixed_or_one (files : list str) (baseFilename ext : str) (fuel : nat) :
  ((forall file, In file files -> ~ is_unsuffixed baseFilename file) ->
   createScratchpad_finalFilename fuel files baseFilename ext = Some (baseFilename ++ ext))
  /\
  ((exists file, In file files /\ is_unsuffixed baseFilename file) ->
   (forall file n, In file files -> ~ is_numbered baseFilename file n) ->
   createScratchpad_finalFilename fuel files baseFilename ext
   = Some (baseFilename ++ lit "1" ++ ext))
  /\
  createScratchpad_finalFilename fuel [] (lit "scratch") (lit ".md")
  = Some (lit "scratch.md")
  /\
  createScratchpad_finalFilename fuel [lit "scratch.md"] (lit "scratch") (lit ".py")
  = Some (lit "scratch1.py").
Proof.
  split; [|split; [|split]].
  - intros Hnone. unfold createScratchpad_finalFilename.
    destruct (baseFilenameExists files baseFilename) eqn:E; [|reflexivity].
    apply baseFilenameExists_iff in E as (file & Hin & Hu).
    destruct (Hnone file Hin Hu).
  - intros Hbase Hnum. apply baseFilenameExists_iff in Hbase.
    unfold createScratchpad_finalFilename, findNextAvailableNumber.
    rewrite Hbase, (usedNumbers_empty _ _ Hnum). reflexivity.
  - reflexivity.
  - vm_compute. reflexivity.
Qed.

(** The extension of the patterns is [(.+)$]: a name whose extension holds a
    line terminator matches neither of them, and its number is not counted. *)
Example extension_with_line_feed_not_counted :
  createScratchpad_finalFilename 3
    [lit "s.js"; lit "s1.j" ++ Ch.newline :: lit "s"] (lit "s") (lit ".ts")
  = Some (lit "s1.ts").
Proof. vm_compute. reflexivity. Qed.

(** The suffix is parsed: [s01.ts] uses the number 1. *)
Example leading_zero_counts :
  createScratchpad_finalFilename 3 [lit "s.js"; lit "s01.ts"] (lit "s") (lit ".ts")
  = Some (lit "s2.ts").
Proof. vm_compute. reflexivity. Qed.

(** ** Runs of programs *)

Section RunFacts.

Context {World : Type}.
Variable handler : forall X : Type, Call X -> World -> Outcome X * World.

Lemma run_bind {A B : Type} (p : Prog A) (f : A -> Prog B) (w : World) :
  run handler (bind p f) w =
  match run handler p w with
  | (Returned a, w1, t1) =>
      let '(o, w2, t2) := run handler (f a) w1 in (o, w2, t1 ++ t2)
  | (Thrown e, w1, t1) => (Thrown e, w1, t1)
  | (Pending, w1, t1) => (Pending, w1, t1)
  end.
Proof.
  revert w. induction p as [a | e | | m k IH | X c k IH]; intros w; simpl.
  - destruct (run handler (f a) w) as [[o w2] t2]. reflexivity.
  - reflexivity.
  - reflexivity.
  - rewrite IH. destruct (run handler k w) as [[[a | e |] w1] t1]; try reflexivity.
    destruct (run handler (f a) w1) as [[o w2] t2]. reflexivity.
  - destruct (handler X c w) as [r w0]. rewrite IH.
    destruct (run handler (k r) w0) as [[[a | e |] w1] t1]; try reflexivity.
    destruct (run handler (f a) w1) as [[o w2] t2]. reflexivity.
Qed.

Lemma run_mbind {A B : Type} (p : Prog A) (f : A -> Prog B) (w : World) :
  run handler (p ≫= f) w =
  match run handler p w with
  | (Returned a, w1, t1) =>
      let '(o, w2, t2) := run handler (f a) w1 in (o, w2, t1 ++ t2)
  | (Thrown e, w1, t1) => (Thrown e, w1, t1)
  | (Pending, w1, t1) => (Pending, w1, t1)
  end.
Proof. apply run_bind. Qed.

Lemma run_try_catch {A : Type} (p : Prog A) (k : Exn -> Prog A) (w : World) :
  run handler (try_catch p k) w =
  match run handler p w with
  | (Thrown e, w1, t1) =>
      let '(o, w2, t2) := run handler (k e) w1 in (o, w2, t1 ++ t2)
  | other => other
  end.
Proof.
  revert w. induction p as [a | e | | m q IH | X c q IH]; intros w; simpl.
  - reflexivity.
  - destruct (run handler (k e) w) as [[o w2] t2]. reflexivity.
  - reflexivity.
  - rewrite IH. destruct (run handler q w) as [[[a | e |] w1] t1]; try reflexivity.
    destruct (run handler (k e) w1) as [[o w2] t2]. reflexivity.
  - destruct (handler X c w) as [r w0]. rewrite IH.
    destruct (run handler (q r) w0) as [[[a | e |] w1] t1]; try reflexivity.
    destruct (run handler (k e) w1) as [[o w2] t2]. reflexivity.
Qed.

(** A [catch] block that returns a value turns every exception into it. *)
Lemma run_try_catch_ret {A : Type} (p : Prog A) (v : A) (w : World) :
  run handler (try_catch p (fun _ => Ret v)) w =
  match run handler p w with
  | (Thrown e, w1, t1) => (Returned v, w1, t1)
  | other => other
  end.
Proof.
  rewrite run_try_catch. destruct (run handler p w) as [[[a | e |] w1] t1]; try reflexivity.
  simpl. rewrite app_nil_r. reflexivity.
Qed.

Lemma run_mark {A : Type} (m : Invocation) (p : Prog A) (w : World) :
  run handler (Mark m p) w =
  let '(o, w1, t) := run handler p w in (o, w1, Invoked m :: t).
Proof. reflexivity. Qed.

Lemma run_lift {A : Type} (o : Outcome A) (w : World) :
  run handler (lift o) w = (o, w, []).
Proof. destruct o; reflexivity. Qed.

Lemma run_call {X : Type} (c : Call X) (w : World) :
  run handler (call c) w =
  let '(r, w1) := handler X c w in (r, w1, [Called c]).
Proof.
  unfold call. simpl. destruct (handler X c w) as [r w1].
  rewrite run_lift. reflexivity.
Qed.

End RunFacts.

(** ** The provider chain: claim C5 *)

(** C5.  With the outcome of the local backend at hand: under [vscode] the
    chain invokes the local backend and nothing else; under [openai] it
    invokes the remote backend and nothing else; under [auto] it invokes the
    local backend first, returns its stem without invoking the remote
    backend when there is one, and invokes the remote backend when the local
    result is absent. *)
Theorem provider_chain_order {World : Type}
  (handler : forall X : Type, Call X -> World -> Outcome X * World)
  (cfg : Config) (localB remoteB : str -> str -> Prog (option str))
  (content fileExt : str) (w : World)
  (localOutcome : Outcome (option str)) (wL : World) (tL : list Event) :
  run handler (localB content fileExt) w = (localOutcome, wL, tL) ->
  let chain := run handler (suggestFilename_over cfg localB remoteB content fileExt) w in
  (providerOf cfg = lit "vscode" ->
   chain = (keepPresent localOutcome, wL, Invoked (localMark content fileExt) :: tL))
  /\
  (providerOf cfg = lit "openai" ->
   chain = let '(o, wR, tR) := run handler (remoteB content fileExt) w in
           (o, wR, Invoked (remoteMark content fileExt) :: tR))
  /\
  (providerOf cfg = lit "auto" ->
   forall stem, localOutcome = Returned (Some stem) -> stem <> [] ->
   chain = (Returned (Some stem), wL, Invoked (localMark content fileExt) :: tL))
  /\
  (providerOf cfg = lit "auto" ->
   localOutcome = Returned None ->
   chain = let '(o, wR, tR) := run handler (remoteB content fileExt) wL in
           (o, wR, Invoked (localMark content fileExt) :: tL
                     ++ Invoked (remoteMark content fileExt) :: tR)).
Proof.
  intros HL chain. subst chain. unfold suggestFilename_over, providerOf.
  repeat split; intros ->.
  - change (str_eqb (lit "vscode") (lit "vscode") || str_eqb (lit "vscode") (lit "auto"))
      with true.
    change (str_eqb (lit "vscode") (lit "openai") || str_eqb (lit "vscode") (lit "auto"))
      with false.
    cbv iota zeta. rewrite run_mbind, run_mark, HL.
    destruct localOutcome as [s | e |]; try reflexivity.
    unfold keepPresent. destruct (present s); simpl; rewrite app_nil_r; reflexivity.
  - change (str_eqb (lit "openai") (lit "vscode") || str_eqb (lit "openai") (lit "auto"))
      with false.
    change (str_eqb (lit "openai") (lit "openai") || str_eqb (lit "openai") (lit "auto"))
      with true.
    cbv iota zeta. apply run_mark.
  - intros stem -> Hne.
    change (str_eqb (lit "auto") (lit "vscode") || str_eqb (lit "auto") (lit "auto"))
      with true.
    cbv iota zeta. rewrite run_mbind, run_mark, HL.
    simpl present. apply is_empty_false in Hne. rewrite Hne. simpl.
    rewrite app_nil_r. reflexivity.
  - intros ->.
    change (str_eqb (lit "auto") (lit "vscode") || str_eqb (lit "auto") (lit "auto"))
      with true.
    change (str_eqb (lit "auto") (lit "openai") || str_eqb (lit "auto") (lit "auto"))
      with true.
    cbv iota zeta. rewrite run_mbind, run_mark, HL. simpl present. cbv iota.
    rewrite run_mark.
    destruct (run handler (remoteB content fileExt) wL) as [[o wR] tR]. reflexivity.
Qed.

(** ** What a program can emit *)

Lemma emits_only_run {World A : Type}
  (handler : forall X : Type, Call X -> World -> Outcome X * World)
  (allowed : Event -> bool) (p : Prog A) (w : World) :
  emits_only allowed p -> forallb allowed (snd (run handler p w)) = true.
Proof.
  intros H. revert w. induction H as [a | e | | m k Hm _ IH | X c k Hc _ IH]; intros w;
    simpl; try reflexivity.
  - specialize (IH w). destruct (run handler k w) as [[o w1] t]. simpl in *.
    rewrite Hm. exact IH.
  - destruct (handler X c w) as [r w0]. specialize (IH r w0).
    destruct (run handler (k r) w0) as [[o w1] t]. simpl in *.
    rewrite Hc. exact IH.
Qed.

Lemma emits_only_weaken {A : Type} (a1 a2 : Event -> bool) (p : Prog A) :
  (forall ev, a1 ev = true -> a2 ev = true) -> emits_only a1 p -> emits_only a2 p.
Proof.
  intros Hw H. induction H; constructor; auto.
Qed.

Lemma emits_bind {A B : Type} allowed (p : Prog A) (f : A -> Prog B) :
  emits_only allowed p -> (forall a, emits_only allowed (f a)) ->
  emits_only allowed (p ≫= f).
Proof.
  intros Hp Hf. change (emits_only allowed (bind p f)).
  induction Hp; simpl; try constructor; auto.
Qed.

Lemma emits_try_catch {A : Type} allowed (p : Prog A) (k : Exn -> Prog A) :
  emits_only allowed p -> (forall e, emits_only allowed (k e)) ->
  emits_only allowed (try_catch p k).
Proof.
  intros Hp Hk. induction Hp; simpl; try constructor; auto.
Qed.

Lemma emits_try_finally {A : Type} allowed (p : Prog A) (f : Prog unit) :
  emits_only allowed p -> emits_only allowed f -> emits_only allowed (try_finally p f).
Proof.
  intros Hp Hf. induction Hp; simpl; try (constructor; auto; fail).
  - apply emits_bind; [exact Hf | intros; constructor].
  - apply emits_bind; [exact Hf | intros; constructor].
Qed.

Lemma emits_lift {A : Type} allowed (o : Outcome A) : emits_only allowed (lift o).
Proof. destruct o; constructor. Qed.

Lemma emits_call {X : Type} allowed (c : Call X) :
  allowed (Called c) = true -> emits_only allowed (call c).
Proof. intros H. constructor; [exact H | intros r; apply emits_lift]. Qed.

Lemma selectModel_cons selector rest :
  selectModel (selector :: rest) =
  (call (SelectChatModels selector) ≫=
     fun candidates =>
       match candidates with
       | candidate :: _ => Ret (Some candidate)
       | [] => selectModel rest
       end).
Proof. reflexivity. Qed.

Lemma emits_selectModel sels : emits_only is_local_call (selectModel sels).
Proof.
  induction sels as [|sel rest IH]; [constructor|]. rewrite selectModel_cons.
  apply emits_bind; [apply emits_call; reflexivity|].
  intros [|candidate ?]; [exact IH | constructor].
Qed.

Lemma emits_dispatch allowed timeout events res data :
  (forall e, allowed (Called (DestroyRequest e)) = true) ->
  emits_only allowed (dispatch timeout events res data).
Proof.
  intros Hd. revert res data.
  induction events as [|ev rest IH]; intros res data; [constructor|].
  destruct ev as [st | chunk | | e |]; cbn [dispatch].
  - apply IH.
  - destruct res; apply IH.
  - destruct res as [st|]; [destruct (status_ok st); constructor | apply IH].
  - constructor.
  - destruct timeout; [|apply IH].
    apply emits_bind; [apply emits_call, Hd | intros; constructor].
Qed.

Lemma emits_postJSON_with allowed timeout payload extraHeaders :
  (forall e, allowed (Called (DestroyRequest e)) = true) ->
  allowed (Called (HttpsRequest (requestOf timeout payload extraHeaders))) = true ->
  emits_only allowed (postJSON_with timeout payload extraHeaders).
Proof.
  intros Hd Hr. unfold postJSON_with. apply emits_bind; [apply emits_call, Hr|].
  intros events. apply emits_dispatch, Hd.
Qed.

Lemma emits_local toLowerCase host content fileExt :
  emits_only is_local_call (suggestWithVSCodeLM toLowerCase host content fileExt).
Proof.
  unfold suggestWithVSCodeLM, localBody.
  apply emits_try_catch; [|intros; constructor].
  destruct (negb _ || negb _); [constructor|].
  apply emits_bind; [apply emits_selectModel|].
  intros [m|]; [|constructor].
  apply emits_bind; [|intros; constructor].
  apply emits_try_finally; [|apply emits_call; reflexivity].
  apply emits_bind; [apply emits_call; reflexivity|].
  intros response. unfold collect. destruct (streamEnd response); constructor.
Qed.

Lemma emits_timed_remote toLowerCase JSON_parse cfg content fileExt :
  emits_only is_timed_remote_call
    (suggestWithOpenAI toLowerCase JSON_parse cfg content fileExt).
Proof.
  unfold suggestWithOpenAI, suggestWithOpenAI_over, remoteBody.
  destruct (is_empty _); [constructor|].
  apply emits_try_catch; [|intros; constructor].
  apply emits_bind; [apply emits_postJSON_with; reflexivity|].
  intros raw. apply emits_lift.
Qed.

Lemma emits_remote toLowerCase JSON_parse cfg content fileExt :
  emits_only is_remote_call (suggestWithOpenAI toLowerCase JSON_parse cfg content fileExt).
Proof.
  eapply emits_only_weaken; [|apply emits_timed_remote].
  intros [m | X c]; [discriminate|]. destruct c; simpl; congruence.
Qed.

(** The chain calls the language model and the network, and nothing else: in
    particular it changes neither the file system nor the tabs. *)
Lemma emits_chain toLowerCase JSON_parse cfg host content fileExt :
  emits_only is_chain_event (suggestFilename toLowerCase JSON_parse cfg host content fileExt).
Proof.
  unfold suggestFilename, suggestFilename_over.
  assert (emits_only is_chain_event
            (suggestWithVSCodeLM toLowerCase host content fileExt)) as HL.
  { eapply emits_only_weaken; [|apply emits_local].
    intros ev H. unfold is_chain_event. rewrite H. reflexivity. }
  assert (emits_only is_chain_event
            (suggestWithOpenAI toLowerCase JSON_parse cfg content fileExt)) as HR.
  { eapply emits_only_weaken; [|apply emits_remote].
    intros ev H. unfold is_chain_event. rewrite H. apply orb_true_iff. left.
    apply orb_true_iff. left. apply orb_true_r. }
  cbv zeta.
  assert (forall b : bool,
             emits_only is_chain_event
               (if b
                then Mark (remoteMark content fileExt)
                       (suggestWithOpenAI toLowerCase JSON_parse cfg content fileExt)
                else Ret None)) as Hstep.
  { intros [|]; [|constructor]. constructor; [reflexivity | exact HR]. }
  destruct (str_eqb _ (lit "vscode") || _); [|apply Hstep].
  apply emits_bind.
  - constructor; [reflexivity | exact HL].
  - intros v. destruct (present v); [constructor | apply Hstep].
Qed.

Lemma chain_event_not_mutation ev : is_chain_event ev = true -> is_mutation ev = false.
Proof.
  destruct ev as [m | X c]; [reflexivity|].
  destruct c; cbv; intros H; first [reflexivity | discriminate H].
Qed.

(** ** The backends: claims C6 and C7 *)

Section BackendFacts.

Context {World : Type}.
Variable handler : forall X : Type, Call X -> World -> Outcome X * World.
Variable toLowerCase : str -> str.
Variable JSON_parse : str -> option JSValue.
Variable cfg : Config.
Variable host : Host.

Lemma catch_all_not_thrown {A : Type} (p : Prog A) (v : A) (w : World) err :
  outcome_of (run handler (try_catch p (fun _ => Ret v)) w) <> Thrown err.
Proof.
  rewrite run_try_catch_ret.
  destruct (run handler p w) as [[[a | e |] w1] t1]; discriminate.
Qed.

Lemma local_never_throws content fileExt w err :
  outcome_of (run handler (suggestWithVSCodeLM toLowerCase host content fileExt) w) <> Thrown err.
Proof. apply catch_all_not_thrown. Qed.

Lemma remote_never_throws content fileExt w err :
  outcome_of (run handler (suggestWithOpenAI toLowerCase JSON_parse cfg content fileExt) w) <> Thrown err.
Proof.
  unfold suggestWithOpenAI, suggestWithOpenAI_over.
  destruct (is_empty _); [discriminate | apply catch_all_not_thrown].
Qed.






Lemma remote_run (post : Payload -> list (str * str) -> Prog str) content fileExt w posted w1 t1 :
  apiKeyOf cfg <> [] ->
  run handler (post (requestPayload cfg content fileExt) (authorization cfg)) w
  = (posted, w1, t1) ->
  run handler (suggestWithOpenAI_over toLowerCase JSON_parse cfg post content fileExt) w
  = (remoteResult toLowerCase JSON_parse posted, w1, t1).
Proof.
  intros Hkey Hpost. unfold suggestWithOpenAI_over, remoteBody.
  apply is_empty_false in Hkey. rewrite Hkey.
  rewrite run_try_catch_ret, run_mbind, Hpost.
  destruct posted as [raw | e |]; try reflexivity.
  rewrite run_lift. unfold remoteResult.
  destruct (readSuggestion toLowerCase JSON_parse raw); simpl; rewrite ?app_nil_r; reflexivity.
Qed.




(** [postJSON] over the events of the request. *)
Lemma postJSON_with_run timeout payload extraHeaders w reply w1 :
  handler _ (HttpsRequest (requestOf timeout payload extraHeaders)) w = (reply, w1) ->
  run handler (postJSON_with timeout payload extraHeaders) w =
  match reply with
  | Returned events =>
      let '(o, w2, t2) := run handler (dispatch timeout events None []) w1 in
      (o, w2, Called (HttpsRequest (requestOf timeout payload extraHeaders)) :: t2)
  | Thrown e =>
      (Thrown e, w1, [Called (HttpsRequest (requestOf timeout payload extraHeaders))])
  | Pending =>
      (Pending, w1, [Called (HttpsRequest (requestOf timeout payload extraHeaders))])
  end.
Proof.
  intros H. unfold postJSON_with. rewrite run_mbind, run_call, H.
  destruct reply; reflexivity.
Qed.


Lemma dispatch_chunks timeout chunks rest statusCode data :
  dispatch timeout (List.map OnData chunks ++ rest) (Some statusCode) data
  = dispatch timeout rest (Some statusCode) (data ++ List.concat chunks).
Proof.
  revert data. induction chunks as [|chunk chunks IH]; intros data; simpl.
  - rewrite app_nil_r. reflexivity.
  - rewrite IH, app_assoc. reflexivity.
Qed.


Lemma postJSON_status payload extraHeaders w statusCode chunks rest w1 :
  handler _ (HttpsRequest (requestOf (Some timeoutMs_const) payload extraHeaders)) w
  = (Returned (OnResponse statusCode :: List.map OnData chunks ++ OnEnd :: rest), w1) ->
  run handler (postJSON payload extraHeaders) w
  = (if status_ok statusCode then Returned (List.concat chunks) else Thrown statusError,
     w1,
     [Called (HttpsRequest (requestOf (Some timeoutMs_const) payload extraHeaders))]).
Proof.
  intros H. unfold postJSON. rewrite (postJSON_with_run _ _ _ _ _ _ H).
  cbn [dispatch]. rewrite dispatch_chunks. cbn [dispatch].
  destruct (status_ok statusCode); reflexivity.
Qed.






End BackendFacts.

Section TimeoutFacts.

Context {World : Type}.
Variable handler : forall X : Type, Call X -> World -> Outcome X * World.
Variable toLowerCase : str -> str.
Variable JSON_parse : str -> option JSValue.
Variable cfg : Config.




(** The copy of [postJSON] in part_000 (lines 160-197) arms no timer: a
    request that gets no answer stays pending, and so does the backend. *)
Lemma part000_postJSON_without_timer payload extraHeaders w w1 :
  handler _ (HttpsRequest (requestOf None payload extraHeaders)) w = (Returned [], w1) ->
  run handler (postJSON_with None payload extraHeaders) w
  = (Pending, w1, [Called (HttpsRequest (requestOf None payload extraHeaders))]).
Proof.
  intros H. rewrite (postJSON_with_run _ _ _ _ _ _ _ H). reflexivity.
Qed.

End TimeoutFacts.

(** ** The orchestrator: claims C8, C9 and C10 *)

Lemma existsb_mutation_chain t :
  forallb is_chain_event t = true -> existsb is_mutation t = false.
Proof.
  induction t as [|ev t IH]; [reflexivity|]. simpl. intros H.
  apply andb_true_iff in H as [Hev Ht].
  rewrite (chain_event_not_mutation ev Hev), (IH Ht). reflexivity.
Qed.

Lemma rename_is_mutation ev : is_rename ev = true -> is_mutation ev = true.
Proof. destruct ev as [m | X c]; [discriminate|]. destruct c; simpl; congruence. Qed.

Lemma no_mutation_no_rename t : existsb is_mutation t = false -> existsb is_rename t = false.
Proof.
  induction t as [|ev t IH]; [reflexivity|]. simpl. intros H.
  apply orb_false_iff in H as [Hev Ht]. rewrite (IH Ht), orb_false_r.
  destruct (is_rename ev) eqn:E; [|reflexivity].
  rewrite (rename_is_mutation ev E) in Hev. discriminate.
Qed.

Lemma renames_only_In from to t f t' :
  forallb (renames_only from to) t = true ->
  In (Some (f, t')) (List.map rename_of t) -> f = from /\ t' = to.
Proof.
  induction t as [|ev t IH]; [intros _ []|]. simpl. intros H [Hin | Hin].
  - apply andb_true_iff in H as [Hev _].
    destruct ev as [m | X c]; [discriminate|]. destruct c; try discriminate.
    simpl in *. injection Hin as -> ->. apply bool_decide_eq_true in Hev. exact Hev.
  - apply andb_true_iff in H as [_ Ht]. exact (IH Ht Hin).
Qed.

Lemma forallb_events_weaken (p q : Event -> bool) t :
  (forall ev, p ev = true -> q ev = true) -> forallb p t = true -> forallb q t = true.
Proof.
  intros Hpq. rewrite !forallb_forall. intros H x Hx. apply Hpq, H, Hx.
Qed.

Lemma chain_event_renames_only from to ev :
  is_chain_event ev = true -> renames_only from to ev = true.
Proof.
  destruct ev as [m | X c]; [reflexivity|].
  destruct c; try reflexivity. cbv. discriminate.
Qed.

Section ManagerFacts.

Context {World : Type} {pathLib : PathLib}.
Variable handler : forall X : Type, Call X -> World -> Outcome X * World.
Variable toLowerCase : str -> str.
Variable JSON_parse : str -> option JSValue.
Variable getScratchpadFilePath : str -> str.
Variable cfg : Config.
Variable host : Host.

Lemma minChars_le_configured : (configuredMinimum cfg <= 0 \/ configuredMinimum cfg = minChars cfg)%Z.
Proof.
  unfold configuredMinimum, minChars, num_or.
  destruct (autoRenameMinChars cfg) as [m|]; [|right; reflexivity].
  destruct (Z.eqb_spec m 0); [left; lia | right; reflexivity].
Qed.

Lemma gate_fails_noop (suggest : str -> str -> Prog (option str)) document w :
  isScratchpadDocument toLowerCase host document = false
  \/ (Z.of_nat (length (trimmedContent document)) < configuredMinimum cfg)%Z
  \/ scratchNamePattern_test (configuredPrefix cfg) (currentBaseNameOf document) = false ->
  run handler (autoRename_over toLowerCase getScratchpadFilePath cfg host suggest document) w
  = (Returned tt, w, []).
Proof.
  intros H. unfold autoRename_over.
  destruct (isScratchpadDocument toLowerCase host document); [|reflexivity].
  simpl negb. cbv iota zeta.
  destruct (Z.ltb_spec (Z.of_nat (length (trimmedContent document))) (minChars cfg))
    as [Hlt | Hge]; [reflexivity|].
  destruct (scratchNamePattern_test (configuredPrefix cfg) (currentBaseNameOf document));
    [|reflexivity].
  destruct H as [H | [H | H]]; try discriminate.
  destruct minChars_le_configured; lia.
Qed.

(** C8.  A document outside the scratchpad folder, or whose trimmed text is
    shorter than the configured minimum (20 when it is not set), or whose
    base name is not the configured prefix followed by digits, ends the
    attempt at once: the run calls nothing, so the provider chain is not
    invoked and nothing is renamed, and the host is left as it was. *)
Theorem failed_gate_is_noop (document : Document) (w : World) :
  isScratchpadDocument toLowerCase host document = false
  \/ (Z.of_nat (length (trimmedContent document)) < configuredMinimum cfg)%Z
  \/ scratchNamePattern_test (configuredPrefix cfg) (currentBaseNameOf document) = false ->
  run handler
    (autoRenameScratchpadFromDocument toLowerCase JSON_parse getScratchpadFilePath
       cfg host document) w
  = (Returned tt, w, []).
Proof. apply gate_fails_noop. Qed.

Lemma autoRename_run (suggest : str -> str -> Prog (option str)) document w o w1 t1 :
  passes_gates toLowerCase cfg host document ->
  run handler (suggest (chainContent document) (chainExt document)) w = (o, w1, t1) ->
  run handler (autoRename_over toLowerCase getScratchpadFilePath cfg host suggest document) w
  = match o with
    | Returned suggestion =>
        let '(o2, w2, t2) :=
          run handler
            (afterSuggestion toLowerCase getScratchpadFilePath host
               (fileName document) (currentBaseNameOf document) suggestion) w1 in
        (o2, w2,
         Invoked (chainMark (chainContent document) (chainExt document)) :: t1 ++ t2)
    | Thrown _ =>
        (Returned tt, w1,
         [Invoked (chainMark (chainContent document) (chainExt document))] ++ t1)
    | Pending =>
        (Pending, w1,
         [Invoked (chainMark (chainContent document) (chainExt document))] ++ t1)
    end.
Proof.
  intros (Hdoc & Hmin & Hname) Hrun. unfold autoRename_over.
  rewrite Hdoc, Hname. simpl negb. cbv iota zeta.
  destruct (Z.ltb_spec (Z.of_nat (length (trimmedContent document))) (minChars cfg))
    as [Hlt | _]; [lia|].
  fold (chainContent document) (chainExt document).
  rewrite run_mbind. unfold attempt. rewrite run_try_catch_ret, run_mbind, run_mark, Hrun.
  destruct o as [suggestion | e |]; simpl; try reflexivity.
  - rewrite app_nil_r.
    destruct (run handler
                (afterSuggestion toLowerCase getScratchpadFilePath host (fileName document)
                   (currentBaseNameOf document) suggestion) w1) as [[o2 w2] t2].
    reflexivity.
  - rewrite app_nil_r. reflexivity.
Qed.

Lemma afterSuggestion_skips document w1 suggestion :
  suggestion = None
  \/ suggestion = Some (currentBaseNameOf document)
  \/ (exists stem,
         suggestion = Some stem /\
         normalizePath toLowerCase host (destination getScratchpadFilePath document stem)
         = normalizePath toLowerCase host (fileName document))
  \/ (exists stem w2,
         suggestion = Some stem /\
         handler _ (ExistsSync (destination getScratchpadFilePath document stem)) w1
         = (Returned true, w2)) ->
  exists w' t2,
    run handler
      (afterSuggestion toLowerCase getScratchpadFilePath host
         (fileName document) (currentBaseNameOf document) suggestion) w1
    = (Returned tt, w', t2)
    /\ existsb is_mutation t2 = false.
Proof.
  unfold afterSuggestion, destination.
  intros [-> | [-> | [(stem & -> & Hsame) | (stem & w2 & -> & Hexists)]]].
  - exists w1, []. split; reflexivity.
  - exists w1, []. rewrite (proj2 (str_eqb_eq _ _) eq_refl), orb_true_r.
    split; reflexivity.
  - exists w1, []. destruct (is_empty stem || str_eqb stem _); [split; reflexivity|].
    cbv zeta. rewrite (proj2 (str_eqb_eq _ _) Hsame). split; reflexivity.
  - destruct (is_empty stem || str_eqb stem _); [exists w1, []; split; reflexivity|].
    cbv zeta. destruct (str_eqb _ _); [exists w1, []; split; reflexivity|].
    exists w2, [Called (ExistsSync (getScratchpadFilePath
                                      (buildFinalFilename stem (fileName document))))].
    rewrite run_mbind, run_call, Hexists. split; reflexivity.
Qed.

(** C9.  Once the three gates are passed and the provider chain has
    returned: when the suggestion is absent, or is the current base name, or
    gives a destination whose normalized path is the normalized current path,
    or gives a destination that [existsSync] reports as existing, the attempt
    ends without any call that renames a file, closes tabs or opens a file:
    the file keeps its name and the destination is not written. *)
Theorem skipped_suggestion_renames_nothing
  (document : Document) (w : World) (suggestion : option str) (w1 : World) (t1 : list Event) :
  passes_gates toLowerCase cfg host document ->
  run handler
    (suggestFilename toLowerCase JSON_parse cfg host
       (chainContent document) (chainExt document)) w
  = (Returned suggestion, w1, t1) ->
  suggestion = None
  \/ suggestion = Some (currentBaseNameOf document)
  \/ (exists stem,
         suggestion = Some stem /\
         normalizePath toLowerCase host (destination getScratchpadFilePath document stem)
         = normalizePath toLowerCase host (fileName document))
  \/ (exists stem w2,
         suggestion = Some stem /\
         handler _ (ExistsSync (destination getScratchpadFilePath document stem)) w1
         = (Returned true, w2)) ->
  exists w' t,
    run handler
      (autoRenameScratchpadFromDocument toLowerCase JSON_parse getScratchpadFilePath
         cfg host document) w
    = (Returned tt, w', t)
    /\ existsb is_rename t = false
    /\ existsb is_mutation t = false.
Proof.
  intros Hgates Hchain Hcase. unfold autoRenameScratchpadFromDocument.
  rewrite (autoRename_run _ _ _ _ _ _ Hgates Hchain).
  destruct (afterSuggestion_skips document w1 suggestion Hcase) as (w' & t2 & -> & Ht2).
  exists w', (Invoked (chainMark (chainContent document) (chainExt document)) :: t1 ++ t2).
  split; [reflexivity|].
  assert (existsb is_mutation
            (Invoked (chainMark (chainContent document) (chainExt document)) :: t1 ++ t2)
          = false) as Hmut.
  { simpl. rewrite existsb_app, Ht2, orb_false_r.
    apply existsb_mutation_chain.
    pose proof (emits_only_run handler is_chain_event _ w
                  (emits_chain toLowerCase JSON_parse cfg host
                     (chainContent document) (chainExt document))) as H.
    rewrite Hchain in H. exact H. }
  split; [apply no_mutation_no_rename|]; exact Hmut.
Qed.

Lemma emits_commitRename currentFilePath newFilePath :
  emits_only (renames_only currentFilePath newFilePath)
    (commitRename currentFilePath newFilePath).
Proof.
  unfold commitRename. apply emits_try_catch; [|intros; constructor].
  apply emits_bind; [apply emits_call; reflexivity|].
  intros openEditor.
  destruct (match openEditor with Some e => editorIsDirty e | None => false end);
    [constructor|].
  apply emits_bind.
  - apply emits_call. simpl. apply bool_decide_eq_true. split; reflexivity.
  - intros _. destruct openEditor; [|constructor].
    apply emits_bind; [apply emits_call; reflexivity|].
    intros _. apply emits_call. reflexivity.
Qed.

Lemma emits_afterSuggestion document stem :
  emits_only
    (renames_only (fileName document) (destination getScratchpadFilePath document stem))
    (afterSuggestion toLowerCase getScratchpadFilePath host
       (fileName document) (currentBaseNameOf document) (Some stem)).
Proof.
  unfold afterSuggestion, destination.
  destruct (is_empty stem || str_eqb stem _); [constructor|]. cbv zeta.
  destruct (str_eqb _ _); [constructor|].
  apply emits_bind; [apply emits_call; reflexivity|].
  intros [|]; [constructor | apply emits_commitRename].
Qed.

(** C10.  [buildFinalFilename] appends to the base name what [path.extname]
    gives for the current path, hence nothing when that is empty; and every
    rename of an attempt goes from the current path to the path of the
    suggested stem followed by that extension, so to the path of the bare
    stem when the scratchpad has no extension. *)
Theorem final_filename_keeps_extension :
  (forall baseName currentFilePath,
      buildFinalFilename baseName currentFilePath
      = baseName ++ path_extname currentFilePath)
  /\ (forall baseName currentFilePath,
      path_extname currentFilePath = [] ->
      buildFinalFilename baseName currentFilePath = baseName)
  /\ (forall document w stem w1 t1 from to,
      passes_gates toLowerCase cfg host document ->
      run handler
        (suggestFilename toLowerCase JSON_parse cfg host
           (chainContent document) (chainExt document)) w
      = (Returned (Some stem), w1, t1) ->
      In (Some (from, to))
        (List.map rename_of
           (trace_of (run handler
                        (autoRenameScratchpadFromDocument toLowerCase JSON_parse
                           getScratchpadFilePath cfg host document) w))) ->
      from = fileName document
      /\ to = getScratchpadFilePath (stem ++ path_extname (fileName document))
      /\ (path_extname (fileName document) = [] -> to = getScratchpadFilePath stem)).
Proof.
  split; [reflexivity|]. split.
  - intros baseName currentFilePath H. unfold buildFinalFilename.
    rewrite H. apply app_nil_r.
  - intros document w stem w1 t1 from to Hgates Hchain Hin.
    unfold autoRenameScratchpadFromDocument in Hin.
    rewrite (autoRename_run _ _ _ _ _ _ Hgates Hchain) in Hin.
    pose proof (emits_only_run handler _ _ w1 (emits_afterSuggestion document stem)) as Hafter.
    destruct (run handler
                (afterSuggestion toLowerCase getScratchpadFilePath host (fileName document)
                   (currentBaseNameOf document) (Some stem)) w1) as [[o2 w2] t2].
    unfold trace_of in Hin. simpl in Hin, Hafter.
    destruct Hin as [Hin | Hin]; [discriminate|].
    assert (forallb (renames_only (fileName document)
                       (destination getScratchpadFilePath document stem)) (t1 ++ t2) = true)
      as Hall.
    { rewrite forallb_app, Hafter, andb_true_r.
      pose proof (emits_only_run handler is_chain_event _ w
                    (emits_chain toLowerCase JSON_parse cfg host
                       (chainContent document) (chainExt document))) as H.
      rewrite Hchain in H. simpl in H.
      eapply forallb_events_weaken; [|exact H]. intros ev. apply chain_event_renames_only. }
    destruct (renames_only_In _ _ _ _ _ Hall Hin) as [-> ->].
    unfold destination, buildFinalFilename.
    split; [reflexivity|]. split; [reflexivity|].
    intros ->. rewrite app_nil_r. reflexivity.
Qed.

End ManagerFacts.

(** ** Runs on the test host *)

Lemma provider_chain_order_witness :
  run TestHost.handler
    (suggestFilename_over (TestHost.config "auto" "sk")
       (fun _ _ => Ret (Some (lit "notes")))
       (suggestWithOpenAI asciiLower TestHost.parseAsContent (TestHost.config "auto" "sk"))
       (lit "some text") (lit ".js"))
    (TestHost.world [] (TestHost.ok200 "other"))
  = (Returned (Some (lit "notes")), TestHost.world [] (TestHost.ok200 "other"),
     [Invoked (localMark (lit "some text") (lit ".js"))]).
Proof.
  pose proof (provider_chain_order TestHost.handler (TestHost.config "auto" "sk")
                (fun _ _ => Ret (Some (lit "notes")))
                (suggestWithOpenAI asciiLower TestHost.parseAsContent
                   (TestHost.config "auto" "sk"))
                (lit "some text") (lit ".js")
                (TestHost.world [] (TestHost.ok200 "other"))
                (Returned (Some (lit "notes")))
                (TestHost.world [] (TestHost.ok200 "other")) [] eq_refl)
    as (_ & _ & Hauto & _).
  apply Hauto; [reflexivity | reflexivity | discriminate].
Defined.

Lemma failed_gate_is_noop_witness :
  run TestHost.handler
    (@autoRenameScratchpadFromDocument TestHost.pathLib asciiLower TestHost.parseAsContent
       TestHost.getScratchpadFilePath (TestHost.config "auto" "sk") TestHost.host
       (TestHost.document "scratch3.js" "too short"))
    (TestHost.world ["scratch3.js"%string] (TestHost.ok200 "a-name"))
  = (Returned tt, TestHost.world ["scratch3.js"%string] (TestHost.ok200 "a-name"), []).
Proof.
  apply (@failed_gate_is_noop TestHost.World TestHost.pathLib).
  right. left. vm_compute. reflexivity.
Defined.

Lemma skipped_suggestion_renames_nothing_witness :
  exists w' t,
    run TestHost.handler
      (@autoRenameScratchpadFromDocument TestHost.pathLib asciiLower TestHost.parseAsContent
         TestHost.getScratchpadFilePath (TestHost.config "auto" "sk") TestHost.host
         (TestHost.document "scratch3.js" "function reverseString(s) { return s; }"))
      (TestHost.world ["scratch3.js"%string; "reverse.js"%string] (TestHost.ok200 "Reverse"))
    = (Returned tt, w', t)
    /\ existsb is_rename t = false
    /\ existsb is_mutation t = false.
Proof.
  eapply (@skipped_suggestion_renames_nothing TestHost.World TestHost.pathLib).
  - repeat split; vm_compute; congruence.
  - lazy. reflexivity.
  - right. right. right. eexists _, _. split; [reflexivity|]. lazy. reflexivity.
Defined.

(** The example of the specification: [scratch3.js], a remote answer
    [Reverse-String Helper!! .js], and the rename to
    [reverse-string-helper.js]. *)
Example end_to_end_rename :
  List.map rename_of
    (trace_of
       (run TestHost.handler
          (@autoRenameScratchpadFromDocument TestHost.pathLib asciiLower
             TestHost.parseAsContent TestHost.getScratchpadFilePath
             (TestHost.config "auto" "sk") TestHost.host
             (TestHost.document "scratch3.js"
                "function reverseString(s) { return s.split('').reverse().join(''); }"))
          (TestHost.world ["scratch3.js"%string] (TestHost.ok200 "Reverse-String Helper!! .js"))))
  = [None; None; None; None; None; None;
     Some (TestHost.getScratchpadFilePath (lit "scratch3.js"),
           TestHost.getScratchpadFilePath (lit "reverse-string-helper.js"))].
Proof. vm_compute. reflexivity. Qed.

(** A scratchpad without extension is renamed to a name without extension. *)
Example extensionless_rename :
  List.map rename_of
    (trace_of
       (run TestHost.handler
          (@autoRenameScratchpadFromDocument TestHost.pathLib asciiLower
             TestHost.parseAsContent TestHost.getScratchpadFilePath
             (TestHost.config "openai" "sk") TestHost.host
             (TestHost.document "scratch3" "SELECT name FROM users ORDER BY name;"))
          (TestHost.world ["scratch3"%string] (TestHost.ok200 "list users"))))
  = [None; None; None; None; None;
     Some (TestHost.getScratchpadFilePath (lit "scratch3"),
           TestHost.getScratchpadFilePath (lit "list-users"))].
Proof. vm_compute. reflexivity. Qed.

(** A timeout on the test host: the request is destroyed, nothing is
    renamed. *)
Example timeout_on_test_host :
  run TestHost.handler
    (suggestWithOpenAI asciiLower TestHost.parseAsContent (TestHost.config "openai" "sk")
       (lit "some text") (lit ".js"))
    (TestHost.world [] [OnResponse (Some 200); OnTimeout])
  = (Returned None,
     TestHost.countRequest (TestHost.world [] [OnResponse (Some 200); OnTimeout]),
     [Called (HttpsRequest
                (requestOf (Some timeoutMs_const)
                   (requestPayload (TestHost.config "openai" "sk") (lit "some text") (lit ".js"))
                   (authorization (TestHost.config "openai" "sk"))));
      Called (DestroyRequest timeoutError)]).
Proof. vm_compute. reflexivity. Qed.

Lemma allocator_unsuffixed_or_one_witness :
  createScratchpad_finalFilename 1 [lit "notes.md"] (lit "notes") (lit ".py")
  = Some (lit "notes" ++ lit "1" ++ lit ".py").
Proof.
  apply (proj1 (proj2 (allocator_unsuffixed_or_one
                         [lit "notes.md"] (lit "notes") (lit ".py") 1%nat))).
  - exists (lit "notes.md"). split; [left; reflexivity|].
    apply basePattern_test_iff. reflexivity.
  - intros file n [<- | []] (digits & ext & Hfile & Hne & Hdigits & Hext & _).
    assert (numberedPattern_match (lit "notes") (lit "notes.md") = Some digits) as H
      by (apply numberedPattern_match_iff; eauto).
    vm_compute in H. discriminate H.
Defined.





Lemma final_filename_keeps_extension_witness :
  TestHost.getScratchpadFilePath (lit "scratch3")
  = fileName (TestHost.document "scratch3" "SELECT name FROM users ORDER BY name;")
  /\ TestHost.getScratchpadFilePath (lit "list-users")
     = TestHost.getScratchpadFilePath
         (lit "list-users"
          ++ @path_extname TestHost.pathLib
               (fileName (TestHost.document "scratch3" "SELECT name FROM users ORDER BY name;")))
  /\ (@path_extname TestHost.pathLib
        (fileName (TestHost.document "scratch3" "SELECT name FROM users ORDER BY name;")) = [] ->
      TestHost.getScratchpadFilePath (lit "list-users")
      = TestHost.getScratchpadFilePath (lit "list-users")).
Proof.
  destruct (@final_filename_keeps_extension TestHost.World TestHost.pathLib TestHost.handler
              asciiLower TestHost.parseAsContent TestHost.getScratchpadFilePath
              (TestHost.config "openai" "sk") TestHost.host)
    as (_ & _ & Hrename).
  eapply (Hrename (TestHost.document "scratch3" "SELECT name FROM users ORDER BY name;")
            (TestHost.world ["scratch3"%string] (TestHost.ok200 "list users"))).
  - repeat split; vm_compute; congruence.
  - lazy. reflexivity.
  - lazy. do 5 right. left. reflexivity.
Defined.

(** ** The sanitizer as a function of the words of its input *)

Lemma separator_kept c : is_space_or_underscore c = true -> is_kept c = true.
Proof. intros H. char_facts. Qed.

Lemma separator_not_az09 c : is_space_or_underscore c = true -> not_az09 c = true.
Proof. intros H. unfold not_az09. char_facts. Qed.

Lemma hyphen_not_az09 c : is_hyphen c = true -> not_az09 c = true.
Proof. intros H. unfold not_az09. char_facts. Qed.

Lemma kept_az09 c :
  is_kept c = true -> is_space_or_underscore c = false -> is_hyphen c = false ->
  not_az09 c = false.
Proof. intros H1 H2 H3. unfold not_az09. char_facts. Qed.

Lemma not_az09_hyphen c :
  is_kept c = true -> is_space_or_underscore c = false -> is_hyphen c = not_az09 c.
Proof.
  intros H1 H2. destruct (is_hyphen c) eqn:E.
  - symmetry. apply hyphen_not_az09, E.
  - symmetry. apply kept_az09; assumption.
Qed.

Lemma collapse_separators_head d r :
  is_kept d = true ->
  exists x y,
    collapseRuns is_space_or_underscore (d :: r) = x :: y /\
    is_hyphen x = not_az09 d.
Proof.
  revert d. induction r as [|e r IH]; intros d Hd.
  - rewrite collapseRuns_cons. destruct (is_space_or_underscore d) eqn:E.
    + exists Ch.hyphen, []. split; [reflexivity|].
      rewrite (separator_not_az09 d E). reflexivity.
    + exists d, []. split; [reflexivity | apply not_az09_hyphen; assumption].
  - rewrite collapseRuns_cons. destruct (is_space_or_underscore d) eqn:E.
    + rewrite (separator_not_az09 d E).
      destruct (is_space_or_underscore e) eqn:Ee.
      * destruct (IH e (separator_kept e Ee)) as (x & y & -> & Hx). exists x, y.
        split; [reflexivity|]. rewrite Hx. apply separator_not_az09, Ee.
      * eexists _, _. split; reflexivity.
    + eexists _, _. split; [reflexivity | apply not_az09_hyphen; assumption].
Qed.

(** On kept characters the two collapses together turn every maximal run of
    characters outside [[a-z0-9]] into one hyphen. *)
Lemma collapse_both s :
  forallb is_kept s = true ->
  collapseRuns is_hyphen (collapseRuns is_space_or_underscore s) = collapseRuns not_az09 s.
Proof.
  induction s as [|c r IH]; [reflexivity|].
  rewrite forallb_cons_eq. intros H. apply andb_true_iff in H as [Hc Hr].
  specialize (IH Hr).
  rewrite (collapseRuns_cons not_az09).
  destruct r as [|d r'].
  - rewrite collapseRuns_cons. destruct (is_space_or_underscore c) eqn:E.
    + rewrite (separator_not_az09 c E). reflexivity.
    + rewrite collapseRuns_cons, <- (not_az09_hyphen c Hc E).
      destruct (is_hyphen c) eqn:Eh; [|reflexivity].
      apply is_hyphen_eq in Eh as ->. reflexivity.
  - rewrite forallb_cons_eq in Hr. apply andb_true_iff in Hr as [Hd Hr'].
    destruct (collapse_separators_head d r' Hd) as (x & y & Hxy & Hx).
    rewrite (collapseRuns_cons is_space_or_underscore c).
    destruct (is_space_or_underscore c) eqn:E.
    + rewrite (separator_not_az09 c E).
      destruct (is_space_or_underscore d) eqn:Ed.
      * rewrite (separator_not_az09 d Ed). exact IH.
      * rewrite Hxy in *. rewrite collapseRuns_cons.
        change (is_hyphen Ch.hyphen) with true. cbv iota.
        rewrite Hx. destruct (not_az09 d); rewrite IH; reflexivity.
    + rewrite Hxy in *. rewrite collapseRuns_cons, <- (not_az09_hyphen c Hc E).
      destruct (is_hyphen c) eqn:Eh.
      * rewrite Hx. apply is_hyphen_eq in Eh as ->.
        destruct (not_az09 d); rewrite IH; reflexivity.
      * rewrite IH. reflexivity.
Qed.

Lemma az09_words_cons c r :
  az09_words (c :: r) =
  if is_az09 c then
    match r with
    | d :: _ =>
        if is_az09 d then
          match az09_words r with
          | w :: ws => (c :: w) :: ws
          | [] => [[c]]
          end
        else [c] :: az09_words r
    | [] => [[c]]
    end
  else az09_words r.
Proof. reflexivity. Qed.

Lemma az09_words_head c r : is_az09 c = true -> exists w ws, az09_words (c :: r) = (c :: w) :: ws.
Proof.
  revert c. induction r as [|d r IH]; intros c Hc; rewrite az09_words_cons, Hc.
  - exists [], []. reflexivity.
  - destruct (is_az09 d) eqn:Ed.
    + destruct (IH d Ed) as (w & ws & ->). eexists _, _. reflexivity.
    + eexists _, _. reflexivity.
Qed.

Lemma collapseRuns_nonempty p c r : collapseRuns p (c :: r) <> [].
Proof.
  revert c. induction r as [|d r IH]; intros c; rewrite collapseRuns_cons.
  - destruct (p c); discriminate.
  - destruct (p c); [|discriminate]. destruct (p d); [apply IH | discriminate].
Qed.

Lemma stripTrailing_cons_nonempty c s :
  s <> [] -> stripTrailingHyphen (c :: s) = c :: stripTrailingHyphen s.
Proof. destruct s; [congruence | reflexivity]. Qed.

(** The first strip removes the hyphen of a leading run. *)
Lemma stripLeading_collapse s :
  stripLeadingHyphen (collapseRuns not_az09 s) = collapseRuns not_az09 (dropWhile not_az09 s).
Proof.
  induction s as [|c r IH]; [reflexivity|].
  rewrite collapseRuns_cons. simpl dropWhile. destruct (not_az09 c) eqn:Ec.
  - destruct r as [|d r']; [reflexivity|].
    simpl dropWhile in *. destruct (not_az09 d) eqn:Ed; [exact IH|]. reflexivity.
  - rewrite collapseRuns_cons, Ec. simpl.
    assert (is_hyphen c = false) as ->; [|reflexivity].
    apply az09_not_hyphen. unfold not_az09 in Ec. apply negb_false_iff, Ec.
Qed.

Lemma az09_words_dropWhile s : az09_words (dropWhile not_az09 s) = az09_words s.
Proof.
  induction s as [|c r IH]; [reflexivity|].
  simpl dropWhile. destruct (not_az09 c) eqn:Ec; [|reflexivity].
  rewrite IH, az09_words_cons. unfold not_az09 in Ec. apply negb_true_iff in Ec.
  rewrite Ec. reflexivity.
Qed.

(** The collapsed string without its last hyphen: the words joined by
    hyphens, after the hyphen of a leading run. *)
Lemma stripTrailing_collapse s :
  stripTrailingHyphen (collapseRuns not_az09 s) = leadingHyphen s ++ hyphenate (az09_words s).
Proof.
  assert (forall d r, is_az09 d = true -> leadingHyphen (d :: r) = []) as Hword.
  { intros d r Hd. unfold leadingHyphen, not_az09. rewrite Hd.
    destruct (az09_words (d :: r)); reflexivity. }
  induction s as [|c r IH]; [reflexivity|].
  rewrite collapseRuns_cons. destruct (is_az09 c) eqn:Ec.
  - assert (not_az09 c = false) as Hn by (unfold not_az09; rewrite Ec; reflexivity).
    rewrite Hn, (Hword c r Ec), az09_words_cons, Ec. simpl app.
    destruct r as [|d r'].
    { simpl. rewrite (az09_not_hyphen c Ec). reflexivity. }
    rewrite stripTrailing_cons_nonempty by apply collapseRuns_nonempty.
    rewrite IH. destruct (is_az09 d) eqn:Ed.
    + rewrite (Hword d r' Ed).
      destruct (az09_words_head d r' Ed) as (w & ws & ->). reflexivity.
    + unfold leadingHyphen, not_az09. rewrite Ed.
      destruct (az09_words (d :: r')) as [|w ws]; reflexivity.
  - assert (not_az09 c = true) as Hn by (unfold not_az09; rewrite Ec; reflexivity).
    rewrite Hn. unfold leadingHyphen at 1. rewrite az09_words_cons, Ec, Hn.
    destruct r as [|d r']; [reflexivity|].
    destruct (is_az09 d) eqn:Ed.
    + assert (not_az09 d = false) as -> by (unfold not_az09; rewrite Ed; reflexivity).
      rewrite stripTrailing_cons_nonempty by apply collapseRuns_nonempty.
      rewrite IH, (Hword d r' Ed).
      destruct (az09_words_head d r' Ed) as (w & ws & ->). reflexivity.
    + assert (not_az09 d = true) as Hnd by (unfold not_az09; rewrite Ed; reflexivity).
      rewrite Hnd, IH. unfold leadingHyphen. rewrite Hnd. reflexivity.
Qed.

Lemma leadingHyphen_dropWhile s : leadingHyphen (dropWhile not_az09 s) = [].
Proof.
  destruct (dropWhile not_az09 s) as [|c r] eqn:E; [reflexivity|].
  unfold leadingHyphen. rewrite (dropWhile_head _ _ _ _ E).
  destruct (az09_words (c :: r)); reflexivity.
Qed.

Lemma stripEdge_collapse s :
  stripEdgeHyphens (collapseRuns not_az09 s) = hyphenate (az09_words s).
Proof.
  unfold stripEdgeHyphens.
  rewrite stripLeading_collapse, stripTrailing_collapse, leadingHyphen_dropWhile.
  rewrite az09_words_dropWhile. reflexivity.
Qed.

Lemma az09_words_blankForeign s : az09_words (blankForeign s) = az09_words s.
Proof.
  unfold blankForeign.
  match goal with |- context [List.map ?g s] => set (f := g) end.
  assert (forall c, is_az09 (f c) = is_az09 c) as Hmap.
  { intros c. unfold f. destruct (is_kept c) eqn:E; [reflexivity|].
    change (is_az09 Ch.space) with false. symmetry.
    destruct (is_az09 c) eqn:Ez; [|reflexivity].
    rewrite (stem_char_kept c (az09_stem_char c Ez)) in E. discriminate. }
  assert (forall c, is_az09 c = true -> f c = c) as Hid.
  { intros c Hc. unfold f. rewrite (stem_char_kept c (az09_stem_char c Hc)). reflexivity. }
  clearbody f.
  induction s as [|c r IH]; [reflexivity|].
  change (List.map f (c :: r)) with (f c :: List.map f r).
  rewrite !az09_words_cons, Hmap, IH.
  destruct (is_az09 c) eqn:Ec; [|reflexivity].
  rewrite (Hid c Ec).
  destruct r as [|d r']; [reflexivity|].
  change (List.map f (d :: r')) with (f d :: List.map f r'). cbv iota.
  rewrite Hmap. reflexivity.
Qed.

Lemma cleanedBeforeSlice_words toLowerCase input :
  cleanedBeforeSlice toLowerCase input = hyphenate (az09_words (prepared toLowerCase input)).
Proof.
  unfold cleanedBeforeSlice. fold (prepared toLowerCase input).
  rewrite collapse_both by apply blankForeign_kept.
  rewrite stripEdge_collapse. apply f_equal, az09_words_blankForeign.
Qed.

Lemma az09_words_are_words s : Forall is_word (az09_words s).
Proof.
  induction s as [|c r IH]; [constructor|].
  rewrite az09_words_cons. destruct (is_az09 c) eqn:Ec; [|exact IH].
  assert (is_word [c]) as Hc.
  { split; [discriminate|]. simpl. rewrite Ec. reflexivity. }
  destruct r as [|d r']; [constructor; [exact Hc | constructor]|].
  destruct (is_az09 d).
  - destruct (az09_words (d :: r')) as [|w ws]; [constructor; [exact Hc | constructor]|].
    inversion IH as [|? ? [Hw1 Hw2] Hws]; subst. constructor; [|exact Hws].
    split; [discriminate|]. simpl. rewrite Ec. exact Hw2.
  - constructor; [exact Hc | exact IH].
Qed.

Lemma az09_words_nil_iff s : az09_words s = [] <-> forallb not_az09 s = true.
Proof.
  induction s as [|c r IH]; [split; reflexivity|].
  rewrite az09_words_cons, forallb_cons_eq. unfold not_az09 at 1.
  destruct (is_az09 c) eqn:Ec; simpl negb.
  - split; [|discriminate].
    destruct r as [|d r']; [discriminate|].
    destruct (is_az09 d); [|discriminate].
    destruct (az09_words (d :: r')); discriminate.
  - exact IH.
Qed.

Lemma az09_words_app_tail s t :
  forallb not_az09 t = true -> az09_words (s ++ t) = az09_words s.
Proof.
  intros Ht. induction s as [|c r IH].
  - simpl. rewrite (proj2 (az09_words_nil_iff t) Ht). reflexivity.
  - change ((c :: r) ++ t) with (c :: (r ++ t)).
    rewrite !az09_words_cons, IH. destruct (is_az09 c); [|reflexivity].
    destruct r as [|d r'].
    + simpl app. destruct t as [|d t']; [reflexivity|].
      rewrite forallb_cons_eq in Ht. apply andb_true_iff in Ht as [Hd _].
      unfold not_az09 in Hd. apply negb_true_iff in Hd. rewrite Hd. reflexivity.
    + reflexivity.
Qed.

(** The first word begins the joined string, so the second strip has only
    a last hyphen to remove. *)
Lemma sanitize_of_words toLowerCase input :
  sanitizeFilename toLowerCase input =
  match az09_words (prepared toLowerCase input) with
  | [] => None
  | ws => Some (stripTrailingHyphen (slice0 60 (hyphenate ws)))
  end.
Proof.
  unfold sanitizeFilename. cbv zeta. rewrite cleanedBeforeSlice_words.
  pose proof (az09_words_are_words (prepared toLowerCase input)) as Hws.
  destruct (az09_words (prepared toLowerCase input)) as [|w ws]; [reflexivity|].
  inversion Hws as [|? ? [Hne Hw] _]; subst.
  destruct w as [|c w']; [congruence|].
  simpl in Hw. apply andb_true_iff in Hw as [Hc _].
  pose proof (az09_not_hyphen c Hc) as Hh.
  unfold stripEdgeHyphens, slice0. change (N.to_nat 60) with 60%nat.
  change (hyphenate ((c :: w') :: ws))
    with (c :: (w' ++ List.concat (List.map (cons Ch.hyphen) ws))).
  rewrite firstn_cons. simpl stripLeadingHyphen. rewrite Hh.
  destruct (firstn 59 _) as [|d r]; simpl; [rewrite Hh|]; reflexivity.
Qed.

(** X1.  The sanitizer, as a function: of the first line, trimmed,
    lower-cased, without quotes and without a final extension, it keeps the
    maximal runs of [[a-z0-9]] (each one a non-empty word), joins them by
    single hyphens, cuts the result at 60 characters and removes a hyphen
    left at the end by the cut; with no word there is no result.  When the
    joined words fit in 60 characters they are the result. *)
Theorem sanitize_joins_words (toLowerCase : str -> str) (input : str) :
  Forall is_word (az09_words (prepared toLowerCase input))
  /\ sanitizeFilename toLowerCase input =
     match az09_words (prepared toLowerCase input) with
     | [] => None
     | ws => Some (stripTrailingHyphen (slice0 60 (hyphenate ws)))
     end
  /\ (az09_words (prepared toLowerCase input) <> [] ->
      (length (hyphenate (az09_words (prepared toLowerCase input))) <= 60)%nat ->
      sanitizeFilename toLowerCase input
      = Some (hyphenate (az09_words (prepared toLowerCase input)))).
Proof.
  split; [apply az09_words_are_words|]. split; [apply sanitize_of_words|].
  intros Hne Hlen. rewrite sanitize_of_words.
  destruct (cleanedBeforeSlice_well_hyphenated toLowerCase input) as (_ & _ & _ & Hlast).
  rewrite cleanedBeforeSlice_words in Hlast.
  destruct (az09_words (prepared toLowerCase input)) as [|w ws]; [congruence|].
  unfold slice0. rewrite firstn_all2 by (change (N.to_nat 60) with 60%nat; lia).
  rewrite (stripTrailing_id _ Hlast). reflexivity.
Qed.

Lemma sanitize_joins_words_witness :
  sanitizeFilename asciiLower (lit "Reverse-String Helper!! .js")
  = Some (hyphenate (az09_words (prepared asciiLower (lit "Reverse-String Helper!! .js")))).
Proof.
  apply (proj2 (proj2 (sanitize_joins_words asciiLower (lit "Reverse-String Helper!! .js")))).
  - vm_compute. discriminate.
  - vm_compute. lia.
Defined.

(** X2.  The sanitizer returns nothing exactly when no character of
    [[a-z0-9]] is left in the prepared first line. *)
Theorem sanitize_absent_iff (toLowerCase : str -> str) (input : str) :
  sanitizeFilename toLowerCase input = None <->
  forallb not_az09 (prepared toLowerCase input) = true.
Proof.
  rewrite sanitize_of_words, <- az09_words_nil_iff.
  destruct (az09_words (prepared toLowerCase input)); split; congruence.
Qed.

(** ** A final extension does not count *)

Lemma forallb_app_eq (p : char -> bool) a b : forallb p (a ++ b) = forallb p a && forallb p b.
Proof. apply forallb_app. Qed.

(** The pattern of the extension matches at the last dot only. *)
Lemma stripExtension_final a e :
  e <> [] -> forallb is_az09_i e = true -> stripExtension (a ++ Ch.dot :: e) = a.
Proof.
  intros Hne He. induction a as [|c a IH]; simpl.
  - apply is_empty_false in Hne. rewrite Hne, He. reflexivity.
  - rewrite forallb_app_eq, forallb_cons_eq.
    change (is_az09_i Ch.dot) with false.
    rewrite andb_false_l, !andb_false_r, IH. reflexivity.
Qed.

Lemma dropWhile_app_keep p s c r :
  p c = false -> dropWhile p (s ++ c :: r) = dropWhile p s ++ c :: r.
Proof.
  intros Hc. induction s as [|a s IH]; simpl; [rewrite Hc; reflexivity|].
  destruct (p a); [exact IH | reflexivity].
Qed.

Lemma forallb_dropWhile (p q : char -> bool) s :
  forallb p s = true -> forallb p (dropWhile q s) = true.
Proof.
  induction s as [|c r IH]; [reflexivity|]. simpl. intros H.
  apply andb_true_iff in H as [Hc Hr].
  destruct (q c); [apply IH, Hr | simpl; rewrite Hc, Hr; reflexivity].
Qed.

Lemma trimEnd_keep s c :
  is_space c = false -> trimEnd (s ++ [c]) = s ++ [c].
Proof.
  intros Hc. unfold trimEnd. rewrite rev_app_distr. simpl. rewrite Hc.
  change (c :: rev s) with (rev [c] ++ rev s).
  rewrite <- rev_app_distr, rev_involutive. reflexivity.
Qed.

(** What [trimEnd] removes is a run of white space. *)
Lemma trimEnd_split s :
  exists tail, s = trimEnd s ++ tail /\ forallb is_space tail = true.
Proof.
  exists (rev (takeWhile is_space (rev s))). split.
  - unfold trimEnd. rewrite <- rev_app_distr, takeWhile_dropWhile, rev_involutive.
    reflexivity.
  - apply forallb_rev_true, takeWhile_forallb.
Qed.

Lemma forallb_trimEnd (p : char -> bool) s : forallb p s = true -> forallb p (trimEnd s) = true.
Proof.
  intros H. destruct (trimEnd_split s) as (tail & Hs & _).
  rewrite Hs, forallb_app_eq in H. apply andb_true_iff in H as [H _]. exact H.
Qed.

Lemma asciiLower_app a b : asciiLower (a ++ b) = asciiLower a ++ asciiLower b.
Proof. apply List.map_app. Qed.

Lemma removeQuotes_app a b : removeQuotes (a ++ b) = removeQuotes a ++ removeQuotes b.
Proof. apply List.filter_app. Qed.

Lemma forallb_removeQuotes (p : char -> bool) s :
  forallb p s = true -> forallb p (removeQuotes s) = true.
Proof.
  unfold removeQuotes. induction s as [|c r IH]; [reflexivity|]. simpl. intros H.
  apply andb_true_iff in H as [Hc Hr].
  destruct (negb (is_quote c)); [simpl; rewrite Hc|]; apply IH, Hr.
Qed.

Lemma forallb_asciiLower (p q : char -> bool) s :
  (forall c, p c = true -> q (if is_upper c then c + 32 else c) = true) ->
  forallb p s = true -> forallb q (asciiLower s) = true.
Proof.
  intros Hpq. unfold asciiLower. induction s as [|c r IH]; [reflexivity|]. simpl.
  intros H. apply andb_true_iff in H as [Hc Hr].
  apply andb_true_iff. split; [exact (Hpq c Hc) | apply IH, Hr].
Qed.

Lemma lower_alnum c : is_az09_i c = true -> is_az09 (if is_upper c then c + 32 else c) = true.
Proof. intros H. destruct (is_upper c) eqn:E; char_facts. Qed.

Lemma lower_not_dot c :
  negb (c =? Ch.dot) = true -> negb ((if is_upper c then c + 32 else c) =? Ch.dot) = true.
Proof. intros H. destruct (is_upper c) eqn:E; char_facts. Qed.

Lemma lower_space c : is_space c = true -> not_az09 (if is_upper c then c + 32 else c) = true.
Proof. intros H. unfold not_az09. destruct (is_upper c) eqn:E; char_facts. Qed.

Lemma az09_plain c :
  is_az09 c = true ->
  is_az09_i c = true /\ negb (is_quote c) = true /\ is_space c = false /\ is_ascii c = true.
Proof. intros H. unfold is_ascii. repeat split; char_facts. Qed.

Lemma alnum_plain c :
  is_az09_i c = true ->
  is_space c = false /\ is_ascii c = true /\ negb (c =? Ch.newline) = true.
Proof. intros H. unfold is_ascii. repeat split; char_facts. Qed.

(** The prepared line of a text followed by an extension. *)
Lemma prepared_with_extension toLowerCase s ext :
  lowers_ascii toLowerCase ->
  forallb is_ascii s = true ->
  forallb (fun c : char => negb (c =? Ch.newline)) s = true ->
  ext <> [] -> forallb is_az09_i ext = true ->
  prepared toLowerCase (s ++ Ch.dot :: ext) = removeQuotes (asciiLower (trimStart s)).
Proof.
  intros Hlow Hascii Hline Hne Hext. unfold prepared, firstLine.
  assert (forallb (fun c : char => negb (c =? Ch.newline)) ext = true) as Hextline.
  { eapply forallb_weaken; [|exact Hext]. intros c Hc. apply (alnum_plain c Hc). }
  rewrite takeWhile_all
    by (rewrite forallb_app_eq, forallb_cons_eq, Hline, Hextline; reflexivity).
  assert (trim (s ++ Ch.dot :: ext) = trimStart s ++ Ch.dot :: ext) as ->.
  { unfold trim, trimStart. rewrite dropWhile_app_keep by reflexivity.
    destruct (exists_last Hne) as (e' & x & ->).
    assert (is_space x = false) as Hx.
    { rewrite forallb_app_eq in Hext. apply andb_true_iff in Hext as [_ Hx].
      simpl in Hx. rewrite andb_true_r in Hx. apply (alnum_plain x Hx). }
    change (dropWhile is_space s ++ Ch.dot :: e' ++ [x])
      with (dropWhile is_space s ++ (Ch.dot :: e') ++ [x]).
    rewrite app_assoc. apply trimEnd_keep, Hx. }
  rewrite Hlow.
  2:{ rewrite forallb_app_eq, forallb_cons_eq. unfold trimStart.
      rewrite (forallb_dropWhile _ _ _ Hascii). simpl.
      eapply forallb_weaken; [|exact Hext]. intros c Hc. apply (alnum_plain c Hc). }
  rewrite asciiLower_app, removeQuotes_app.
  change (asciiLower (Ch.dot :: ext)) with (Ch.dot :: asciiLower ext).
  pose proof (forallb_asciiLower _ _ ext lower_alnum Hext) as Hlower.
  change (removeQuotes (Ch.dot :: asciiLower ext))
    with (Ch.dot :: removeQuotes (asciiLower ext)).
  rewrite (removeQuotes_none (asciiLower ext)).
  2:{ eapply forallb_weaken; [|exact Hlower]. intros c Hc. apply (az09_plain c Hc). }
  apply stripExtension_final.
  - destruct ext; [congruence | discriminate].
  - eapply forallb_weaken; [|exact Hlower]. intros c Hc. apply (az09_plain c Hc).
Qed.

(** The prepared line of a text without dot. *)
Lemma prepared_without_dot toLowerCase s :
  lowers_ascii toLowerCase ->
  forallb is_ascii s = true ->
  forallb (fun c : char => negb (c =? Ch.newline)) s = true ->
  forallb (fun c : char => negb (c =? Ch.dot)) s = true ->
  prepared toLowerCase s = removeQuotes (asciiLower (trim s)).
Proof.
  intros Hlow Hascii Hline Hdot. unfold prepared, firstLine.
  rewrite (takeWhile_all _ _ Hline).
  assert (forall p, forallb p s = true -> forallb p (trim s) = true) as Htrim.
  { intros p Hp. unfold trim, trimStart. apply forallb_trimEnd, forallb_dropWhile, Hp. }
  rewrite Hlow by apply Htrim, Hascii.
  apply stripExtension_no_dot, forallb_removeQuotes.
  apply (forallb_asciiLower _ _ _ lower_not_dot), Htrim, Hdot.
Qed.

(** X3.  For a lower-casing that is the ASCII one on ASCII text: a final
    extension of letters and digits after a one-line ASCII text without dot
    does not change what the sanitizer returns. *)
Theorem sanitize_ignores_extension (toLowerCase : str -> str) (s ext : str) :
  lowers_ascii toLowerCase ->
  forallb is_ascii s = true ->
  forallb (fun c : char => negb (c =? Ch.newline)) s = true ->
  forallb (fun c : char => negb (c =? Ch.dot)) s = true ->
  ext <> [] -> forallb is_az09_i ext = true ->
  sanitizeFilename toLowerCase (s ++ Ch.dot :: ext) = sanitizeFilename toLowerCase s.
Proof.
  intros Hlow Hascii Hline Hdot Hne Hext.
  rewrite !sanitize_of_words.
  rewrite (prepared_with_extension toLowerCase s ext Hlow Hascii Hline Hne Hext).
  rewrite (prepared_without_dot toLowerCase s Hlow Hascii Hline Hdot).
  unfold trim. destruct (trimEnd_split (trimStart s)) as (tail & Hsplit & Htail).
  rewrite Hsplit at 1. rewrite asciiLower_app, removeQuotes_app, az09_words_app_tail.
  - reflexivity.
  - apply forallb_removeQuotes, (forallb_asciiLower _ _ _ lower_space), Htail.
Qed.

Lemma asciiLower_lowers_ascii : lowers_ascii asciiLower.
Proof. intros s _. reflexivity. Qed.

Lemma sanitize_ignores_extension_witness :
  sanitizeFilename asciiLower (lit "Parse CSV rows " ++ Ch.dot :: lit "PY")
  = sanitizeFilename asciiLower (lit "Parse CSV rows ").
Proof.
  apply (sanitize_ignores_extension asciiLower (lit "Parse CSV rows ") (lit "PY")
           asciiLower_lowers_ascii); try reflexivity.
  discriminate.
Defined.

(** ** The allocator: the printed number *)

Lemma lit_String a s : lit (String a s) = N_of_ascii a :: lit s.
Proof. reflexivity. Qed.

Lemma digits_of_uint d : forallb is_digit (lit (DecimalString.NilEmpty.string_of_uint d)) = true.
Proof. induction d; simpl DecimalString.NilEmpty.string_of_uint; try reflexivity; rewrite lit_String; exact IHd. Qed.

Lemma digits_of_number n : forallb is_digit (numberToString (Int n)) = true.
Proof.
  unfold numberToString, DecimalString.NilZero.string_of_uint.
  destruct (N.to_uint n); try reflexivity; apply digits_of_uint.
Qed.

Lemma number_printed n : numberToString (Int n) <> [].
Proof.
  unfold numberToString, DecimalString.NilZero.string_of_uint.
  destruct (N.to_uint n); discriminate.
Qed.

Lemma digitsValue_acc d p :
  fold_left (fun acc c => 10 * acc + (c - 48))
    (lit (DecimalString.NilEmpty.string_of_uint d)) (N.pos p)
  = N.pos (Pos.of_uint_acc d p).
Proof.
  revert p. induction d; intros p; simpl DecimalString.NilEmpty.string_of_uint;
    [reflexivity | rewrite lit_String; simpl fold_left; simpl Pos.of_uint_acc; rewrite <- IHd; f_equal; lia ..].
Qed.

Lemma digitsValue_of_uint d :
  digitsValue (lit (DecimalString.NilEmpty.string_of_uint d)) = N.of_uint d.
Proof.
  unfold digitsValue, N.of_uint.
  induction d; simpl DecimalString.NilEmpty.string_of_uint; [reflexivity | ..];
    rewrite lit_String; simpl fold_left; simpl Pos.of_uint;
    [exact IHd | apply digitsValue_acc ..].
Qed.

(** Reading back the printed number. *)
Lemma digitsValue_printed n : digitsValue (numberToString (Int n)) = n.
Proof.
  unfold numberToString.
  rewrite <- (DecimalN.Unsigned.of_to n) at 2.
  unfold DecimalString.NilZero.string_of_uint.
  destruct (N.to_uint n) eqn:E; try (rewrite <- E; apply digitsValue_of_uint).
  reflexivity.
Qed.

(** ** The allocator: the name is new, whatever the order of the listing *)

Lemma probe_free used fuel c x : probe fuel used c = Some x -> x ∉ used.
Proof.
  revert c. induction fuel as [|fuel IH]; intros c; [discriminate|]. simpl.
  destruct (bool_decide (c ∈ used)) eqn:E; [apply IH|].
  intros [= <-]. apply bool_decide_eq_false in E. exact E.
Qed.

Lemma parseInt10_printed k : k <= 2 ^ 53 -> parseInt10 (numberToString (Int k)) = Int k.
Proof.
  intros Hk. unfold parseInt10. rewrite digitsValue_printed.
  destruct (N.eq_dec k (2 ^ 53)) as [-> | Hne]; [vm_compute; reflexivity|].
  apply toNumber_exact. lia.
Qed.

(** The number the allocator takes is an integer of at most [2^53] that no
    file of the listing carries. *)
Lemma findNextAvailableNumber_free fuel files baseFilename x :
  findNextAvailableNumber fuel files baseFilename = Some x ->
  exists k, x = Int k /\ k <= 2 ^ 53 /\ (Int k ∉ usedNumbers files baseFilename).
Proof.
  unfold findNextAvailableNumber. cbv zeta.
  destruct (bool_decide (size (usedNumbers files baseFilename) = 0%nat)) eqn:E.
  - intros [= <-]. apply bool_decide_eq_true, size_empty_inv in E.
    exists 1. split; [reflexivity|]. split; [lia|].
    intros H. apply E in H. exact (not_elem_of_empty _ H).
  - intros H. destruct (probe_bound _ _ 1 _ ltac:(lia) H) as (k & -> & Hk).
    exists k. split; [reflexivity|]. split; [exact Hk|]. exact (probe_free _ _ _ _ H).
Qed.

Lemma unnumbered_name_is_new files baseFilename e :
  is_extension e -> baseFilenameExists files baseFilename = false ->
  ~ In (baseFilename ++ Ch.dot :: e) files.
Proof.
  intros He Hbase Hin.
  assert (baseFilenameExists files baseFilename = true) as Htrue; [|congruence].
  apply baseFilenameExists_iff. exists (baseFilename ++ Ch.dot :: e).
  split; [exact Hin|]. exists e. split; [reflexivity | exact He].
Qed.

Lemma numbered_name_is_new fuel files baseFilename e x :
  is_extension e -> findNextAvailableNumber fuel files baseFilename = Some x ->
  ~ In (baseFilename ++ numberToString x ++ Ch.dot :: e) files.
Proof.
  intros He Hnext.
  destruct (findNextAvailableNumber_free _ _ _ _ Hnext) as (k & -> & Hk & Hfree).
  intros Hin. apply Hfree, usedNumbers_elem_of.
  exists (baseFilename ++ numberToString (Int k) ++ Ch.dot :: e). split; [exact Hin|].
  exists (numberToString (Int k)), e.
  split; [reflexivity|]. split; [apply number_printed|].
  split; [apply digits_of_number|]. split; [exact He | apply parseInt10_printed, Hk].
Qed.

(** X4.  For an extension of the form [.e] (a dot, then one or more
    characters without line terminator), the name the allocator returns is,
    as a string, the name of no file of the listing.  Names are compared
    character by character: beside a listed [s.js] the base name [S] gets
    [S.js], a new name that differs from the listed one in letter case
    only. *)
Theorem allocated_name_is_new :
  (forall (fuel : nat) (files : list str) (baseFilename e name : str),
      is_extension e ->
      createScratchpad_finalFilename fuel files baseFilename (Ch.dot :: e) = Some name ->
      ~ In name files)
  /\ createScratchpad_finalFilename 5%nat [lit "s.js"] (lit "S") (lit ".js")
     = Some (lit "S.js").
Proof.
  split; [|vm_compute; reflexivity].
  intros fuel files baseFilename e name He. unfold createScratchpad_finalFilename.
  destruct (baseFilenameExists files baseFilename) eqn:Hbase; simpl negb; cbv iota.
  - destruct (findNextAvailableNumber fuel files baseFilename) as [x|] eqn:Hnext;
      [|discriminate].
    intros [= <-]. exact (numbered_name_is_new _ _ _ _ _ He Hnext).
  - intros [= <-]. exact (unnumbered_name_is_new _ _ _ He Hbase).
Qed.

Lemma allocated_name_is_new_witness :
  ~ In (lit "s2.ts") example_files.
Proof.
  apply (proj1 allocated_name_is_new 5%nat example_files (lit "s") (lit "ts")
           (lit "s2.ts")).
  - split; [discriminate | reflexivity].
  - vm_compute. reflexivity.
Defined.

(** X5.  The allocator looks at the listing as a set: two listings with the
    same names, in any order and with any repetition, give the same name. *)
Theorem allocator_ignores_listing_order (fuel : nat) (files files' : list str)
  (baseFilename ext : str) :
  (forall file, In file files <-> In file files') ->
  createScratchpad_finalFilename fuel files baseFilename ext
  = createScratchpad_finalFilename fuel files' baseFilename ext.
Proof.
  intros Hsame. unfold createScratchpad_finalFilename, findNextAvailableNumber.
  assert (forall l l' : list str,
             (forall file, In file l -> In file l') ->
             baseFilenameExists l baseFilename = true ->
             baseFilenameExists l' baseFilename = true) as Hmono.
  { intros l l' Hsub H. apply baseFilenameExists_iff in H as (f & Hf & Hu).
    apply baseFilenameExists_iff. exists f. split; [apply Hsub, Hf | exact Hu]. }
  assert (baseFilenameExists files baseFilename = baseFilenameExists files' baseFilename)
    as ->.
  { destruct (baseFilenameExists files baseFilename) eqn:E1.
    - symmetry. apply (Hmono files files'); [intros f; apply Hsame | exact E1].
    - destruct (baseFilenameExists files' baseFilename) eqn:E2; [|reflexivity].
      rewrite <- E1.
      apply (Hmono files' files); [intros f; apply Hsame | exact E2]. }
  assert (usedNumbers files baseFilename = usedNumbers files' baseFilename) as ->;
    [|reflexivity].
  apply set_eq. intros x. rewrite !usedNumbers_elem_of.
  split; intros (f & Hf & Hn); exists f; split; try exact Hn; apply Hsame, Hf.
Qed.

Lemma allocator_ignores_listing_order_witness :
  createScratchpad_finalFilename 5 example_files (lit "s") (lit ".md")
  = createScratchpad_finalFilename 5 (rev example_files ++ example_files) (lit "s") (lit ".md").
Proof.
  apply allocator_ignores_listing_order. intros file.
  rewrite in_app_iff, <- in_rev. tauto.
Defined.

(** Without the dot the guarantee is lost: for an empty extension the
    patterns do not see the file [scratch], and its name is taken again. *)
Example extensionless_name_is_not_new :
  createScratchpad_finalFilename 3 [lit "scratch"] (lit "scratch") [] = Some (lit "scratch").
Proof. reflexivity. Qed.

(** X6.  Every name the allocator returns is the base name, digits only (or
    nothing), and the extension: what precedes the extension passes the name
    test of the automatic rename for that prefix. *)
Theorem allocated_name_passes_name_test (fuel : nat) (files : list str)
  (baseFilename ext name : str) :
  createScratchpad_finalFilename fuel files baseFilename ext = Some name ->
  exists stem,
    name = stem ++ ext /\ scratchNamePattern_test baseFilename stem = true.
Proof.
  unfold createScratchpad_finalFilename, scratchNamePattern_test.
  destruct (negb (baseFilenameExists files baseFilename)).
  - intros [= <-]. exists baseFilename. split; [reflexivity|].
    rewrite <- (app_nil_r baseFilename) at 2. rewrite strip_prefix_app. reflexivity.
  - destruct (findNextAvailableNumber fuel files baseFilename) as [x|] eqn:Hnext;
      [|discriminate].
    destruct (findNextAvailableNumber_free _ _ _ _ Hnext) as (k & -> & _ & _).
    intros [= <-]. exists (baseFilename ++ numberToString (Int k)).
    split; [rewrite <- app_assoc; reflexivity|].
    rewrite strip_prefix_app. apply digits_of_number.
Qed.

Lemma allocated_name_passes_name_test_witness :
  exists stem,
    lit "s2.ts" = stem ++ lit ".ts" /\ scratchNamePattern_test (lit "s") stem = true.
Proof.
  apply (allocated_name_passes_name_test 5 example_files (lit "s") (lit ".ts") (lit "s2.ts")).
  vm_compute. reflexivity.
Defined.

(** ** The escape of the prefix *)

Lemma escapeRegExp_cons c r :
  escapeRegExp (c :: r) =
  (if is_syntax_char c then [Ch.backslash; c] else [c]) ++ escapeRegExp r.
Proof. reflexivity. Qed.

(** X7.  The escape puts a backslash before each of the fourteen characters
    of its class and changes nothing else, so the escaped prefix is a pattern
    source that stands for the prefix itself, character by character; a
    prefix without such a character is its own escape. *)
Theorem escapeRegExp_literal (s : str) :
  literalOfPattern (escapeRegExp s) = Some s
  /\ (forallb (fun c : char => negb (is_syntax_char c)) s = true -> escapeRegExp s = s)
  /\ (length s <= length (escapeRegExp s) <= 2 * length s)%nat.
Proof.
  split; [|split].
  - induction s as [|c r IH]; [reflexivity|].
    rewrite escapeRegExp_cons. destruct (is_syntax_char c) eqn:E.
    + simpl. rewrite E, IH. reflexivity.
    + simpl. rewrite E, IH.
      destruct (N.eqb_spec c Ch.backslash) as [-> | _]; [discriminate | reflexivity].
  - induction s as [|c r IH]; [reflexivity|].
    rewrite forallb_cons_eq, escapeRegExp_cons. intros H.
    apply andb_true_iff in H as [Hc Hr]. apply negb_true_iff in Hc.
    rewrite Hc, (IH Hr). reflexivity.
  - induction s as [|c r IH]; [simpl; lia|].
    rewrite escapeRegExp_cons, length_app.
    destruct (is_syntax_char c); simpl in *; lia.
Qed.

Lemma escapeRegExp_literal_witness : escapeRegExp (lit "scratch") = lit "scratch".
Proof.
  apply (proj1 (proj2 (escapeRegExp_literal (lit "scratch")))). reflexivity.
Defined.

Example escapeRegExp_examples :
  escapeRegExp (lit "a.b") = lit "a\.b" /\
  escapeRegExp (lit "c++ (old)") = lit "c\+\+ \(old\)" /\
  escapeRegExp (lit "x\d") = lit "x\\d".
Proof. repeat split; reflexivity. Qed.

(** ** The provider chain and the orchestrator: exceptions *)

Section NoThrow.

Context {World : Type} {pathLib : PathLib}.
Variable handler : forall X : Type, Call X -> World -> Outcome X * World.
Variable toLowerCase : str -> str.
Variable JSON_parse : str -> option JSValue.
Variable getScratchpadFilePath : str -> str.
Variable cfg : Config.
Variable host : Host.

Lemma chain_never_throws content fileExt w err :
  outcome_of (run handler (suggestFilename toLowerCase JSON_parse cfg host content fileExt) w)
  <> Thrown err.
Proof.
  unfold suggestFilename, suggestFilename_over. cbv zeta.
  assert (forall (b : bool) w0,
             outcome_of
               (run handler
                  (if b
                   then Mark (remoteMark content fileExt)
                          (suggestWithOpenAI toLowerCase JSON_parse cfg content fileExt)
                   else Ret None) w0) <> Thrown err) as Hstep.
  { intros [|] w0; [|discriminate]. rewrite run_mark.
    pose proof (remote_never_throws handler toLowerCase JSON_parse cfg content fileExt w0 err)
      as H.
    destruct (run handler _ w0) as [[o w1] t]. exact H. }
  destruct (str_eqb _ (lit "vscode") || _); [|apply Hstep].
  rewrite run_mbind, run_mark.
  pose proof (local_never_throws handler toLowerCase host content fileExt w err) as HL.
  destruct (run handler (suggestWithVSCodeLM toLowerCase host content fileExt) w)
    as [[[v | e |] w1] t1]; unfold outcome_of in *; simpl in *; try congruence.
  destruct (present v); [simpl; discriminate|].
  specialize (Hstep (str_eqb (providerOf cfg) (lit "openai")
                     || str_eqb (providerOf cfg) (lit "auto")) w1).
  destruct (run handler _ w1) as [[o w2] t2]. exact Hstep.
Qed.

Lemma commitRename_never_throws currentFilePath newFilePath w err :
  outcome_of (run handler (commitRename currentFilePath newFilePath) w) <> Thrown err.
Proof. apply catch_all_not_thrown. Qed.

Lemma afterSuggestion_never_throws currentFilePath currentBaseName suggestion w err :
  (forall p w0 e, fst (handler _ (ExistsSync p) w0) <> Thrown e) ->
  outcome_of
    (run handler
       (afterSuggestion toLowerCase getScratchpadFilePath host
          currentFilePath currentBaseName suggestion) w)
  <> Thrown err.
Proof.
  intros Hexists. unfold afterSuggestion.
  destruct suggestion as [stem|]; [|discriminate].
  destruct (is_empty stem || str_eqb stem currentBaseName); [discriminate|]. cbv zeta.
  destruct (str_eqb _ _); [discriminate|].
  rewrite run_mbind, run_call.
  specialize (Hexists (getScratchpadFilePath (buildFinalFilename stem currentFilePath)) w).
  destruct (handler _ (ExistsSync _) w) as [[b | e |] w1]; simpl in *.
  - destruct b; [discriminate|].
    pose proof (commitRename_never_throws currentFilePath
                  (getScratchpadFilePath (buildFinalFilename stem currentFilePath)) w1 err)
      as H.
    destruct (run handler (commitRename _ _) w1) as [[o w2] t2]. exact H.
  - destruct (Hexists e eq_refl).
  - discriminate.
Qed.

(** X8.  The provider chain never throws, on any host: the [catch] around
    it in the orchestrator has nothing to catch.  And an attempt never
    throws either, unless [fs.existsSync] itself does: every other failure
    (of the rename, of the tabs) is caught. *)
Theorem attempt_never_throws :
  (forall content fileExt w err,
      outcome_of
        (run handler (suggestFilename toLowerCase JSON_parse cfg host content fileExt) w)
      <> Thrown err)
  /\ (forall document w err,
         (forall p w0 e, fst (handler _ (ExistsSync p) w0) <> Thrown e) ->
         outcome_of
           (run handler
              (autoRenameScratchpadFromDocument toLowerCase JSON_parse
                 getScratchpadFilePath cfg host document) w)
         <> Thrown err).
Proof.
  split; [apply chain_never_throws|].
  intros document w err Hexists.
  unfold autoRenameScratchpadFromDocument, autoRename_over.
  destruct (negb (isScratchpadDocument toLowerCase host document)); [discriminate|].
  cbv zeta. destruct (_ <? _)%Z; [discriminate|].
  destruct (negb (scratchNamePattern_test _ _)); [discriminate|].
  rewrite run_mbind. unfold attempt. rewrite run_try_catch_ret, run_mbind, run_mark.
  destruct (run handler (suggestFilename _ _ _ _ _ _) w) as [[[v | e |] w1] t1];
    simpl; try discriminate.
  pose proof (afterSuggestion_never_throws (fileName document) (currentBaseNameOf document)
                v w1 err Hexists) as H.
  destruct (run handler (afterSuggestion _ _ _ _ _ _) w1) as [[o w2] t2]. exact H.
Qed.

End NoThrow.

Lemma attempt_never_throws_witness :
  outcome_of
    (run TestHost.handler
       (@autoRenameScratchpadFromDocument TestHost.pathLib asciiLower TestHost.parseAsContent
          TestHost.getScratchpadFilePath (TestHost.config "auto" "sk") TestHost.host
          (TestHost.document "scratch3.js" "function reverseString(s) { return s; }"))
       (TestHost.world ["scratch3.js"%string] [OnError (Error (lit "ECONNRESET"))]))
  <> Thrown (Error (lit "ECONNRESET")).
Proof.
  apply (proj2 (@attempt_never_throws TestHost.World TestHost.pathLib TestHost.handler
                  asciiLower TestHost.parseAsContent TestHost.getScratchpadFilePath
                  (TestHost.config "auto" "sk") TestHost.host)).
  intros p w0 e. discriminate.
Defined.

(** X9.  A provider setting that is none of [auto], [vscode] and [openai]
    (and is not empty, which means [auto]) gives no suggestion, and neither
    backend is invoked; an attempt then calls nothing on the host and leaves
    it as it was. *)
Theorem unknown_provider_suggests_nothing {World : Type} {pathLib : PathLib}
  (handler : forall X : Type, Call X -> World -> Outcome X * World)
  (toLowerCase : str -> str) (JSON_parse : str -> option JSValue)
  (getScratchpadFilePath : str -> str) (cfg : Config) (host : Host) :
  providerOf cfg <> lit "auto" ->
  providerOf cfg <> lit "vscode" ->
  providerOf cfg <> lit "openai" ->
  (forall content fileExt w,
      run handler (suggestFilename toLowerCase JSON_parse cfg host content fileExt) w
      = (Returned None, w, []))
  /\ (forall document w,
         run handler
           (autoRenameScratchpadFromDocument toLowerCase JSON_parse getScratchpadFilePath
              cfg host document) w
         = (Returned tt, w, [])
         \/ run handler
              (autoRenameScratchpadFromDocument toLowerCase JSON_parse getScratchpadFilePath
                 cfg host document) w
            = (Returned tt, w,
               [Invoked (chainMark (chainContent document) (chainExt document))])).
Proof.
  intros Hauto Hvscode Hopenai.
  assert (forall content fileExt w,
             run handler (suggestFilename toLowerCase JSON_parse cfg host content fileExt) w
             = (Returned None, w, [])) as Hchain.
  { intros content fileExt w. unfold suggestFilename, suggestFilename_over. cbv zeta.
    apply str_eqb_neq in Hauto, Hvscode, Hopenai.
    rewrite Hauto, Hvscode, Hopenai. reflexivity. }
  split; [exact Hchain|].
  intros document w. unfold autoRenameScratchpadFromDocument, autoRename_over.
  destruct (negb (isScratchpadDocument toLowerCase host document)); [left; reflexivity|].
  cbv zeta. destruct (_ <? _)%Z; [left; reflexivity|].
  destruct (negb (scratchNamePattern_test _ _)); [left; reflexivity|].
  right. rewrite run_mbind. unfold attempt.
  rewrite run_try_catch_ret, run_mbind, run_mark, Hchain. reflexivity.
Qed.

Lemma unknown_provider_suggests_nothing_witness :
  run TestHost.handler
    (suggestFilename asciiLower TestHost.parseAsContent (TestHost.config "copilot" "sk")
       TestHost.host (lit "some text") (lit ".js"))
    (TestHost.world [] (TestHost.ok200 "a-name"))
  = (Returned None, TestHost.world [] (TestHost.ok200 "a-name"), []).
Proof.
  apply (@unknown_provider_suggests_nothing TestHost.World TestHost.pathLib TestHost.handler
           asciiLower TestHost.parseAsContent TestHost.getScratchpadFilePath
           (TestHost.config "copilot" "sk") TestHost.host); discriminate.
Defined.

(** ** What a program can return *)

Lemma returns_only_run {World A : Type}
  (handler : forall X : Type, Call X -> World -> Outcome X * World)
  (P : A -> Prop) (p : Prog A) (w : World) a w1 t :
  returns_only P p -> run handler p w = (Returned a, w1, t) -> P a.
Proof.
  intros H. revert w w1 t.
  induction H as [b Hb | e | | m k _ IH | X c k _ IH]; intros w w1 t; simpl.
  - intros [= <- _ _]. exact Hb.
  - discriminate.
  - discriminate.
  - destruct (run handler k w) as [[o w'] t'] eqn:E. intros [= -> _ _]. exact (IH _ _ _ E).
  - destruct (handler X c w) as [r w0].
    destruct (run handler (k r) w0) as [[o w'] t'] eqn:E. intros [= -> _ _].
    exact (IH _ _ _ _ E).
Qed.

Lemma returns_bind {A B : Type} (Q : A -> Prop) (P : B -> Prop) (p : Prog A) (f : A -> Prog B) :
  returns_only Q p -> (forall a, Q a -> returns_only P (f a)) -> returns_only P (p ≫= f).
Proof.
  intros Hp Hf. change (returns_only P (bind p f)).
  induction Hp; simpl; try constructor; auto.
Qed.

Lemma returns_any {A : Type} (p : Prog A) : returns_only (fun _ => True) p.
Proof. induction p; constructor; auto. Qed.

Lemma returns_try_catch {A : Type} (P : A -> Prop) (p : Prog A) (h : Exn -> Prog A) :
  returns_only P p -> (forall e, returns_only P (h e)) -> returns_only P (try_catch p h).
Proof.
  intros Hp Hh. induction Hp; simpl; try constructor; auto.
Qed.

Lemma returns_lift {A : Type} (P : A -> Prop) (o : Outcome A) :
  (forall a, o = Returned a -> P a) -> returns_only P (lift o).
Proof. destruct o; constructor. auto. Qed.

Lemma sanitize_is_suggestion toLowerCase input : is_suggestion (sanitizeFilename toLowerCase input).
Proof.
  destruct (sanitizeFilename toLowerCase input) as [stem|] eqn:E; [|exact I].
  destruct (sanitize_Some _ _ _ E) as (Hne & Hlen & Hw).
  split; [|exact Hlen].
  apply (stem_of_well_hyphenated (length stem)); [lia | exact Hne | exact Hw].
Qed.

Lemma returns_local toLowerCase host content fileExt :
  returns_only is_suggestion (suggestWithVSCodeLM toLowerCase host content fileExt).
Proof.
  unfold suggestWithVSCodeLM, localBody.
  apply returns_try_catch; [|intros; constructor; exact I].
  destruct (negb _ || negb _); [constructor; exact I|].
  apply (returns_bind (fun _ => True)); [apply returns_any|].
  intros [m|] _; [|constructor; exact I].
  apply (returns_bind (fun _ => True)); [apply returns_any|].
  intros output _. constructor. apply sanitize_is_suggestion.
Qed.

Lemma readSuggestion_is_suggestion toLowerCase JSON_parse raw v :
  readSuggestion toLowerCase JSON_parse raw = Returned v -> is_suggestion v.
Proof.
  unfold readSuggestion. destruct (JSON_parse raw) as [response|]; [|discriminate].
  destruct (extractContent response) as [text | e |]; try discriminate.
  destruct (negb (truthy text)); [intros [= <-]; exact I|].
  destruct text; try discriminate. intros [= <-]. apply sanitize_is_suggestion.
Qed.

Lemma returns_remote toLowerCase JSON_parse cfg content fileExt :
  returns_only is_suggestion (suggestWithOpenAI toLowerCase JSON_parse cfg content fileExt).
Proof.
  unfold suggestWithOpenAI, suggestWithOpenAI_over, remoteBody.
  destruct (is_empty _); [constructor; exact I|].
  apply returns_try_catch; [|intros; constructor; exact I].
  apply (returns_bind (fun _ => True)); [apply returns_any|].
  intros raw _. apply returns_lift. apply readSuggestion_is_suggestion.
Qed.

Lemma returns_chain toLowerCase JSON_parse cfg host content fileExt :
  returns_only is_suggestion
    (suggestFilename toLowerCase JSON_parse cfg host content fileExt).
Proof.
  unfold suggestFilename, suggestFilename_over. cbv zeta.
  assert (forall b : bool,
             returns_only is_suggestion
               (if b
                then Mark (remoteMark content fileExt)
                       (suggestWithOpenAI toLowerCase JSON_parse cfg content fileExt)
                else Ret None)) as Hstep.
  { intros [|]; [constructor; apply returns_remote | constructor; exact I]. }
  destruct (str_eqb _ (lit "vscode") || _); [|apply Hstep].
  apply (returns_bind is_suggestion); [constructor; apply returns_local|].
  intros v Hv. destruct (present v); [constructor; exact Hv | apply Hstep].
Qed.

(** X10.  Whatever the language model or the network answers, a suggestion
    the provider chain returns matches [^[a-z0-9]+(-[a-z0-9]+)*$] and has at
    most 60 characters. *)
Theorem suggestions_are_stems {World : Type}
  (handler : forall X : Type, Call X -> World -> Outcome X * World)
  (toLowerCase : str -> str) (JSON_parse : str -> option JSValue)
  (cfg : Config) (host : Host) (content fileExt : str) (w : World)
  (stem : str) (w1 : World) (t1 : list Event) :
  run handler (suggestFilename toLowerCase JSON_parse cfg host content fileExt) w
  = (Returned (Some stem), w1, t1) ->
  matches_stem stem /\ (length stem <= 60)%nat.
Proof.
  intros Hrun.
  exact (returns_only_run handler is_suggestion _ w (Some stem) w1 t1
           (returns_chain toLowerCase JSON_parse cfg host content fileExt) Hrun).
Qed.

Lemma suggestions_are_stems_witness :
  matches_stem (lit "reverse-string-helper")
  /\ (length (lit "reverse-string-helper") <= 60)%nat.
Proof.
  eapply (suggestions_are_stems TestHost.handler asciiLower TestHost.parseAsContent
            (TestHost.config "auto" "sk") TestHost.host (lit "some text") (lit ".js")
            (TestHost.world [] (TestHost.ok200 "Reverse-String Helper!! .js"))).
  lazy. reflexivity.
Defined.

(** ** Where an attempt renames to *)

Lemma rename_in_trace t from to :
  In (Some (from, to)) (List.map rename_of t) -> existsb is_rename t = true.
Proof.
  induction t as [|ev t IH]; [intros []|]. simpl. intros [H | H].
  - destruct ev as [m | X c]; [discriminate|]. destruct c; try discriminate. reflexivity.
  - rewrite (IH H). apply orb_true_r.
Qed.

Section RenameFacts.

Context {World : Type} {pathLib : PathLib}.
Variable handler : forall X : Type, Call X -> World -> Outcome X * World.
Variable toLowerCase : str -> str.
Variable JSON_parse : str -> option JSValue.
Variable getScratchpadFilePath : str -> str.
Variable cfg : Config.
Variable host : Host.

Lemma chain_renames_nothing content fileExt w :
  existsb is_rename
    (trace_of (run handler (suggestFilename toLowerCase JSON_parse cfg host content fileExt) w))
  = false.
Proof.
  apply no_mutation_no_rename, existsb_mutation_chain.
  apply (emits_only_run handler), emits_chain.
Qed.

Lemma chain_returns_stem content fileExt w stem w1 t1 :
  run handler (suggestFilename toLowerCase JSON_parse cfg host content fileExt) w
  = (Returned (Some stem), w1, t1) ->
  is_suggestion (Some stem).
Proof.
  apply (returns_only_run handler is_suggestion), returns_chain.
Qed.

Lemma afterSuggestion_renames document stem w1 from to :
  In (Some (from, to))
    (List.map rename_of
       (trace_of
          (run handler
             (afterSuggestion toLowerCase getScratchpadFilePath host
                (fileName document) (currentBaseNameOf document) (Some stem)) w1))) ->
  from = fileName document
  /\ to = destination getScratchpadFilePath document stem
  /\ stem <> currentBaseNameOf document
  /\ normalizePath toLowerCase host to <> normalizePath toLowerCase host from.
Proof.
  intros Hin.
  pose proof (emits_only_run handler _ _ w1
                (emits_afterSuggestion toLowerCase getScratchpadFilePath host document stem))
    as Hall.
  destruct (renames_only_In _ _ _ _ _ Hall Hin) as [-> ->].
  split; [reflexivity|]. split; [reflexivity|].
  revert Hin. unfold afterSuggestion, destination.
  destruct (is_empty stem || str_eqb stem (currentBaseNameOf document)) eqn:E1;
    [intros H; exact (False_ind _ H)|].
  cbv zeta.
  destruct (str_eqb
              (normalizePath toLowerCase host
                 (getScratchpadFilePath (buildFinalFilename stem (fileName document))))
              (normalizePath toLowerCase host (fileName document))) eqn:E2;
    [intros H; exact (False_ind _ H)|].
  intros _.
  apply orb_false_iff in E1 as [_ E1].
  split; [apply str_eqb_neq, E1 | apply str_eqb_neq, E2].
Qed.

(** X11.  Whatever the host answers, every rename of an attempt goes from
    the path of the document to the path of a sanitized stem (one that
    matches [^[a-z0-9]+(-[a-z0-9]+)*$], of at most 60 characters) followed
    by the extension of the document; the stem is not the current base name
    and the two paths differ after normalization. *)
Theorem renames_go_to_sanitized_names (document : Document) (w : World) (from to : str) :
  In (Some (from, to))
    (List.map rename_of
       (trace_of
          (run handler
             (autoRenameScratchpadFromDocument toLowerCase JSON_parse
                getScratchpadFilePath cfg host document) w))) ->
  from = fileName document
  /\ exists stem,
       matches_stem stem /\ (length stem <= 60)%nat
       /\ stem <> currentBaseNameOf document
       /\ to = getScratchpadFilePath (stem ++ path_extname (fileName document))
       /\ normalizePath toLowerCase host to <> normalizePath toLowerCase host from.
Proof.
  unfold autoRenameScratchpadFromDocument, autoRename_over.
  destruct (negb (isScratchpadDocument toLowerCase host document)); [intros []|].
  cbv zeta. destruct (_ <? _)%Z; [intros []|].
  destruct (negb (scratchNamePattern_test _ _)); [intros []|].
  fold (chainContent document) (chainExt document).
  rewrite run_mbind. unfold attempt. rewrite run_try_catch_ret, run_mbind, run_mark.
  pose proof (chain_renames_nothing (chainContent document) (chainExt document) w) as Hnone.
  destruct (run handler (suggestFilename _ _ _ _ _ _) w) as [[o w1] t1] eqn:Hchain.
  unfold trace_of in Hnone. simpl in Hnone.
  assert (forall f t', ~ In (Some (f, t')) (List.map rename_of t1)) as Ht1.
  { intros f t' H. apply rename_in_trace in H. congruence. }
  destruct o as [suggestion | e |]; simpl.
  - rewrite app_nil_r.
    destruct (run handler (afterSuggestion _ _ _ _ _ suggestion) w1) as [[o2 w2] t2] eqn:Hafter.
    unfold trace_of. simpl. intros [H | H]; [discriminate|].
    rewrite List.map_app in H. apply in_app_or in H as [H | H]; [destruct (Ht1 _ _ H)|].
    destruct suggestion as [stem|]; [|simpl in Hafter; injection Hafter as _ _ <-; destruct H].
    pose proof (afterSuggestion_renames document stem w1 from to) as Hspec.
    rewrite Hafter in Hspec. destruct (Hspec H) as (-> & -> & Hbase & Hnorm).
    split; [reflexivity|]. exists stem.
    destruct (chain_returns_stem _ _ _ _ _ _ Hchain) as [Hstem Hlen].
    repeat split; assumption.
  - unfold trace_of. simpl. rewrite app_nil_r. intros [H | H]; [discriminate|].
    destruct (Ht1 _ _ H).
  - unfold trace_of. simpl. intros [H | H]; [discriminate|]. destruct (Ht1 _ _ H).
Qed.

End RenameFacts.

Lemma renames_go_to_sanitized_names_witness :
  exists stem,
    matches_stem stem /\ (length stem <= 60)%nat
    /\ stem <> @currentBaseNameOf TestHost.pathLib
                 (TestHost.document "scratch3.js"
                    "function reverseString(s) { return s.split('').reverse().join(''); }")
    /\ TestHost.getScratchpadFilePath (lit "reverse-string-helper.js")
       = TestHost.getScratchpadFilePath
           (stem ++ @path_extname TestHost.pathLib
                      (fileName
                         (TestHost.document "scratch3.js"
                            "function reverseString(s) { return s.split('').reverse().join(''); }")))
    /\ @normalizePath TestHost.pathLib asciiLower TestHost.host
         (TestHost.getScratchpadFilePath (lit "reverse-string-helper.js"))
       <> @normalizePath TestHost.pathLib asciiLower TestHost.host
            (TestHost.getScratchpadFilePath (lit "scratch3.js")).
Proof.
  refine (proj2 (@renames_go_to_sanitized_names TestHost.World TestHost.pathLib
                   TestHost.handler asciiLower TestHost.parseAsContent
                   TestHost.getScratchpadFilePath (TestHost.config "auto" "sk") TestHost.host
                   (TestHost.document "scratch3.js"
                      "function reverseString(s) { return s.split('').reverse().join(''); }")
                   (TestHost.world ["scratch3.js"%string]
                      (TestHost.ok200 "Reverse-String Helper!! .js"))
                   (TestHost.getScratchpadFilePath (lit "scratch3.js"))
                   (TestHost.getScratchpadFilePath (lit "reverse-string-helper.js")) _)).
  lazy. do 6 right. left. reflexivity.
Defined.

(** ** The local backend: the request and the token source *)

Section LocalFacts.

Context {World : Type}.
Variable handler : forall X : Type, Call X -> World -> Outcome X * World.
Variable toLowerCase : str -> str.
Variable host : Host.

Lemma run_try_finally {A : Type} (p : Prog A) (f : Prog unit) (w : World) :
  run handler (try_finally p f) w =
  match run handler p w with
  | (Pending, w1, t1) => (Pending, w1, t1)
  | (settled, w1, t1) =>
      let '(o, w2, t2) := run handler f w1 in
      (match o with
       | Returned _ => settled
       | Thrown e => Thrown e
       | Pending => Pending
       end, w2, t1 ++ t2)
  end.
Proof.
  revert w. induction p as [a | e | | m k IH | X c k IH]; intros w;
    cbn [try_finally run].
  - rewrite run_mbind. destruct (run handler f w) as [[[[] | e |] w2] t2]; simpl;
      rewrite ?app_nil_r; reflexivity.
  - rewrite run_mbind. destruct (run handler f w) as [[[[] | e' |] w2] t2]; simpl;
      rewrite ?app_nil_r; reflexivity.
  - reflexivity.
  - rewrite IH. destruct (run handler k w) as [[[a | e |] w1] t1]; try reflexivity;
      destruct (run handler f w1) as [[o w2] t2]; reflexivity.
  - destruct (handler X c w) as [r w0]. rewrite IH.
    destruct (run handler (k r) w0) as [[[a | e |] w1] t1]; try reflexivity;
      destruct (run handler f w1) as [[o w2] t2]; reflexivity.
Qed.

(** The loop over the selectors only asks for models. *)
Lemma selectModel_queries sels w :
  forallb is_model_query (trace_of (run handler (selectModel sels) w)) = true.
Proof.
  revert w. induction sels as [|sel rest IH]; intros w; [reflexivity|].
  rewrite selectModel_cons, run_mbind, run_call.
  destruct (handler _ (SelectChatModels sel) w) as [[[|candidate ?] | e |] w1];
    try reflexivity.
  specialize (IH w1). destruct (run handler (selectModel rest) w1) as [[o w2] t2].
  exact IH.
Qed.

(** The request, once sent, and the disposal that follows it. *)
Lemma request_then_dispose m prompt w :
  let r := run handler
             (try_finally (response ← call (SendRequest m prompt); collect response)
                (call DisposeTokenSource)) w in
  (trace_of r = [Called (SendRequest m prompt)] /\ outcome_of r = Pending)
  \/ trace_of r = [Called (SendRequest m prompt); Called DisposeTokenSource].
Proof.
  cbv zeta. rewrite run_try_finally, run_mbind, run_call.
  destruct (handler _ (SendRequest m prompt) w) as [[response | e |] w1].
  - unfold collect. destruct (streamEnd response); cbn [run app].
    + rewrite run_call. destruct (handler _ DisposeTokenSource w1) as [o w2].
      right. reflexivity.
    + rewrite run_call. destruct (handler _ DisposeTokenSource w1) as [o w2].
      right. reflexivity.
    + left. split; reflexivity.
  - rewrite run_call. destruct (handler _ DisposeTokenSource w1) as [o w2].
    right. reflexivity.
  - left. split; reflexivity.
Qed.

Lemma localBody_shape content fileExt w :
  let r := run handler (localBody toLowerCase host content fileExt) w in
  forallb is_model_query (trace_of r) = true
  \/ (exists queries m,
         forallb is_model_query queries = true
         /\ trace_of r
            = queries ++ [Called (SendRequest m [localInstruction fileExt; content])]
         /\ outcome_of r = Pending)
  \/ (exists queries m,
         forallb is_model_query queries = true
         /\ trace_of r
            = queries ++ [Called (SendRequest m [localInstruction fileExt; content]);
                          Called DisposeTokenSource]).
Proof.
  cbv zeta. unfold localBody.
  destruct (negb (has_lm host) || negb (has_LanguageModelChatMessage host));
    [left; reflexivity|].
  rewrite run_mbind.
  pose proof (selectModel_queries selectors w) as Hq.
  destruct (run handler (selectModel selectors) w) as [[[found | e |] w1] t1];
    unfold trace_of in Hq; simpl in Hq; try (left; exact Hq).
  destruct found as [m|].
  2:{ left. unfold trace_of. simpl. rewrite app_nil_r. exact Hq. }
  rewrite run_mbind.
  pose proof (request_then_dispose m [localInstruction fileExt; content] w1) as Hreq.
  cbv zeta in Hreq.
  destruct (run handler (try_finally _ _) w1) as [[o2 w2] t2].
  unfold trace_of, outcome_of in *. simpl in Hreq.
  destruct Hreq as [[-> ->] | ->]; right.
  - left. exists t1, m. split; [exact Hq|]. split; reflexivity.
  - right. exists t1, m. split; [exact Hq|].
    destruct o2; simpl; rewrite ?app_nil_r; reflexivity.
Qed.

(** X12.  A run of the local backend asks for models and nothing else, or
    it sends one request, with the instruction and the text as its prompt,
    after which the token source is disposed of, whether the request and its
    stream succeed or fail; the disposal is missing only when the request or
    its stream never settles, and then the backend stays pending. *)
Theorem token_source_is_disposed (content fileExt : str) (w : World) :
  let r := run handler (suggestWithVSCodeLM toLowerCase host content fileExt) w in
  forallb is_model_query (trace_of r) = true
  \/ (exists queries m,
         forallb is_model_query queries = true
         /\ trace_of r
            = queries ++ [Called (SendRequest m [localInstruction fileExt; content])]
         /\ outcome_of r = Pending)
  \/ (exists queries m,
         forallb is_model_query queries = true
         /\ trace_of r
            = queries ++ [Called (SendRequest m [localInstruction fileExt; content]);
                          Called DisposeTokenSource]).
Proof.
  cbv zeta. unfold suggestWithVSCodeLM. rewrite run_try_catch_ret.
  pose proof (localBody_shape content fileExt w) as H. cbv zeta in H.
  destruct (run handler (localBody toLowerCase host content fileExt) w) as [[[v | e |] w1] t1];
    unfold trace_of, outcome_of in *; simpl in *.
  - exact H.
  - destruct H as [H | [(queries & m & Hq & Ht & Ho) | H]];
      [left; exact H | discriminate Ho | right; right; exact H].
  - exact H.
Qed.

End LocalFacts.

(** ** The backends when they succeed *)

Section SuccessFacts.

Context {World : Type}.
Variable handler : forall X : Type, Call X -> World -> Outcome X * World.
Variable toLowerCase : str -> str.
Variable JSON_parse : str -> option JSValue.
Variable cfg : Config.
Variable host : Host.

(** On a host that answers every selector at once, the loop asks the
    selectors in order up to the first one that has a model, and takes the
    first model of that answer. *)
Lemma selectModel_first (catalog : Selector -> list Model) sels w :
  (forall selector, handler _ (SelectChatModels selector) w = (Returned (catalog selector), w)) ->
  run handler (selectModel sels) w =
  (Returned (firstModel catalog sels), w,
   List.map (fun selector => Called (SelectChatModels selector)) (askedSelectors catalog sels)).
Proof.
  intros Hcatalog. induction sels as [|sel rest IH]; [reflexivity|].
  rewrite selectModel_cons, run_mbind, run_call, Hcatalog. simpl.
  destruct (catalog sel) as [|candidate more]; [|reflexivity].
  rewrite IH. reflexivity.
Qed.

(** X13.  With the language-model API at hand, on a host that answers the
    selectors without changing state: the local backend asks for
    [copilot/gpt-5-mini], then [copilot/gpt-4o-mini], then any [copilot]
    model, stops at the first selector that has a model, sends the
    instruction and the text to the first model of that answer and, when
    the stream ends, returns the sanitized concatenation of its fragments
    after disposing of the token source. *)
Theorem local_backend_uses_first_model
  (catalog : Selector -> list Model) (content fileExt : str) (w : World)
  (m : Model) (response : ResponseStream) (w1 w2 : World) :
  has_lm host && has_LanguageModelChatMessage host = true ->
  (forall selector, handler _ (SelectChatModels selector) w = (Returned (catalog selector), w)) ->
  firstModel catalog selectors = Some m ->
  handler _ (SendRequest m [localInstruction fileExt; content]) w = (Returned response, w1) ->
  streamEnd response = StreamDone ->
  handler _ DisposeTokenSource w1 = (Returned tt, w2) ->
  run handler (suggestWithVSCodeLM toLowerCase host content fileExt) w
  = (Returned (sanitizeFilename toLowerCase (List.concat (fragments response))), w2,
     List.map (fun selector => Called (SelectChatModels selector))
       (askedSelectors catalog selectors)
     ++ [Called (SendRequest m [localInstruction fileExt; content]);
         Called DisposeTokenSource]).
Proof.
  intros Hcap Hcatalog Hfirst Hsend Hdone Hdispose.
  unfold suggestWithVSCodeLM, localBody. rewrite run_try_catch_ret.
  apply andb_true_iff in Hcap as [-> ->]. simpl negb. cbv iota.
  change (false || false) with false. cbv iota.
  rewrite run_mbind, (selectModel_first catalog selectors w Hcatalog), Hfirst.
  rewrite run_mbind, run_try_finally, run_mbind, run_call, Hsend.
  unfold collect. rewrite Hdone. cbn [run app]. rewrite run_call, Hdispose.
  cbn [run app]. reflexivity.
Qed.

(** X14.  With an API key, a response whose status is between 200 and 299
    and whose body, once all its chunks are put together, parses to an
    object with a non-empty string at [choices[0].message.content]: the
    remote backend returns that string sanitized, after one request and
    nothing else.  What the request delivers after the [end] event does not
    count, a timeout apart: the timeout listener stays registered, and a
    timeout that came after the end is outside this statement. *)
Theorem remote_backend_returns_sanitized_content
  (content fileExt : str) (w : World) (code : N) (chunks : list str)
  (rest : list ReqEvent) (w1 : World) (response : JSValue) (text : str) :
  apiKeyOf cfg <> [] ->
  200 <= code <= 299 ->
  handler _ (HttpsRequest (requestOf (Some timeoutMs_const)
                             (requestPayload cfg content fileExt) (authorization cfg))) w
  = (Returned (OnResponse (Some code) :: List.map OnData chunks ++ OnEnd :: rest), w1) ->
  ~ In OnTimeout rest ->
  JSON_parse (List.concat chunks) = Some response ->
  extractContent response = Returned (JString text) ->
  text <> [] ->
  run handler (suggestWithOpenAI toLowerCase JSON_parse cfg content fileExt) w
  = (Returned (sanitizeFilename toLowerCase text), w1,
     [Called (HttpsRequest (requestOf (Some timeoutMs_const)
                              (requestPayload cfg content fileExt) (authorization cfg)))]).
Proof.
  intros Hkey Hcode Hreq _ Hparse Hcontent Htext.
  pose proof (postJSON_status handler _ _ _ _ _ _ _ Hreq) as Hpost.
  assert (status_ok (Some code) = true) as Hok.
  { unfold status_ok. apply andb_true_iff. split; [apply andb_true_iff; split|].
    - apply negb_true_iff, N.eqb_neq. lia.
    - apply N.leb_le. lia.
    - apply N.ltb_lt. lia. }
  rewrite Hok in Hpost. unfold suggestWithOpenAI.
  rewrite (remote_run handler toLowerCase JSON_parse cfg postJSON _ _ _ _ _ _ Hkey Hpost).
  unfold remoteResult, readSuggestion. rewrite Hparse, Hcontent.
  apply is_empty_false in Htext. simpl truthy. rewrite Htext. reflexivity.
Qed.

End SuccessFacts.

Lemma local_backend_uses_first_model_witness :
  run TestHost.handler
    (suggestWithVSCodeLM asciiLower modelHost (lit "a,b,c") (lit ".csv")) modelWorld
  = (Returned (Some (lit "parse-csv-rows")), modelWorld,
     [Called (SelectChatModels
                {| vendor := lit "copilot"; family := Some (lit "gpt-5-mini") |});
      Called (SendRequest 7 [localInstruction (lit ".csv"); lit "a,b,c"]);
      Called DisposeTokenSource]).
Proof.
  apply (local_backend_uses_first_model TestHost.handler asciiLower modelHost
           (fun _ => [7]) (lit "a,b,c") (lit ".csv") modelWorld 7
           (TestHost.stream modelWorld) modelWorld modelWorld); reflexivity.
Defined.

Lemma remote_backend_returns_sanitized_content_witness :
  run TestHost.handler
    (suggestWithOpenAI asciiLower TestHost.parseAsContent (TestHost.config "openai" "sk")
       (lit "a,b,c") (lit ".csv"))
    (TestHost.world [] (TestHost.ok200 "Parse CSV rows"))
  = (Returned (sanitizeFilename asciiLower (lit "Parse CSV rows")),
     TestHost.countRequest (TestHost.world [] (TestHost.ok200 "Parse CSV rows")),
     [Called (HttpsRequest
                (requestOf (Some timeoutMs_const)
                   (requestPayload (TestHost.config "openai" "sk") (lit "a,b,c") (lit ".csv"))
                   (authorization (TestHost.config "openai" "sk"))))]).
Proof.
  eapply (remote_backend_returns_sanitized_content TestHost.handler asciiLower
            TestHost.parseAsContent (TestHost.config "openai" "sk")
            (lit "a,b,c") (lit ".csv") _ 200 [lit "Parse CSV rows"] []).
  - discriminate.
  - lia.
  - reflexivity.
  - intros H. exact H.
  - reflexivity.
  - reflexivity.
  - discriminate.
Defined.

(** ** The order of the calls of an attempt *)

Lemma phased_weaken {A : Type} lo hi lo' hi' (p : Prog A) :
  (lo' <= lo)%nat -> (hi <= hi')%nat -> phased lo hi p -> phased lo' hi' p.
Proof.
  intros Hlo Hhi H. revert lo' Hlo.
  induction H as [| | | lo hi m k Hm _ IH | lo hi X c k Hc _ IH]; intros lo' Hlo;
    try constructor; try lia.
  - apply IH; lia.
  - intros r. apply IH; lia.
Qed.

Lemma phased_bind {A B : Type} lo mid hi (p : Prog A) (f : A -> Prog B) :
  (lo <= mid <= hi)%nat ->
  phased lo mid p -> (forall a, phased mid hi (f a)) -> phased lo hi (p ≫= f).
Proof.
  intros Hmid Hp Hf. change (phased lo hi (bind p f)). revert Hmid Hf.
  induction Hp as [lo0 hi0 a | | | lo0 hi0 m k Hm _ IH | lo0 hi0 X c k Hc _ IH];
    intros Hmid Hf; simpl.
  - apply (phased_weaken hi0 hi); [lia | lia | apply Hf].
  - constructor.
  - constructor.
  - constructor; [lia|]. apply IH; [lia | exact Hf].
  - constructor; [lia|]. intros r. apply IH; [lia | exact Hf].
Qed.

Lemma phased_try_catch {A : Type} lo mid hi (p : Prog A) (h : Exn -> Prog A) :
  (lo <= mid <= hi)%nat ->
  phased lo mid p -> (forall e, phased mid hi (h e)) -> phased lo hi (try_catch p h).
Proof.
  intros Hmid Hp Hh. revert Hmid Hh.
  induction Hp as [lo0 hi0 a | lo0 hi0 e | | lo0 hi0 m k Hm _ IH | lo0 hi0 X c k Hc _ IH];
    intros Hmid Hh; simpl.
  - constructor.
  - apply (phased_weaken hi0 hi); [lia | lia | apply Hh].
  - constructor.
  - constructor; [lia|]. apply IH; [lia | exact Hh].
  - constructor; [lia|]. intros r. apply IH; [lia | exact Hh].
Qed.

Lemma phased_try_finally {A : Type} lo mid hi (p : Prog A) (f : Prog unit) :
  (lo <= mid <= hi)%nat ->
  phased lo mid p -> phased mid hi f -> phased lo hi (try_finally p f).
Proof.
  intros Hmid Hp Hf. revert Hmid Hf.
  induction Hp as [lo0 hi0 a | lo0 hi0 e | | lo0 hi0 m k Hm _ IH | lo0 hi0 X c k Hc _ IH];
    intros Hmid Hf; cbn [try_finally].
  - apply (phased_bind lo0 hi hi); [lia | | intros; constructor].
    apply (phased_weaken hi0 hi); [lia | lia | exact Hf].
  - apply (phased_bind lo0 hi hi); [lia | | intros; constructor].
    apply (phased_weaken hi0 hi); [lia | lia | exact Hf].
  - constructor.
  - constructor; [lia|]. apply IH; [lia | exact Hf].
  - constructor; [lia|]. intros r. apply IH; [lia | exact Hf].
Qed.

Lemma phased_lift {A : Type} lo hi (o : Outcome A) : phased lo hi (lift o).
Proof. destruct o; constructor. Qed.

Lemma phased_call {X : Type} lo hi (c : Call X) :
  (lo <= phase (Called c) < hi)%nat -> phased lo hi (call c).
Proof. intros H. constructor; [exact H | intros r; apply phased_lift]. Qed.

Lemma ascending_weaken lo lo' l :
  (lo' <= lo)%nat -> ascending_from lo l = true -> ascending_from lo' l = true.
Proof.
  intros Hlo. destruct l as [|x r]; [reflexivity|]. simpl. intros H.
  apply andb_true_iff in H as [Hx Hr]. apply Nat.leb_le in Hx.
  rewrite Hr, andb_true_r. apply Nat.leb_le. lia.
Qed.

Lemma phased_run {World A : Type}
  (handler : forall X : Type, Call X -> World -> Outcome X * World)
  lo hi (p : Prog A) (w : World) :
  phased lo hi p ->
  ascending_from lo (List.map phase (trace_of (run handler p w))) = true.
Proof.
  intros H. revert w.
  induction H as [| | | lo hi m k Hm _ IH | lo hi X c k Hc _ IH]; intros w;
    try reflexivity.
  - simpl. specialize (IH w). destruct (run handler k w) as [[o w1] t].
    unfold trace_of in *. simpl in *. rewrite IH, andb_true_r. apply Nat.leb_le. lia.
  - simpl. destruct (handler X c w) as [r w0]. specialize (IH r w0).
    destruct (run handler (k r) w0) as [[o w1] t].
    unfold trace_of in *. simpl in *. rewrite IH, andb_true_r. apply Nat.leb_le. lia.
Qed.

Lemma ascending_bounds lo l x : ascending_from lo l = true -> In x l -> (lo <= x)%nat.
Proof.
  revert lo. induction l as [|y r IH]; intros lo; [intros _ []|]. simpl.
  intros H [<- | Hin]; apply andb_true_iff in H as [Hy Hr]; apply Nat.leb_le in Hy.
  - exact Hy.
  - specialize (IH _ Hr Hin). lia.
Qed.

Lemma ascending_NoDup lo l : ascending_from lo l = true -> List.NoDup l.
Proof.
  revert lo. induction l as [|y r IH]; intros lo; [constructor|]. simpl. intros H.
  apply andb_true_iff in H as [_ Hr]. apply List.NoDup_cons_iff. split; [|exact (IH _ Hr)].
  intros Hin. pose proof (ascending_bounds _ _ _ Hr Hin). lia.
Qed.

Lemma phased_selectModel : phased 2 5 (selectModel selectors).
Proof.
  unfold selectors. rewrite selectModel_cons.
  apply (phased_bind 2 3 5); [lia | apply phased_call; vm_compute; lia|].
  intros [|candidate ?]; [|constructor]. rewrite selectModel_cons.
  apply (phased_bind 3 4 5); [lia | apply phased_call; vm_compute; lia|].
  intros [|candidate ?]; [|constructor]. rewrite selectModel_cons.
  apply (phased_bind 4 5 5); [lia | apply phased_call; vm_compute; lia|].
  intros [|candidate ?]; constructor.
Qed.

Lemma phased_local toLowerCase host content fileExt :
  phased 2 7 (suggestWithVSCodeLM toLowerCase host content fileExt).
Proof.
  unfold suggestWithVSCodeLM, localBody.
  apply (phased_try_catch 2 7 7); [lia | | intros; constructor].
  destruct (negb _ || negb _); [constructor|].
  apply (phased_bind 2 5 7); [lia | apply phased_selectModel|].
  intros [m|]; [|constructor].
  apply (phased_bind 5 7 7); [lia | | intros; constructor].
  apply (phased_try_finally 5 6 7); [lia | | apply phased_call; simpl; lia].
  apply (phased_bind 5 6 6); [lia | apply phased_call; simpl; lia|].
  intros response. unfold collect. destruct (streamEnd response); constructor.
Qed.

Lemma phased_dispatch timeout events res data : phased 9 10 (dispatch timeout events res data).
Proof.
  revert res data. induction events as [|ev rest IH]; intros res data; [constructor|].
  destruct ev as [st | chunk | | e |]; cbn [dispatch].
  - apply IH.
  - destruct res; apply IH.
  - destruct res as [st|]; [destruct (status_ok st); constructor | apply IH].
  - constructor.
  - destruct timeout; [|apply IH].
    apply (phased_bind 9 10 10); [lia | apply phased_call; simpl; lia | intros; constructor].
Qed.

Lemma phased_remote toLowerCase JSON_parse cfg content fileExt :
  phased 8 10 (suggestWithOpenAI toLowerCase JSON_parse cfg content fileExt).
Proof.
  unfold suggestWithOpenAI, suggestWithOpenAI_over, remoteBody, postJSON, postJSON_with.
  destruct (is_empty _); [constructor|].
  apply (phased_try_catch 8 10 10); [lia | | intros; constructor].
  apply (phased_bind 8 10 10); [lia | | intros; apply phased_lift].
  apply (phased_bind 8 9 10); [lia | apply phased_call; simpl; lia|].
  intros events. apply phased_dispatch.
Qed.

Lemma phased_chain toLowerCase JSON_parse cfg host content fileExt :
  phased 1 10 (suggestFilename toLowerCase JSON_parse cfg host content fileExt).
Proof.
  unfold suggestFilename, suggestFilename_over. cbv zeta.
  assert (forall b : bool,
             phased 7 10
               (if b
                then Mark (remoteMark content fileExt)
                       (suggestWithOpenAI toLowerCase JSON_parse cfg content fileExt)
                else Ret None)) as Hstep.
  { intros [|]; [|constructor]. constructor; [simpl; lia | apply phased_remote]. }
  destruct (str_eqb _ (lit "vscode") || _);
    [|apply (phased_weaken 7 10); [lia | lia | apply Hstep]].
  apply (phased_bind 1 7 10); [lia | |].
  - constructor; [simpl; lia | apply phased_local].
  - intros v. destruct (present v); [constructor | apply Hstep].
Qed.

Lemma phased_commitRename {pathLib : PathLib} currentFilePath newFilePath :
  phased 11 15 (commitRename currentFilePath newFilePath).
Proof.
  unfold commitRename. apply (phased_try_catch 11 15 15); [lia | | intros; constructor].
  apply (phased_bind 11 12 15); [lia | apply phased_call; simpl; lia|].
  intros openEditor.
  destruct (match openEditor with Some e => editorIsDirty e | None => false end);
    [constructor|].
  apply (phased_bind 12 13 15); [lia | apply phased_call; simpl; lia|].
  intros _. destruct openEditor; [|constructor].
  apply (phased_bind 13 14 15); [lia | apply phased_call; simpl; lia|].
  intros _. apply phased_call. simpl. lia.
Qed.

Section OrderFacts.

Context {World : Type} {pathLib : PathLib}.
Variable handler : forall X : Type, Call X -> World -> Outcome X * World.
Variable toLowerCase : str -> str.
Variable JSON_parse : str -> option JSValue.
Variable getScratchpadFilePath : str -> str.
Variable cfg : Config.
Variable host : Host.

Lemma phased_autoRename document :
  phased 0 15
    (autoRenameScratchpadFromDocument toLowerCase JSON_parse getScratchpadFilePath
       cfg host document).
Proof.
  unfold autoRenameScratchpadFromDocument, autoRename_over.
  destruct (negb (isScratchpadDocument toLowerCase host document)); [constructor|].
  cbv zeta. destruct (_ <? _)%Z; [constructor|].
  destruct (negb (scratchNamePattern_test _ _)); [constructor|].
  apply (phased_bind 0 10 15); [lia | |].
  - unfold attempt. apply (phased_try_catch 0 10 10); [lia | | intros; constructor].
    apply (phased_bind 0 10 10); [lia | | intros; constructor].
    constructor; [simpl; lia | apply phased_chain].
  - intros [suggestion|]; [|constructor]. unfold afterSuggestion.
    destruct suggestion as [stem|]; [|constructor].
    destruct (is_empty stem || _); [constructor|]. cbv zeta.
    destruct (str_eqb _ _); [constructor|].
    apply (phased_bind 10 11 15); [lia | apply phased_call; simpl; lia|].
    intros [|]; [constructor | apply phased_commitRename].
Qed.

(** X15.  Whatever the host answers, the marks and calls of an attempt come
    in one fixed order, each at most once: the chain, the local backend, the
    queries for [gpt-5-mini], [gpt-4o-mini] and any [copilot] model, the
    request to the model, the disposal of the token source, the remote
    backend, the HTTPS request, the destruction of the request, [existsSync],
    the lookup of the editor, the rename, the closing of the tabs, the
    opening of the file.  So nothing is asked or sent twice, there is one
    rename at most, and the tabs are touched only after it. *)
Theorem attempt_calls_in_order (document : Document) (w : World) :
  let t := trace_of
             (run handler
                (autoRenameScratchpadFromDocument toLowerCase JSON_parse
                   getScratchpadFilePath cfg host document) w) in
  ascending_from 0 (List.map phase t) = true
  /\ List.NoDup (List.map phase t)
  /\ (length (List.filter is_rename t) <= 1)%nat.
Proof.
  cbv zeta.
  pose proof (phased_run handler 0 15 _ w (phased_autoRename document)) as Hasc.
  split; [exact Hasc|]. split; [exact (ascending_NoDup _ _ Hasc)|].
  pose proof (ascending_NoDup _ _ Hasc) as Hnd. clear Hasc.
  induction (trace_of _) as [|ev t IH]; [simpl; lia|].
  simpl in Hnd. apply List.NoDup_cons_iff in Hnd as [Hev Hnd]. specialize (IH Hnd).
  simpl. destruct (is_rename ev) eqn:E; [|exact IH]. simpl.
  assert (List.filter is_rename t = []) as ->; [|simpl; lia].
  destruct (List.filter is_rename t) as [|ev' l] eqn:Hf; [reflexivity|]. exfalso.
  assert (In ev' (List.filter is_rename t)) as Hin by (rewrite Hf; left; reflexivity).
  apply filter_In in Hin as [Hin Hren]. apply Hev.
  assert (phase ev = phase ev') as ->; [|apply in_map, Hin].
  destruct ev as [? | ? c]; [discriminate|]. destruct ev' as [? | ? c']; [discriminate|].
  destruct c; try discriminate. destruct c'; try discriminate. reflexivity.
Qed.

End OrderFacts.

(** ** What an attempt sends, and what it does with the suggestion *)

Section AttemptFacts.

Context {World : Type} {pathLib : PathLib}.
Variable handler : forall X : Type, Call X -> World -> Outcome X * World.
Variable toLowerCase : str -> str.
Variable JSON_parse : str -> option JSValue.
Variable getScratchpadFilePath : str -> str.
Variable cfg : Config.
Variable host : Host.

Lemma queries_selectModel sels : emits_only is_model_query (selectModel sels).
Proof.
  induction sels as [|sel rest IH]; [constructor|]. rewrite selectModel_cons.
  apply emits_bind; [apply emits_call; reflexivity|].
  intros [|candidate ?]; [exact IH | constructor].
Qed.

Lemma carries_local content fileExt :
  emits_only (carries_only cfg content fileExt)
    (suggestWithVSCodeLM toLowerCase host content fileExt).
Proof.
  unfold suggestWithVSCodeLM, localBody.
  apply emits_try_catch; [|intros; constructor].
  destruct (negb _ || negb _); [constructor|].
  apply emits_bind.
  { eapply emits_only_weaken; [|apply queries_selectModel].
    intros [m | X c]; [discriminate|]. destruct c; try discriminate. reflexivity. }
  intros [m|]; [|constructor].
  apply emits_bind; [|intros; constructor].
  apply emits_try_finally; [|apply emits_call; reflexivity].
  apply emits_bind.
  - apply emits_call. unfold carries_only. apply bool_decide_eq_true. reflexivity.
  - intros response. unfold collect. destruct (streamEnd response); constructor.
Qed.

Lemma carries_remote content fileExt :
  emits_only (carries_only cfg content fileExt)
    (suggestWithOpenAI toLowerCase JSON_parse cfg content fileExt).
Proof.
  unfold suggestWithOpenAI, suggestWithOpenAI_over, remoteBody.
  destruct (is_empty _); [constructor|].
  apply emits_try_catch; [|intros; constructor].
  apply emits_bind; [|intros raw; apply emits_lift].
  apply emits_postJSON_with; [reflexivity|].
  unfold carries_only. apply bool_decide_eq_true. reflexivity.
Qed.

Lemma carries_chain content fileExt :
  emits_only (carries_only cfg content fileExt)
    (suggestFilename toLowerCase JSON_parse cfg host content fileExt).
Proof.
  unfold suggestFilename, suggestFilename_over. cbv zeta.
  assert (forall b : bool,
             emits_only (carries_only cfg content fileExt)
               (if b
                then Mark (remoteMark content fileExt)
                       (suggestWithOpenAI toLowerCase JSON_parse cfg content fileExt)
                else Ret None)) as Hstep.
  { intros [|]; [|constructor]. constructor; [reflexivity | apply carries_remote]. }
  destruct (str_eqb _ (lit "vscode") || _); [|apply Hstep].
  apply emits_bind.
  - constructor; [reflexivity | apply carries_local].
  - intros v. destruct (present v); [constructor | apply Hstep].
Qed.

Lemma carries_autoRename document :
  emits_only (carries_only cfg (chainContent document) (chainExt document))
    (autoRenameScratchpadFromDocument toLowerCase JSON_parse getScratchpadFilePath
       cfg host document).
Proof.
  unfold autoRenameScratchpadFromDocument, autoRename_over.
  destruct (negb (isScratchpadDocument toLowerCase host document)); [constructor|].
  cbv zeta. destruct (_ <? _)%Z; [constructor|].
  destruct (negb (scratchNamePattern_test _ _)); [constructor|].
  fold (chainContent document) (chainExt document).
  apply emits_bind.
  - unfold attempt. apply emits_try_catch; [|intros; constructor].
    apply emits_bind; [|intros; constructor].
    constructor; [reflexivity | apply carries_chain].
  - intros [suggestion|]; [|constructor]. unfold afterSuggestion.
    destruct suggestion as [stem|]; [|constructor].
    destruct (is_empty stem || _); [constructor|]. cbv zeta.
    destruct (str_eqb _ _); [constructor|].
    apply emits_bind; [apply emits_call; reflexivity|].
    intros [|]; [constructor|]. unfold commitRename.
    apply emits_try_catch; [|intros; constructor].
    apply emits_bind; [apply emits_call; reflexivity|].
    intros openEditor.
    destruct (match openEditor with Some e => editorIsDirty e | None => false end);
      [constructor|].
    apply emits_bind; [apply emits_call; reflexivity|].
    intros _. destruct openEditor; [|constructor].
    apply emits_bind; [apply emits_call; reflexivity|].
    intros _. apply emits_call. reflexivity.
Qed.

(** X16.  What leaves the editor in an attempt: the text given to a chat
    model or to the network is the trimmed text of the document cut at 6000
    code units, with the extension of the file; a request to a model
    carries the instruction and that text; a request to the network is a
    POST to [api.openai.com/v1/chat/completions] with the timer of 10000 ms,
    the configured model, 24 tokens at most, and the API key in the
    [Authorization] header. *)
Theorem attempt_sends_only_the_text (document : Document) (w : World) :
  forallb (carries_only cfg (chainContent document) (chainExt document))
    (trace_of
       (run handler
          (autoRenameScratchpadFromDocument toLowerCase JSON_parse getScratchpadFilePath
             cfg host document) w))
  = true
  /\ N.of_nat (length (chainContent document)) <= 6000
  /\ (exists rest, trim (getText document) = chainContent document ++ rest)
  /\ (forall content fileExt,
         let req := requestOf (Some timeoutMs_const) (requestPayload cfg content fileExt)
                      (authorization cfg) in
         method req = lit "POST"
         /\ hostname req = lit "api.openai.com"
         /\ path req = lit "/v1/chat/completions"
         /\ headers req = [(lit "Content-Type", lit "application/json");
                           (lit "Authorization", lit "Bearer " ++ apiKeyOf cfg)]
         /\ max_tokens (body req) = 24
         /\ List.map role (messages (body req)) = [lit "system"; lit "user"]).
Proof.
  split; [apply (emits_only_run handler), carries_autoRename|].
  split; [|split].
  - unfold chainContent, slice0. rewrite length_firstn. lia.
  - exists (skipn (N.to_nat 6000) (trim (getText document))).
    unfold chainContent, slice0, trimmedContent. symmetry. apply firstn_skipn.
  - intros content fileExt. cbv zeta. repeat split.
Qed.

(** An attempt that reaches the last [try] block: the gates are passed, the
    chain returns a stem that is not the current base name, the destination
    differs from the current path and does not exist. *)
Lemma attempt_reaches_commit document w stem w1 t1 w2 :
  passes_gates toLowerCase cfg host document ->
  run handler
    (suggestFilename toLowerCase JSON_parse cfg host
       (chainContent document) (chainExt document)) w
  = (Returned (Some stem), w1, t1) ->
  stem <> currentBaseNameOf document ->
  normalizePath toLowerCase host (destination getScratchpadFilePath document stem)
  <> normalizePath toLowerCase host (fileName document) ->
  handler _ (ExistsSync (destination getScratchpadFilePath document stem)) w1
  = (Returned false, w2) ->
  run handler
    (autoRenameScratchpadFromDocument toLowerCase JSON_parse getScratchpadFilePath
       cfg host document) w
  = let '(o, w3, t) :=
      run handler
        (commitRename (fileName document)
           (destination getScratchpadFilePath document stem)) w2 in
    (o, w3,
     Invoked (chainMark (chainContent document) (chainExt document))
     :: t1 ++ Called (ExistsSync (destination getScratchpadFilePath document stem)) :: t).
Proof.
  intros Hgates Hchain Hbase Hnorm Hexists.
  unfold autoRenameScratchpadFromDocument.
  rewrite (autoRename_run handler toLowerCase getScratchpadFilePath cfg host
             _ _ _ _ _ _ Hgates Hchain).
  destruct (chain_returns_stem handler toLowerCase JSON_parse cfg host _ _ _ _ _ _ Hchain)
    as [Hstem _].
  apply matches_stem_nonempty, is_empty_false in Hstem.
  apply str_eqb_neq in Hbase, Hnorm.
  unfold afterSuggestion. fold (destination getScratchpadFilePath document stem).
  rewrite Hstem, Hbase. cbn [orb]. cbv zeta.
  fold (destination getScratchpadFilePath document stem). rewrite Hnorm.
  rewrite run_mbind, run_call, Hexists.
  destruct (run handler (commitRename _ _) w2) as [[o w3] t]. reflexivity.
Qed.

(** X17.  A fifth reason not to rename: when the editor that shows the file
    has unsaved changes, the attempt ends after looking the editor up: the
    file is not renamed and no tab is touched. *)
Theorem dirty_editor_is_not_renamed
  (document : Document) (w : World) (stem : str) (w1 : World) (t1 : list Event)
  (w2 w3 : World) :
  passes_gates toLowerCase cfg host document ->
  run handler
    (suggestFilename toLowerCase JSON_parse cfg host
       (chainContent document) (chainExt document)) w
  = (Returned (Some stem), w1, t1) ->
  stem <> currentBaseNameOf document ->
  normalizePath toLowerCase host (destination getScratchpadFilePath document stem)
  <> normalizePath toLowerCase host (fileName document) ->
  handler _ (ExistsSync (destination getScratchpadFilePath document stem)) w1
  = (Returned false, w2) ->
  handler _ (FindOpenEditor (fileName document)) w2
  = (Returned (Some {| editorIsDirty := true |}), w3) ->
  run handler
    (autoRenameScratchpadFromDocument toLowerCase JSON_parse getScratchpadFilePath
       cfg host document) w
  = (Returned tt, w3,
     Invoked (chainMark (chainContent document) (chainExt document))
     :: t1 ++ [Called (ExistsSync (destination getScratchpadFilePath document stem));
               Called (FindOpenEditor (fileName document))]).
Proof.
  intros Hgates Hchain Hbase Hnorm Hexists Hfind.
  rewrite (attempt_reaches_commit _ _ _ _ _ _ Hgates Hchain Hbase Hnorm Hexists).
  unfold commitRename. rewrite run_try_catch_ret, run_mbind, run_call, Hfind.
  reflexivity.
Qed.

(** X18.  When the editor is not dirty, the file is renamed first and the
    tabs come after: a rename that fails is caught, the attempt returns and
    no tab is touched; without an open editor the rename is all there is;
    with one, the tabs of the old path are closed and then the new path is
    opened. *)
Theorem rename_then_tabs
  (document : Document) (w : World) (stem : str) (w1 : World) (t1 : list Event)
  (w2 w3 : World) (found : option Editor) :
  passes_gates toLowerCase cfg host document ->
  run handler
    (suggestFilename toLowerCase JSON_parse cfg host
       (chainContent document) (chainExt document)) w
  = (Returned (Some stem), w1, t1) ->
  stem <> currentBaseNameOf document ->
  normalizePath toLowerCase host (destination getScratchpadFilePath document stem)
  <> normalizePath toLowerCase host (fileName document) ->
  handler _ (ExistsSync (destination getScratchpadFilePath document stem)) w1
  = (Returned false, w2) ->
  handler _ (FindOpenEditor (fileName document)) w2 = (Returned found, w3) ->
  match found with Some editor => editorIsDirty editor | None => false end = false ->
  let from := fileName document in
  let to := destination getScratchpadFilePath document stem in
  let attempt :=
    run handler
      (autoRenameScratchpadFromDocument toLowerCase JSON_parse getScratchpadFilePath
         cfg host document) w in
  let before :=
    Invoked (chainMark (chainContent document) (chainExt document))
    :: t1 ++ [Called (ExistsSync to); Called (FindOpenEditor from)] in
  (forall e w4,
      handler _ (RenameFile from to) w3 = (Thrown e, w4) ->
      attempt = (Returned tt, w4, before ++ [Called (RenameFile from to)]))
  /\ (forall w4,
         handler _ (RenameFile from to) w3 = (Returned tt, w4) ->
         found = None ->
         attempt = (Returned tt, w4, before ++ [Called (RenameFile from to)]))
  /\ (forall w4 w5 opened w6,
         handler _ (RenameFile from to) w3 = (Returned tt, w4) ->
         found <> None ->
         handler _ (CloseAllTabsForFile from) w4 = (Returned tt, w5) ->
         handler _ (OpenFile to) w5 = (opened, w6) ->
         opened <> Pending ->
         attempt
         = (Returned tt, w6,
            before ++ [Called (RenameFile from to); Called (CloseAllTabsForFile from);
                       Called (OpenFile to)])).
Proof.
  intros Hgates Hchain Hbase Hnorm Hexists Hfind Hclean. cbv zeta.
  rewrite (attempt_reaches_commit _ _ _ _ _ _ Hgates Hchain Hbase Hnorm Hexists).
  unfold commitRename. rewrite run_try_catch_ret, run_mbind, run_call, Hfind, Hclean.
  cbn [app]. rewrite <- !app_assoc. cbn [app].
  split; [|split].
  - intros e w4 Hrename. rewrite run_mbind, run_call, Hrename. reflexivity.
  - intros w4 Hrename ->. rewrite run_mbind, run_call, Hrename. reflexivity.
  - intros w4 w5 opened w6 Hrename Hfound Hclose Hopen Hsettled.
    destruct found as [editor|]; [|congruence].
    rewrite run_mbind, run_call, Hrename. cbn [app].
    rewrite run_mbind, run_call, Hclose. cbn [app]. rewrite run_call, Hopen.
    destruct opened as [[] | e |]; [reflexivity | reflexivity | congruence].
Qed.

End AttemptFacts.

Lemma dirty_editor_is_not_renamed_witness :
  exists w3 t,
    run TestHost.handler
      (@autoRenameScratchpadFromDocument TestHost.pathLib asciiLower TestHost.parseAsContent
         TestHost.getScratchpadFilePath (TestHost.config "openai" "sk") TestHost.host
         (TestHost.document "scratch3.js" "SELECT name FROM users ORDER BY name;"))
      (editorWorld true)
    = (Returned tt, w3, t)
    /\ existsb is_mutation t = false.
Proof.
  eexists _, _. split.
  - eapply (@dirty_editor_is_not_renamed TestHost.World TestHost.pathLib TestHost.handler
              asciiLower TestHost.parseAsContent TestHost.getScratchpadFilePath
              (TestHost.config "openai" "sk") TestHost.host
              (TestHost.document "scratch3.js" "SELECT name FROM users ORDER BY name;")
              (editorWorld true) (lit "list-users")).
    + repeat split; vm_compute; congruence.
    + lazy. reflexivity.
    + vm_compute. congruence.
    + vm_compute. congruence.
    + lazy. reflexivity.
    + lazy. reflexivity.
  - vm_compute. reflexivity.
Defined.

Lemma rename_then_tabs_witness :
  List.map rename_of
    (trace_of
       (run TestHost.handler
          (@autoRenameScratchpadFromDocument TestHost.pathLib asciiLower
             TestHost.parseAsContent TestHost.getScratchpadFilePath
             (TestHost.config "openai" "sk") TestHost.host
             (TestHost.document "scratch3.js" "SELECT name FROM users ORDER BY name;"))
          (editorWorld false)))
  = [None; None; None; None; None;
     Some (TestHost.getScratchpadFilePath (lit "scratch3.js"),
           TestHost.getScratchpadFilePath (lit "list-users.js"));
     None; None].
Proof.
  pose proof (@rename_then_tabs TestHost.World TestHost.pathLib TestHost.handler
                asciiLower TestHost.parseAsContent TestHost.getScratchpadFilePath
                (TestHost.config "openai" "sk") TestHost.host
                (TestHost.document "scratch3.js" "SELECT name FROM users ORDER BY name;")
                (editorWorld false) (lit "list-users")
                (TestHost.countRequest (editorWorld false))
                [Invoked (remoteMark (lit "SELECT name FROM users ORDER BY name;") (lit ".js"));
                 Called (HttpsRequest
                           (requestOf (Some timeoutMs_const)
                              (requestPayload (TestHost.config "openai" "sk")
                                 (lit "SELECT name FROM users ORDER BY name;") (lit ".js"))
                              (authorization (TestHost.config "openai" "sk"))))]
                (TestHost.countRequest (editorWorld false))
                (TestHost.countRequest (editorWorld false))
                (Some {| editorIsDirty := false |})) as H.
  cbv zeta in H. destruct H as (_ & _ & Hopen).
  - repeat split; vm_compute; congruence.
  - vm_compute. reflexivity.
  - vm_compute. congruence.
  - vm_compute. congruence.
  - vm_compute. reflexivity.
  - vm_compute. reflexivity.
  - reflexivity.
  - erewrite Hopen.
    + vm_compute. reflexivity.
    + vm_compute. reflexivity.
    + discriminate.
    + vm_compute. reflexivity.
    + vm_compute. reflexivity.
    + discriminate.
Defined.

(** ** Runs of commands *)

Section ExecFacts.

Context {World : Type}.
Variable handler : forall X : Type, HostOp X -> World -> Outcome X * World.

Lemma exec_bind {A B : Type} (p : Script A) (f : A -> Script B) (w : World) :
  exec handler (p ≫= f) w =
  match exec handler p w with
  | (Returned a, w1, t1) =>
      let '(o, w2, t2) := exec handler (f a) w1 in (o, w2, t1 ++ t2)
  | (Thrown e, w1, t1) => (Thrown e, w1, t1)
  | (Pending, w1, t1) => (Pending, w1, t1)
  end.
Proof.
  change (p ≫= f) with (script_bind p f).
  revert w. induction p as [a | e | | X op k IH]; intros w; simpl.
  - destruct (exec handler (f a) w) as [[o w2] t2]. reflexivity.
  - reflexivity.
  - reflexivity.
  - destruct (handler X op w) as [r w0]. rewrite IH.
    destruct (exec handler (k r) w0) as [[[a | e |] w1] t1]; try reflexivity.
    destruct (exec handler (f a) w1) as [[o w2] t2]. reflexivity.
Qed.

Lemma exec_catch {A : Type} (p : Script A) (h : Exn -> Script A) (w : World) :
  exec handler (script_catch p h) w =
  match exec handler p w with
  | (Thrown e, w1, t1) =>
      let '(o, w2, t2) := exec handler (h e) w1 in (o, w2, t1 ++ t2)
  | other => other
  end.
Proof.
  revert w. induction p as [a | e | | X op k IH]; intros w; simpl.
  - reflexivity.
  - destruct (exec handler (h e) w) as [[o w2] t2]. reflexivity.
  - reflexivity.
  - destruct (handler X op w) as [r w0]. rewrite IH.
    destruct (exec handler (k r) w0) as [[[a | e |] w1] t1]; try reflexivity.
    destruct (exec handler (h e) w1) as [[o w2] t2]. reflexivity.
Qed.

Lemma exec_settle {A : Type} (o : Outcome A) (w : World) :
  exec handler (settle o) w = (o, w, []).
Proof. destruct o; reflexivity. Qed.

Lemma exec_act {X : Type} (op : HostOp X) (w : World) :
  exec handler (act op) w = let '(r, w1) := handler X op w in (r, w1, [Did op]).
Proof.
  unfold act. simpl. destruct (handler X op w) as [r w1].
  rewrite exec_settle. reflexivity.
Qed.

Lemma exec_fire {X : Type} (op : HostOp X) (w : World) :
  exec handler (fire op) w = (Returned tt, snd (handler X op w), [Did op]).
Proof.
  unfold fire. simpl. destruct (handler X op w) as [r w1]. reflexivity.
Qed.

Lemma does_only_exec {A : Type} (allowed : Step -> Prop)
  (answers : forall X : Type, HostOp X -> Outcome X -> Prop) (returns : A -> Prop)
  (p : Script A) (w : World) :
  (forall X (op : HostOp X) w0, answers X op (fst (handler X op w0))) ->
  does_only allowed answers returns p ->
  Forall allowed (steps_of (exec handler p w)).
Proof.
  intros Hhost H. revert w. induction H as [a Ha | e | | X op k Hop _ IH]; intros w;
    try (constructor; fail).
  simpl. pose proof (Hhost X op w) as Hr.
  destruct (handler X op w) as [r w0]. specialize (IH r Hr w0).
  destruct (exec handler (k r) w0) as [[o w1] t]. constructor; assumption.
Qed.

End ExecFacts.

Lemma does_bind {A B : Type} allowed answers (P : A -> Prop) (Q : B -> Prop)
  (p : Script A) (f : A -> Script B) :
  does_only allowed answers P p ->
  (forall a, P a -> does_only allowed answers Q (f a)) ->
  does_only allowed answers Q (p ≫= f).
Proof.
  intros Hp Hf. change (does_only allowed answers Q (script_bind p f)).
  induction Hp; simpl; try constructor; auto.
Qed.

Lemma does_weaken {A : Type} allowed answers (P Q : A -> Prop) (p : Script A) :
  (forall a, P a -> Q a) ->
  does_only allowed answers P p -> does_only allowed answers Q p.
Proof. intros HPQ Hp. induction Hp; constructor; auto. Qed.

Lemma does_catch {A : Type} allowed answers (P : A -> Prop) (p : Script A)
  (h : Exn -> Script A) :
  does_only allowed answers P p -> (forall e, does_only allowed answers P (h e)) ->
  does_only allowed answers P (script_catch p h).
Proof.
  intros Hp Hh. induction Hp; simpl; try constructor; auto.
Qed.

Lemma does_act {X : Type} (allowed : Step -> Prop) answers (P : X -> Prop)
  (op : HostOp X) :
  allowed (Did op) -> (forall x, answers X op (Returned x) -> P x) ->
  does_only allowed answers P (act op).
Proof.
  intros H HP. constructor; [exact H|].
  intros [x | e |] Hr; constructor. apply HP, Hr.
Qed.

Lemma does_fire {X : Type} (allowed : Step -> Prop) answers (op : HostOp X) :
  allowed (Did op) -> does_only allowed answers any (fire op).
Proof. intros H. constructor; [exact H | intros; constructor; exact I]. Qed.

(** A call followed by what depends on its answer. *)
Lemma does_act_bind {X B : Type} (allowed : Step -> Prop) answers (Q : B -> Prop)
  (op : HostOp X) (f : X -> Script B) :
  allowed (Did op) ->
  (forall x, answers X op (Returned x) -> does_only allowed answers Q (f x)) ->
  does_only allowed answers Q (act op ≫= f).
Proof.
  intros Hop Hf.
  apply (does_bind _ _ (fun x => answers X op (Returned x))); [|exact Hf].
  apply does_act; [exact Hop | auto].
Qed.

(** ** Creating a scratchpad *)

Section CreateFacts.

Variable getScratchpadFilePath : str -> str.
Variable cfg : Config.
Variable settings : Settings.
Variable files : list str.

Lemma does_autoFormatDoc docUri :
  does_only (writes_new_names getScratchpadFilePath files) (lists_and_offers files)
    any (autoFormatDoc docUri).
Proof.
  unfold autoFormatDoc. apply does_act_bind; [exact I|].
  intros [edits|] _; [|constructor; exact I].
  apply does_act_bind; [exact I | intros; constructor; exact I].
Qed.

Lemma does_createAndOpen fileName :
  ~ In fileName files ->
  does_only (writes_new_names getScratchpadFilePath files) (lists_and_offers files)
    any
    (createAndOpenScratchpadFile settings (getScratchpadFilePath fileName)).
Proof.
  intros Hnew. unfold createAndOpenScratchpadFile. cbv zeta.
  apply (does_bind _ _ any).
  { destruct (truthy (autoPaste settings));
      [apply does_act; [exact I | intros; exact I] | constructor; exact I]. }
  intros data _. apply does_act_bind; [exists fileName; split; [reflexivity | exact Hnew]|].
  intros _ _. apply does_act_bind; [exact I|]. intros _ _.
  destruct (truthy (autoPaste settings) && truthy (autoFormat settings));
    [|constructor; exact I].
  apply does_act_bind; [exact I|]. intros doc _. apply does_autoFormatDoc.
Qed.

Lemma does_createWith fuel ft :
  dotted_extension (ext ft) ->
  does_only (writes_new_names getScratchpadFilePath files) (lists_and_offers files)
    any
    (createScratchpad getScratchpadFilePath cfg settings fuel (Some ft)).
Proof.
  intros (e & Hext & He). unfold createScratchpad.
  change (Done (Some ft) ≫= ?f) with (f (Some ft)). cbv beta iota zeta.
  apply (does_bind _ _ any).
  { destruct (truthy (promptForFilename settings)); [|constructor; exact I].
    apply does_act_bind; [exact I | intros; constructor; exact I]. }
  intros baseFilename _. apply does_act_bind; [exact I|].
  intros listed Hlisted. injection Hlisted as ->.
  apply (does_bind _ _ (fun fileName => ~ In fileName files)).
  - rewrite Hext.
    destruct (baseFilenameExists files baseFilename) eqn:Hbase; simpl negb; cbv iota.
    + apply does_act_bind; [exact I|]. intros listed Hlisted. injection Hlisted as ->.
      destruct (findNextAvailableNumber fuel files baseFilename) as [x|] eqn:Hnext;
        constructor.
      exact (numbered_name_is_new _ _ _ _ _ He Hnext).
    + constructor. exact (unnumbered_name_is_new _ _ _ He Hbase).
  - intros finalFilename Hnew. apply does_createAndOpen, Hnew.
Qed.

Lemma does_createScratchpad fuel filetype :
  (forall ft, filetype = Some ft -> dotted_extension (ext ft)) ->
  does_only (writes_new_names getScratchpadFilePath files) (lists_and_offers files)
    any
    (createScratchpad getScratchpadFilePath cfg settings fuel filetype).
Proof.
  intros Hgiven. destruct filetype as [ft|]; [apply does_createWith, Hgiven; reflexivity|].
  unfold createScratchpad. apply does_act_bind; [exact I|].
  intros [ft|] Hoffer; [|constructor; exact I].
  apply (does_createWith fuel ft), Hoffer. reflexivity.
Qed.

End CreateFacts.

(** X19.  While the folder lists [files] and the file types have dotted
    extensions, every file that [createScratchpad] writes (with a file type
    given or selected, a name typed or not, on any host) is the path of a
    name that [files] does not hold: creating a scratchpad overwrites no
    listed scratchpad. *)
Theorem created_file_is_new {World : Type}
  (handler : forall X : Type, HostOp X -> World -> Outcome X * World)
  (getScratchpadFilePath : str -> str) (cfg : Config) (settings : Settings)
  (fuel : nat) (filetype : option Filetype) (files : list str) (w : World) :
  (forall X (op : HostOp X) w0, lists_and_offers files X op (fst (handler X op w0))) ->
  (forall ft, filetype = Some ft -> dotted_extension (ext ft)) ->
  Forall (writes_new_names getScratchpadFilePath files)
    (steps_of (exec handler
                 (createScratchpad getScratchpadFilePath cfg settings fuel filetype) w)).
Proof.
  intros Hhost Hgiven.
  apply (does_only_exec handler _ (lists_and_offers files) any); [exact Hhost|].
  apply does_createScratchpad, Hgiven.
Qed.

Lemma created_file_is_new_witness :
  Forall (writes_new_names TestHost.getScratchpadFilePath example_files)
    (steps_of (exec (deskHost exampleDesk)
                 (createScratchpad TestHost.getScratchpadFilePath
                    (TestHost.config "auto" "") plainSettings 5 None) tt)).
Proof.
  apply (created_file_is_new (deskHost exampleDesk)).
  - intros X op w0. destruct op; simpl; try exact I; try reflexivity.
    intros ft [= <-]. exists (lit "ts"). split; [reflexivity|].
    split; [discriminate | reflexivity].
  - discriminate.
Defined.

(** ** Removing all scratchpads *)

Section RemoveFacts.

Context {World : Type}.
Variable handler : forall X : Type, HostOp X -> World -> Outcome X * World.
Variable getScratchpadFilePath : str -> str.

Lemma does_closeTabsOf (allowed : Step -> Prop) answers scratchpadPaths tabs :
  (forall tab p, In tab tabs -> tabTextPath tab = Some p -> In p scratchpadPaths ->
     allowed (Did (TabGroupsClose tab))) ->
  does_only allowed answers any (closeTabsOf scratchpadPaths tabs).
Proof.
  induction tabs as [|tab rest IH]; intros Hclose; simpl; [constructor; exact I|].
  assert (does_only allowed answers any (closeTabsOf scratchpadPaths rest)) as Hrest.
  { apply IH. intros tab' p Hin. apply Hclose. right. exact Hin. }
  destruct (tabTextPath tab) as [tabPath|] eqn:Hpath; [|exact Hrest].
  destruct (existsb (str_eqb tabPath) scratchpadPaths) eqn:Hlisted; [|exact Hrest].
  apply does_act_bind; [|intros; exact Hrest].
  apply (Hclose tab tabPath); [left; reflexivity | exact Hpath|].
  apply existsb_exists in Hlisted as (p & Hin & Heq).
  apply str_eqb_eq in Heq. subst p. exact Hin.
Qed.

Lemma does_closeTabGroups (allowed : Step -> Prop) answers scratchpadPaths groups :
  (forall group, allowed (Did (TabGroupTabs group))) ->
  (forall tab p, tabTextPath tab = Some p -> In p scratchpadPaths ->
     allowed (Did (TabGroupsClose tab))) ->
  does_only allowed answers any (closeTabGroups scratchpadPaths groups).
Proof.
  intros Htabs Hclose.
  induction groups as [|group rest IH]; simpl; [constructor; exact I|].
  apply does_act_bind; [apply Htabs|]. intros tabs _.
  apply (does_bind _ _ any); [|intros; exact IH].
  apply does_closeTabsOf. intros tab p _. apply Hclose.
Qed.

Lemma does_unlinkAll (allowed : Step -> Prop) answers files :
  (forall file, In file files -> allowed (Did (FsUnlinkSync (getScratchpadFilePath file)))) ->
  does_only allowed answers any (unlinkAll getScratchpadFilePath files).
Proof.
  induction files as [|file rest IH]; intros Hunlink; simpl; [constructor; exact I|].
  apply does_act_bind; [apply Hunlink; left; reflexivity|].
  intros _ _. apply IH. intros f Hf. apply Hunlink. right. exact Hf.
Qed.

(** Closing the tabs and deleting the files makes no other calls than
    those of [is_cleanup]. *)
Lemma does_cleanup answers :
  does_only (fun step => is_cleanup step = true) answers any
    (closeTabs getScratchpadFilePath;; deleteScratchpadFiles getScratchpadFilePath).
Proof.
  apply (does_bind _ _ any).
  - unfold closeTabs. apply does_act_bind; [reflexivity|]. intros files _.
    apply does_act_bind; [reflexivity|]. intros groups _.
    apply does_closeTabGroups; reflexivity.
  - intros _ _. unfold deleteScratchpadFiles.
    apply does_act_bind; [reflexivity|]. intros files _.
    apply (does_bind _ _ any); [apply does_unlinkAll; reflexivity|].
    intros _ _. apply does_fire. reflexivity.
Qed.

Lemma cleanup_steps (w : World) :
  Forall (fun step => is_cleanup step = true)
    (steps_of (exec handler
                 (closeTabs getScratchpadFilePath;;
                  deleteScratchpadFiles getScratchpadFilePath) w)).
Proof.
  apply (does_only_exec handler _ (fun _ _ _ => True) any); [intros; exact I|].
  apply does_cleanup.
Qed.

Lemma does_removeAll settings files :
  does_only (removes_scratchpads getScratchpadFilePath files) (lists files) any
    (removeAllScratchpads getScratchpadFilePath settings).
Proof.
  unfold removeAllScratchpads. apply (does_bind _ _ any).
  - unfold confirmRemoval. destruct (asksBeforeRemoval settings); [|constructor; exact I].
    apply does_act_bind; [exact I|]. intros [picked|] _; [|constructor; exact I].
    apply (does_bind _ _ any); [|intros; constructor; exact I].
    destruct (str_eqb picked (lit "Always")); [apply does_fire; exact I | constructor; exact I].
  - intros [|] _; [|constructor; exact I].
    apply (does_bind _ _ any).
    + unfold closeTabs. apply does_act_bind; [exact I|].
      intros listed Hlisted. injection Hlisted as ->.
      apply does_act_bind; [exact I|]. intros groups _.
      apply does_closeTabGroups; [intros; exact I|].
      intros tab p Hpath Hin. apply in_map_iff in Hin as (file & <- & Hfile).
      exists file. split; [exact Hfile | exact Hpath].
    + intros _ _. unfold deleteScratchpadFiles. apply does_act_bind; [exact I|].
      intros listed Hlisted. injection Hlisted as ->.
      apply (does_bind _ _ any); [|intros; apply does_fire; exact I].
      apply does_unlinkAll. intros file Hfile. exists file. split; [exact Hfile | reflexivity].
Qed.

End RemoveFacts.

(** X20.  While the folder lists [files], whatever [removeAllScratchpads]
    removes is a listed scratchpad: every file it unlinks is the path of a
    listed name, and every tab it closes is a text tab that shows the path
    of a listed name.  Other tabs and other files are left alone, on any
    host and with any settings. *)
Theorem removal_touches_only_scratchpads {World : Type}
  (handler : forall X : Type, HostOp X -> World -> Outcome X * World)
  (getScratchpadFilePath : str -> str) (settings : Settings) (files : list str)
  (w : World) :
  (forall X (op : HostOp X) w0, lists files X op (fst (handler X op w0))) ->
  Forall (removes_scratchpads getScratchpadFilePath files)
    (steps_of (exec handler (removeAllScratchpads getScratchpadFilePath settings) w)).
Proof.
  intros Hhost.
  apply (does_only_exec handler _ (lists files) any); [exact Hhost|].
  apply does_removeAll.
Qed.

Lemma removal_touches_only_scratchpads_witness :
  Forall (removes_scratchpads TestHost.getScratchpadFilePath example_files)
    (steps_of (exec (deskHost (answering "Yes"))
                 (removeAllScratchpads TestHost.getScratchpadFilePath plainSettings) tt)).
Proof.
  apply (removal_touches_only_scratchpads (deskHost (answering "Yes"))).
  intros X op w0. destruct op; simpl; try exact I. reflexivity.
Defined.

(** X21.  When the command asks before removing (the setting
    [promptForRemoval] is not set, or is truthy) and the dialog is not
    answered with one of its buttons (it is dismissed, fails or never
    returns), the dialog is the only call of [removeAllScratchpads]: no
    file is deleted, no tab closed and no setting written. *)
Theorem unanswered_question_removes_nothing {World : Type}
  (handler : forall X : Type, HostOp X -> World -> Outcome X * World)
  (getScratchpadFilePath : str -> str) (settings : Settings) (w : World) :
  asksBeforeRemoval settings = true ->
  (forall picked, fst (handler _ removalQuestion w) <> Returned (Some picked)) ->
  steps_of (exec handler (removeAllScratchpads getScratchpadFilePath settings) w)
  = [Did removalQuestion].
Proof.
  intros Hasks Hdismissed. unfold removeAllScratchpads, confirmRemoval.
  rewrite Hasks. rewrite !exec_bind, exec_act.
  destruct (handler _ removalQuestion w) as [[[picked|] | e |] w1]; try reflexivity.
  exfalso. exact (Hdismissed picked eq_refl).
Qed.

Lemma unanswered_question_removes_nothing_witness :
  steps_of (exec (deskHost exampleDesk)
              (removeAllScratchpads TestHost.getScratchpadFilePath plainSettings) tt)
  = [Did removalQuestion].
Proof.
  apply (unanswered_question_removes_nothing (deskHost exampleDesk)).
  - reflexivity.
  - discriminate.
Defined.

(** X22.  When [promptForRemoval] is set to a falsy value,
    [removeAllScratchpads] shows no dialog and writes no setting: its calls
    are those that close the tabs and delete the files. *)
Theorem disabled_prompt_never_asks {World : Type}
  (handler : forall X : Type, HostOp X -> World -> Outcome X * World)
  (getScratchpadFilePath : str -> str) (settings : Settings) (w : World) :
  asksBeforeRemoval settings = false ->
  Forall (fun step => is_question step = false /\ is_setting step = false)
    (steps_of (exec handler (removeAllScratchpads getScratchpadFilePath settings) w)).
Proof.
  intros Hasks. unfold removeAllScratchpads, confirmRemoval. rewrite Hasks.
  change (Done true ≫= ?f) with (f true). cbv beta iota.
  eapply List.Forall_impl; [|apply cleanup_steps].
  intros [X op]. destruct op; simpl; intros H; try discriminate H; split; reflexivity.
Qed.

Lemma disabled_prompt_never_asks_witness :
  Forall (fun step => is_question step = false /\ is_setting step = false)
    (steps_of (exec (deskHost exampleDesk)
                 (removeAllScratchpads TestHost.getScratchpadFilePath neverAsk) tt)).
Proof.
  apply (disabled_prompt_never_asks (deskHost exampleDesk)). reflexivity.
Defined.

Section SteadyFacts.

Context {World : Type}.
Variable handler : forall X : Type, HostOp X -> World -> Outcome X * World.
Variable getScratchpadFilePath : str -> str.
Variable files : list str.
Variable groups : list TabGroup.
Variable tabsOf : TabGroup -> list Tab.
Hypothesis Hsteady : removal_goes_through handler files groups tabsOf.

Lemma closeTabsOf_steady scratchpadPaths tabs w :
  exists w',
    exec handler (closeTabsOf scratchpadPaths tabs) w
    = (Returned tt, w',
       List.map (fun tab => Did (TabGroupsClose tab)) (scratchpadTabs scratchpadPaths tabs)).
Proof.
  destruct Hsteady as (_ & _ & _ & Hclose & _).
  revert w. induction tabs as [|tab rest IH]; intros w; [exists w; reflexivity|].
  unfold scratchpadTabs in *. cbn [closeTabsOf List.filter].
  destruct (tabTextPath tab) as [tabPath|]; [|apply IH].
  destruct (existsb (str_eqb tabPath) scratchpadPaths); [|apply IH].
  rewrite exec_bind, exec_act. destruct (Hclose tab w) as (closed & Hclosed).
  destruct (handler _ (TabGroupsClose tab) w) as [r w1]. simpl in Hclosed. subst r.
  destruct (IH w1) as (w' & ->). exists w'. reflexivity.
Qed.

Lemma closeTabGroups_steady scratchpadPaths some w :
  exists w',
    exec handler (closeTabGroups scratchpadPaths some) w
    = (Returned tt, w',
       flat_map
         (fun group =>
            Did (TabGroupTabs group)
            :: List.map (fun tab => Did (TabGroupsClose tab))
                 (scratchpadTabs scratchpadPaths (tabsOf group)))
         some).
Proof.
  destruct Hsteady as (_ & _ & Htabs & _).
  revert w. induction some as [|group rest IH]; intros w; [exists w; reflexivity|].
  cbn [closeTabGroups flat_map]. rewrite exec_bind, exec_act.
  pose proof (Htabs group w) as Hgroup.
  destruct (handler _ (TabGroupTabs group) w) as [r w1]. simpl in Hgroup. subst r.
  cbv beta iota zeta. rewrite exec_bind.
  destruct (closeTabsOf_steady scratchpadPaths (tabsOf group) w1) as (w2 & ->).
  destruct (IH w2) as (w' & ->). exists w'. reflexivity.
Qed.

Lemma unlinkAll_steady some w :
  exists w',
    exec handler (unlinkAll getScratchpadFilePath some) w
    = (Returned tt, w',
       List.map (fun file => Did (FsUnlinkSync (getScratchpadFilePath file))) some).
Proof.
  destruct Hsteady as (_ & _ & _ & _ & Hunlink).
  revert w. induction some as [|file rest IH]; intros w; [exists w; reflexivity|].
  cbn [unlinkAll List.map]. rewrite exec_bind, exec_act.
  pose proof (Hunlink (getScratchpadFilePath file) w) as Hfile.
  destruct (handler _ (FsUnlinkSync (getScratchpadFilePath file)) w) as [r w1].
  simpl in Hfile. subst r. destruct (IH w1) as (w' & ->). exists w'. reflexivity.
Qed.

(** On such a host the two halves of the removal run to their end. *)
Lemma cleanup_steady w :
  exists w',
    exec handler
      (closeTabs getScratchpadFilePath;; deleteScratchpadFiles getScratchpadFilePath) w
    = (Returned tt, w',
       closeSteps getScratchpadFilePath files groups tabsOf
       ++ deleteSteps getScratchpadFilePath files).
Proof.
  destruct Hsteady as (Hfiles & Hgroups & _).
  rewrite exec_bind. unfold closeTabs. rewrite exec_bind, exec_act.
  pose proof (Hfiles w) as Hlist.
  destruct (handler _ GetScratchpadFiles w) as [r w1]. simpl in Hlist. subst r.
  cbv beta iota zeta. rewrite exec_bind, exec_act.
  pose proof (Hgroups w1) as Hall.
  destruct (handler _ TabGroupsAll w1) as [r w2]. simpl in Hall. subst r.
  cbv beta iota zeta.
  destruct (closeTabGroups_steady (List.map getScratchpadFilePath files) groups w2)
    as (w3 & ->).
  unfold deleteScratchpadFiles. rewrite exec_bind, exec_act.
  pose proof (Hfiles w3) as Hlist.
  destruct (handler _ GetScratchpadFiles w3) as [r w4]. simpl in Hlist. subst r.
  cbv beta iota zeta. rewrite exec_bind.
  destruct (unlinkAll_steady files w4) as (w5 & ->). rewrite exec_fire.
  eexists. unfold closeSteps, deleteSteps. cbn [app]. reflexivity.
Qed.

End SteadyFacts.

(** X23.  When the dialog is answered with a button, on a host where the
    removal meets no failure, [removeAllScratchpads] goes on to close every
    tab that shows a listed scratchpad, group by group, then unlinks every
    listed file in order and shows its message, and returns.  The answer
    [Always] first stores [promptForRemoval = false], a value under which
    the command no longer asks; any other answer writes no setting. *)
Theorem always_is_remembered {World : Type}
  (handler : forall X : Type, HostOp X -> World -> Outcome X * World)
  (getScratchpadFilePath : str -> str) (settings : Settings) (picked : str)
  (files : list str) (groups : list TabGroup) (tabsOf : TabGroup -> list Tab)
  (w w1 : World) :
  asksBeforeRemoval settings = true ->
  handler _ removalQuestion w = (Returned (Some picked), w1) ->
  removal_goes_through handler files groups tabsOf ->
  let run := exec handler (removeAllScratchpads getScratchpadFilePath settings) w in
  let store := SetExtensionConfiguration CONFIG_PROMPT_FOR_REMOVAL (JBool false) in
  result_of run = Returned tt
  /\ steps_of run
     = Did removalQuestion
       :: (if str_eqb picked (lit "Always") then [Did store] else [])
       ++ closeSteps getScratchpadFilePath files groups tabsOf
       ++ deleteSteps getScratchpadFilePath files
  /\ forall later, promptForRemoval later = JBool false -> asksBeforeRemoval later = false.
Proof.
  intros Hasks Hanswer Hsteady. cbv zeta.
  assert (forall later, promptForRemoval later = JBool false ->
                        asksBeforeRemoval later = false) as Hlater.
  { intros later H. unfold asksBeforeRemoval. rewrite H. reflexivity. }
  unfold removeAllScratchpads. rewrite exec_bind.
  unfold confirmRemoval. rewrite Hasks.
  rewrite exec_bind, exec_act, Hanswer. cbv beta iota zeta.
  rewrite exec_bind.
  destruct (str_eqb picked (lit "Always")).
  - rewrite exec_fire. cbv beta iota zeta. cbn [exec].
    destruct (cleanup_steady handler getScratchpadFilePath files groups tabsOf Hsteady
                (snd (handler _ (SetExtensionConfiguration CONFIG_PROMPT_FOR_REMOVAL
                                   (JBool false)) w1))) as (w3 & Hrun).
    rewrite Hrun.
    split; [reflexivity|]. split; [reflexivity | exact Hlater].
  - cbn [exec].
    destruct (cleanup_steady handler getScratchpadFilePath files groups tabsOf Hsteady w1)
      as (w3 & Hrun).
    rewrite Hrun.
    split; [reflexivity|]. split; [reflexivity | exact Hlater].
Qed.

Lemma always_is_remembered_witness :
  steps_of (exec (deskHost (answering "Always"))
              (removeAllScratchpads TestHost.getScratchpadFilePath plainSettings) tt)
  = Did removalQuestion
    :: Did (SetExtensionConfiguration CONFIG_PROMPT_FOR_REMOVAL (JBool false))
    :: closeSteps TestHost.getScratchpadFilePath example_files [0]
         (fun _ => deskTabs exampleDesk)
    ++ deleteSteps TestHost.getScratchpadFilePath example_files.
Proof.
  pose proof (always_is_remembered (deskHost (answering "Always"))
                TestHost.getScratchpadFilePath plainSettings (lit "Always")
                example_files [0] (fun _ => deskTabs exampleDesk) tt tt) as H.
  cbv zeta in H.
  destruct H as (_ & Hsteps & _).
  - reflexivity.
  - reflexivity.
  - repeat split; intros; try reflexivity. eexists. reflexivity.
  - exact Hsteps.
Defined.

(** ** Deleting the files, opening the latest one *)

Section LoopFacts.

Context {World : Type}.
Variable handler : forall X : Type, HostOp X -> World -> Outcome X * World.
Variable getScratchpadFilePath : str -> str.

Lemma unlinkAll_run (files : list str) (w : World) :
  exists n, (n <= length files)%nat /\
    steps_of (exec handler (unlinkAll getScratchpadFilePath files) w)
    = List.map (unlinkStep getScratchpadFilePath) (firstn n files) /\
    ((result_of (exec handler (unlinkAll getScratchpadFilePath files) w) = Returned tt
      /\ n = length files)
     \/ (result_of (exec handler (unlinkAll getScratchpadFilePath files) w) <> Returned tt
         /\ (0 < n)%nat)).
Proof.
  revert w. induction files as [|file rest IH]; intros w.
  - exists 0%nat. split; [reflexivity|]. split; [reflexivity|]. left. split; reflexivity.
  - cbn [unlinkAll]. rewrite exec_bind, exec_act.
    destruct (handler _ (FsUnlinkSync (getScratchpadFilePath file)) w) as [[[] | e |] w1].
    + destruct (IH w1) as (n & Hn & Hsteps & Hres).
      destruct (exec handler (unlinkAll getScratchpadFilePath rest) w1) as [[o w2] t].
      exists (S n). split; [simpl; lia|]. split.
      * unfold steps_of in *. simpl in *. rewrite Hsteps. reflexivity.
      * unfold result_of in *. simpl in *.
        destruct Hres as [[-> ->] | [Hne _]]; [left; split; reflexivity | right; split; [exact Hne | lia]].
    + exists 1%nat. split; [simpl; lia|]. split; [reflexivity|].
      right. split; [discriminate | lia].
    + exists 1%nat. split; [simpl; lia|]. split; [reflexivity|].
      right. split; [discriminate | lia].
Qed.

Lemma caught_never_throws {A : Type} (p : Script unit) (report : Exn -> HostOp A)
  (w : World) (e : Exn) :
  result_of (exec handler (script_catch p (fun error => fire (report error))) w)
  <> Thrown e.
Proof.
  rewrite exec_catch.
  destruct (exec handler p w) as [[[[] | e' |] w1] t1]; try discriminate.
  rewrite exec_fire. discriminate.
Qed.

Lemma statAll_run (mtimeOf : str -> Z) (files : list str) (w : World) :
  (forall p w0, handler _ (FsStatMtime p) w0 = (Returned (mtimeOf p), w0)) ->
  exec handler (statAll getScratchpadFilePath files) w
  = (Returned (List.map (fun file => {| statName := file;
                                        statPath := getScratchpadFilePath file;
                                        mtime := mtimeOf (getScratchpadFilePath file) |})
                 files),
     w, List.map (statStep getScratchpadFilePath) files).
Proof.
  intros Hstat. induction files as [|file rest IH]; [reflexivity|].
  cbn [statAll]. rewrite exec_bind, exec_act, Hstat. cbv beta iota zeta.
  rewrite exec_bind, IH. cbv beta iota zeta. cbn [exec].
  f_equal. cbn [app List.map]. f_equal. apply app_nil_r.
Qed.

End LoopFacts.

(** The entry that a stable sort by descending modification time puts
    first: the first of the newest entries. *)
Lemma sortByMtime_head (stats : list FileStat) :
  stats <> [] ->
  exists pre latest post rest,
    stats = pre ++ latest :: post /\ sortByMtime stats = latest :: rest /\
    Forall (fun s => (mtime s < mtime latest)%Z) pre /\
    Forall (fun s => (mtime s <= mtime latest)%Z) post.
Proof.
  induction stats as [|x stats IH]; [congruence|]. intros _.
  destruct stats as [|y stats].
  - exists [], x, [], []. repeat split; constructor.
  - destruct IH as (pre & latest & post & rest & Hsplit & Hsort & Hpre & Hpost);
      [discriminate|].
    change (sortByMtime (x :: y :: stats))
      with (insertByMtime x (sortByMtime (y :: stats))).
    rewrite Hsort. cbn [insertByMtime].
    destruct (mtime latest - mtime x <=? 0)%Z eqn:Hcmp.
    + apply Z.leb_le in Hcmp.
      exists [], x, (y :: stats), (latest :: rest).
      split; [reflexivity|]. split; [reflexivity|]. split; [constructor|].
      rewrite Hsplit. apply Forall_app. split.
      * eapply List.Forall_impl; [|exact Hpre]. cbv beta. intros s Hs. lia.
      * constructor; [lia|].
        eapply List.Forall_impl; [|exact Hpost]. cbv beta. intros s Hs. lia.
    + apply Z.leb_gt in Hcmp.
      exists (x :: pre), latest, post, (insertByMtime x rest).
      split; [rewrite Hsplit; reflexivity|]. split; [reflexivity|].
      split; [constructor; [lia | exact Hpre] | exact Hpost].
Qed.

(** X24.  [deleteScratchpadFiles] unlinks the listed files in the order of
    the listing and stops at the first failure: either every file was
    unlinked, the message is shown and the command returns, or the calls
    end with the unlink that failed, the later files are untouched and no
    message is shown. *)
Theorem deletion_stops_at_first_failure {World : Type}
  (handler : forall X : Type, HostOp X -> World -> Outcome X * World)
  (getScratchpadFilePath : str -> str) (files : list str) (w w1 : World) :
  handler _ GetScratchpadFiles w = (Returned files, w1) ->
  let run := exec handler (deleteScratchpadFiles getScratchpadFilePath) w in
  exists n, (n <= length files)%nat /\
    let unlinked := List.map (unlinkStep getScratchpadFilePath) (firstn n files) in
    (result_of run = Returned tt /\ n = length files /\
     steps_of run
     = Did GetScratchpadFiles :: unlinked
       ++ [Did (ShowInformationMessage (lit "Scratchpads: Removed all scratchpads"))])
    \/ (result_of run <> Returned tt /\ (0 < n)%nat /\
        steps_of run = Did GetScratchpadFiles :: unlinked).
Proof.
  intros Hlist. cbv zeta. unfold deleteScratchpadFiles.
  rewrite exec_bind, exec_act, Hlist. cbv beta iota zeta. rewrite exec_bind.
  destruct (unlinkAll_run handler getScratchpadFilePath files w1)
    as (n & Hn & Hsteps & Hres).
  destruct (exec handler (unlinkAll getScratchpadFilePath files) w1) as [[o w2] t].
  unfold steps_of, result_of in *. simpl in Hsteps, Hres. subst t.
  exists n. split; [exact Hn|].
  destruct Hres as [[-> ->] | [Hne Hpos]].
  - left. rewrite exec_fire. simpl. split; [reflexivity|]. split; reflexivity.
  - right. destruct o as [[] | e |]; [congruence | |]; simpl.
    + split; [discriminate|]. split; [exact Hpos | reflexivity].
    + split; [discriminate|]. split; [exact Hpos | reflexivity].
Qed.

Lemma deletion_stops_at_first_failure_witness :
  steps_of (exec (deskHost exampleDesk)
              (deleteScratchpadFiles TestHost.getScratchpadFilePath) tt)
  = Did GetScratchpadFiles
    :: List.map (unlinkStep TestHost.getScratchpadFilePath) example_files
    ++ [Did (ShowInformationMessage (lit "Scratchpads: Removed all scratchpads"))].
Proof.
  destruct (deletion_stops_at_first_failure (deskHost exampleDesk)
              TestHost.getScratchpadFilePath example_files tt tt eq_refl)
    as (n & Hn & [(_ & -> & Hsteps) | (Hne & _)]).
  - exact Hsteps.
  - exfalso. apply Hne. reflexivity.
Defined.

(** X25.  With one or more files listed and modification times read
    without failure, [openLatestScratchpad] reads the time of every listed
    file in order and then opens exactly one file: the first file of the
    listing among those with the greatest modification time.  If opening
    fails, an error message is shown; the command does not throw. *)
Theorem latest_scratchpad_is_opened {World : Type}
  (handler : forall X : Type, HostOp X -> World -> Outcome X * World)
  (getScratchpadFilePath : str -> str) (mtimeOf : str -> Z) (files : list str)
  (w w1 : World) :
  handler _ GetScratchpadFiles w = (Returned files, w1) ->
  files <> [] ->
  (forall p w0, handler _ (FsStatMtime p) w0 = (Returned (mtimeOf p), w0)) ->
  let run := exec handler (openLatestScratchpad getScratchpadFilePath) w in
  let modified file := mtimeOf (getScratchpadFilePath file) in
  exists pre latest post tail,
    files = pre ++ latest :: post /\
    Forall (fun file => (modified file < modified latest)%Z) pre /\
    Forall (fun file => (modified file <= modified latest)%Z) post /\
    steps_of run
    = Did GetScratchpadFiles :: List.map (statStep getScratchpadFilePath) files
      ++ Did (UtilsOpenFile (getScratchpadFilePath latest)) :: tail /\
    forallb is_error_message tail = true /\ (length tail <= 1)%nat /\
    forall e, result_of run <> Thrown e.
Proof.
  intros Hlist Hfiles Hstat. cbv zeta. unfold openLatestScratchpad.
  rewrite exec_bind, exec_act, Hlist. cbv beta iota zeta.
  destruct files as [|file0 files0]; [congruence|].
  set (files := file0 :: files0) in *.
  set (mk := fun file => {| statName := file;
                            statPath := getScratchpadFilePath file;
                            mtime := mtimeOf (getScratchpadFilePath file) |}).
  destruct (sortByMtime_head (List.map mk files)) as
    (spre & slatest & spost & rest & Hsplit & Hsort & Hpre & Hpost); [discriminate|].
  apply map_eq_app in Hsplit as (pre & tl & Hfiles' & <- & Htl).
  apply map_eq_cons in Htl as (latest & post & -> & <- & <-).
  rewrite exec_catch, exec_bind, (statAll_run handler getScratchpadFilePath mtimeOf)
    by exact Hstat.
  cbv beta iota zeta. subst mk. cbv beta in Hsort, Hpre, Hpost.
  rewrite Hsort, exec_act. cbn [statPath].
  exists pre, latest, post.
  assert (Forall (fun file => (mtimeOf (getScratchpadFilePath file)
                               < mtimeOf (getScratchpadFilePath latest))%Z) pre) as Hpre'.
  { apply List.Forall_forall. intros file Hfile.
    apply (proj1 (List.Forall_forall _ _) Hpre _ (in_map _ _ _ Hfile)). }
  assert (Forall (fun file => (mtimeOf (getScratchpadFilePath file)
                               <= mtimeOf (getScratchpadFilePath latest))%Z) post) as Hpost'.
  { apply List.Forall_forall. intros file Hfile.
    apply (proj1 (List.Forall_forall _ _) Hpost _ (in_map _ _ _ Hfile)). }
  destruct (handler _ (UtilsOpenFile (getScratchpadFilePath latest)) w1)
    as [[[] | e |] w2]; [exists [] | eexists [_] | exists []];
    try rewrite exec_fire; rewrite Hfiles'; unfold steps_of, result_of;
    cbn [fst snd app forallb length]; rewrite <- ?app_assoc; cbn [app];
    (split; [reflexivity|]); (split; [exact Hpre'|]); (split; [exact Hpost'|]);
    (split; [reflexivity|]); (split; [reflexivity|]); (split; [lia | discriminate]).
Qed.

Lemma latest_scratchpad_is_opened_witness :
  exists latest tail,
    In latest example_files /\
    steps_of (exec (deskHost exampleDesk)
                (openLatestScratchpad TestHost.getScratchpadFilePath) tt)
    = Did GetScratchpadFiles
      :: List.map (statStep TestHost.getScratchpadFilePath) example_files
      ++ Did (UtilsOpenFile (TestHost.getScratchpadFilePath latest)) :: tail.
Proof.
  destruct (latest_scratchpad_is_opened (deskHost exampleDesk)
              TestHost.getScratchpadFilePath (deskMtime exampleDesk) example_files tt tt
              eq_refl ltac:(discriminate) (fun _ _ => eq_refl))
    as (pre & latest & post & tail & Hsplit & _ & _ & Hsteps & _).
  exists latest, tail. split; [rewrite Hsplit; apply in_elt | exact Hsteps].
Defined.

(** ** Renaming a scratchpad *)

(** X26.  When the active editor shows a scratchpad, a new name is given
    and the overwrite check passes, [renameScratchpad] renames the file of
    the editor to the new name followed by the extension of the current
    name (to the new name as typed when [renameWithExtension] is on).  It
    saves, closes, renames, opens and reports, in this order, up to the
    first call that does not return; a call that throws is reported by an
    error message and the command still returns. *)
Theorem rename_keeps_the_extension {World : Type}
  (handler : forall X : Type, HostOp X -> World -> Outcome X * World)
  {pathLib : PathLib} (toLowerCase : str -> str) (getScratchpadFilePath : str -> str)
  (settings : Settings) (host : Host) (document : Document) (newName : str)
  (w w1 w2 w3 : World) :
  let finalFileName := renamedTo settings document newName in
  let ask := UtilsPromptForNewFilename (path_basename (fileName document)) in
  let confirm := UtilsConfirmOverwrite (getScratchpadFilePath finalFileName) finalFileName in
  let run :=
    exec handler (renameScratchpad toLowerCase getScratchpadFilePath settings host) w in
  handler _ ActiveTextEditor w = (Returned (Some document), w1) ->
  isScratchpadDocument toLowerCase host document = true ->
  handler _ ask w1 = (Returned (Some newName), w2) ->
  newName <> [] ->
  handler _ confirm w2 = (Returned true, w3) ->
  exists n tail,
    steps_of run
    = [Did ActiveTextEditor; Did ask; Did confirm]
      ++ firstn n (renamePlan getScratchpadFilePath document finalFileName) ++ tail /\
    ((n = 5%nat /\ tail = [] /\ result_of run = Returned tt)
     \/ ((0 < n <= 4)%nat /\ tail = [] /\ result_of run = Pending)
     \/ ((0 < n <= 4)%nat /\ result_of run = Returned tt /\
         exists e, tail = [Did (ShowErrorMessage
                                  (lit "Scratchpads: Failed to rename file: "
                                   ++ exnToString e))])).
Proof.
  intros finalFileName ask confirm run Heditor Hpad Hask Hname Hconfirm.
  subst run. unfold renameScratchpad.
  rewrite exec_bind, exec_act, Heditor. cbv beta iota zeta.
  unfold isScratchpadEditor. rewrite Hpad. cbn [negb].
  rewrite exec_bind, exec_act. fold ask. rewrite Hask. cbv beta iota zeta.
  assert (chosen (Some newName) = Some newName) as ->.
  { destruct newName; [congruence | reflexivity]. }
  fold (renamedTo settings document newName). fold finalFileName.
  rewrite exec_bind, exec_act. fold confirm. rewrite Hconfirm. cbv beta iota zeta.
  cbn [negb]. rewrite exec_catch.
  set (report := fun error : Exn => fire (ShowErrorMessage
                   (lit "Scratchpads: Failed to rename file: " ++ exnToString error))).
  rewrite exec_bind, exec_act.
  destruct (handler _ (SaveDocument document) w3) as [[saved | e |] w4];
    cbv beta iota zeta.
  2: { exists 1%nat. eexists. unfold report. rewrite exec_fire.
       unfold steps_of, result_of. cbn [fst snd app firstn renamePlan].
       split; [reflexivity|]. right. right. split; [lia|]. split; [reflexivity|].
       exists e. reflexivity. }
  2: { exists 1%nat, []. unfold steps_of, result_of. cbn [fst snd app firstn renamePlan].
       split; [reflexivity|]. right. left. split; [lia|]. split; reflexivity. }
  rewrite exec_bind, exec_act.
  destruct (handler _ UtilsCloseActiveEditor w4) as [[[] | e |] w5]; cbv beta iota zeta.
  2: { exists 2%nat. eexists. unfold report. rewrite exec_fire.
       unfold steps_of, result_of. cbn [fst snd app firstn renamePlan].
       split; [reflexivity|]. right. right. split; [lia|]. split; [reflexivity|].
       exists e. reflexivity. }
  2: { exists 2%nat, []. unfold steps_of, result_of. cbn [fst snd app firstn renamePlan].
       split; [reflexivity|]. right. left. split; [lia|]. split; reflexivity. }
  rewrite exec_bind, exec_act.
  destruct (handler _ (UtilsRenameFile (fileName document)
                         (getScratchpadFilePath finalFileName)) w5)
    as [[[] | e |] w6]; cbv beta iota zeta.
  2: { exists 3%nat. eexists. unfold report. rewrite exec_fire.
       unfold steps_of, result_of. cbn [fst snd app firstn renamePlan].
       split; [reflexivity|]. right. right. split; [lia|]. split; [reflexivity|].
       exists e. reflexivity. }
  2: { exists 3%nat, []. unfold steps_of, result_of. cbn [fst snd app firstn renamePlan].
       split; [reflexivity|]. right. left. split; [lia|]. split; reflexivity. }
  rewrite exec_bind, exec_act.
  destruct (handler _ (UtilsOpenFile (getScratchpadFilePath finalFileName)) w6)
    as [[[] | e |] w7]; cbv beta iota zeta.
  2: { exists 4%nat. eexists. unfold report. rewrite exec_fire.
       unfold steps_of, result_of. cbn [fst snd app firstn renamePlan].
       split; [reflexivity|]. right. right. split; [lia|]. split; [reflexivity|].
       exists e. reflexivity. }
  2: { exists 4%nat, []. unfold steps_of, result_of. cbn [fst snd app firstn renamePlan].
       split; [reflexivity|]. right. left. split; [lia|]. split; reflexivity. }
  rewrite exec_fire. exists 5%nat, [].
  unfold steps_of, result_of. cbn [fst snd app firstn renamePlan].
  split; [reflexivity|]. left. split; [reflexivity|]. split; reflexivity.
Qed.

Lemma rename_keeps_the_extension_witness :
  exists n tail,
    steps_of (exec (deskHost (answering "notes"))
                (renameScratchpad (pathLib := TestHost.pathLib) asciiLower
                   TestHost.getScratchpadFilePath plainSettings TestHost.host) tt)
    = [Did ActiveTextEditor;
       Did (UtilsPromptForNewFilename (lit "s1.ts"));
       Did (UtilsConfirmOverwrite (TestHost.getScratchpadFilePath (lit "notes.ts"))
              (lit "notes.ts"))]
      ++ firstn n (renamePlan TestHost.getScratchpadFilePath
                     (TestHost.document "s1.ts" "let rows = 1") (lit "notes.ts"))
      ++ tail.
Proof.
  pose proof (rename_keeps_the_extension (deskHost (answering "notes"))
                (pathLib := TestHost.pathLib) asciiLower TestHost.getScratchpadFilePath
                plainSettings TestHost.host (TestHost.document "s1.ts" "let rows = 1")
                (lit "notes") tt tt tt tt) as H.
  cbv zeta in H.
  destruct (H eq_refl ltac:(vm_compute; reflexivity) ltac:(vm_compute; reflexivity)
              ltac:(discriminate) eq_refl) as (n & tail & Hsteps & _).
  exists n, tail. rewrite Hsteps. vm_compute. reflexivity.
Defined.

(** X27.  [renameScratchpad] saves, closes, renames or opens something
    only with consent: whenever a run holds one of these calls, the active
    editor showed a scratchpad, the prompt returned a name that is not
    empty, and the overwrite check for the destination returned true. *)
Theorem rename_needs_consent {World : Type}
  (handler : forall X : Type, HostOp X -> World -> Outcome X * World)
  {pathLib : PathLib} (toLowerCase : str -> str) (getScratchpadFilePath : str -> str)
  (settings : Settings) (host : Host) (w : World) :
  Exists (fun step => is_rename_action step = true)
    (steps_of (exec handler
                 (renameScratchpad toLowerCase getScratchpadFilePath settings host) w)) ->
  exists document newName w1 w2,
    handler _ ActiveTextEditor w = (Returned (Some document), w1) /\
    isScratchpadDocument toLowerCase host document = true /\
    handler _ (UtilsPromptForNewFilename (path_basename (fileName document))) w1
    = (Returned (Some newName), w2) /\
    newName <> [] /\
    fst (handler _ (UtilsConfirmOverwrite
                      (getScratchpadFilePath (renamedTo settings document newName))
                      (renamedTo settings document newName)) w2)
    = Returned true.
Proof.
  unfold renameScratchpad. rewrite exec_bind, exec_act.
  destruct (handler _ ActiveTextEditor w) as [[[document|] | e |] w1] eqn:Heditor;
    cbv beta iota zeta; unfold steps_of; cbn [snd app].
  2-4: rewrite ?exec_fire; cbn [snd app]; intros H;
       repeat (apply Exists_cons in H as [H | H]; [discriminate H|]);
       apply Exists_nil in H; contradiction.
  unfold isScratchpadEditor.
  destruct (isScratchpadDocument toLowerCase host document) eqn:Hpad; cbn [negb].
  2: { rewrite exec_fire. cbn [snd app]. intros H.
       repeat (apply Exists_cons in H as [H | H]; [discriminate H|]).
       apply Exists_nil in H. contradiction. }
  rewrite exec_bind, exec_act.
  destruct (handler _ (UtilsPromptForNewFilename (path_basename (fileName document))) w1)
    as [[[newName|] | e |] w2] eqn:Hask; cbv beta iota zeta; cbn [snd app chosen].
  2-4: intros H;
       repeat (apply Exists_cons in H as [H | H]; [discriminate H|]);
       apply Exists_nil in H; contradiction.
  destruct newName as [|c newName]; cbn [is_empty].
  { cbn [exec snd app]. intros H.
    repeat (apply Exists_cons in H as [H | H]; [discriminate H|]).
    apply Exists_nil in H. contradiction. }
  fold (renamedTo settings document (c :: newName)).
  set (finalFileName := renamedTo settings document (c :: newName)).
  rewrite exec_bind, exec_act.
  destruct (handler _ (UtilsConfirmOverwrite (getScratchpadFilePath finalFileName)
                         finalFileName) w2)
    as [[[|] | e |] w3] eqn:Hconfirm; cbv beta iota zeta; cbn [negb exec snd app].
  2-4: intros H;
       repeat (apply Exists_cons in H as [H | H]; [discriminate H|]);
       apply Exists_nil in H; contradiction.
  intros _. exists document, (c :: newName), w1, w2.
  split; [reflexivity|]. split; [exact Hpad|]. split; [exact Hask|].
  split; [discriminate|]. fold finalFileName. rewrite Hconfirm. reflexivity.
Qed.

Lemma rename_needs_consent_witness :
  exists document newName,
    deskEditor (answering "notes") = Some document /\ newName <> [] /\
    deskAnswer (answering "notes") = Some newName.
Proof.
  destruct (rename_needs_consent (deskHost (answering "notes"))
              (pathLib := TestHost.pathLib) asciiLower TestHost.getScratchpadFilePath
              plainSettings TestHost.host tt)
    as (document & newName & w1 & w2 & Heditor & _ & Hask & Hname & _).
  - vm_compute. apply Exists_cons_tl, Exists_cons_tl, Exists_cons_tl, Exists_cons_hd.
    reflexivity.
  - exists document, newName. unfold deskHost in Heditor, Hask.
    split; [congruence|]. split; [exact Hname|].
    injection Hask as Hpick _. rewrite <- Hpick. reflexivity.
Defined.

(** ** The default file type *)

Lemma removeFirstDot_split (a b : str) :
  dotless a = true -> removeFirstDot (a ++ Ch.dot :: b) = a ++ b.
Proof.
  induction a as [|c a IH]; intros Ha; [reflexivity|].
  cbn [dotless forallb] in Ha. apply andb_true_iff in Ha as [Hc Ha].
  cbn [app removeFirstDot]. apply negb_true_iff in Hc. rewrite Hc, IH by exact Ha.
  reflexivity.
Qed.

(** X28.  Without a configured default, [createScratchpadDefault] asks for
    a file type and stores the extension of the answer with its first dot
    removed (and only the first: [.d.ts] is stored as [d.ts]) as
    [defaultFiletype], before anything else; the scratchpad is created
    with the selected type only once the setting is stored. *)
Theorem default_filetype_is_stored_without_dot {World : Type}
  (handler : forall X : Type, HostOp X -> World -> Outcome X * World)
  (getScratchpadFilePath : str -> str) (cfg : Config) (settings : Settings)
  (fuel : nat) (ft : Filetype) (a b : str) (w w1 w2 : World) :
  let select := SelectFiletype (Some (lit "Select default filetype")) in
  let store := SetExtensionConfiguration CONFIG_DEFAULT_FILETYPE (JString (a ++ b)) in
  let run :=
    exec handler (createScratchpadDefault getScratchpadFilePath cfg settings fuel) w in
  handler _ GetDefaultFiletype w = (Returned None, w1) ->
  handler _ select w1 = (Returned (Some ft), w2) ->
  ext ft = a ++ Ch.dot :: b ->
  dotless a = true ->
  match handler _ store w2 with
  | (Returned _, w3) =>
      run = (let '(o, w4, steps) :=
               exec handler
                 (createScratchpad getScratchpadFilePath cfg settings fuel (Some ft)) w3 in
             (o, w4, Did GetDefaultFiletype :: Did select :: Did store :: steps))
  | (Thrown e, w3) =>
      run = (Thrown e, w3, [Did GetDefaultFiletype; Did select; Did store])
  | (Pending, w3) =>
      run = (Pending, w3, [Did GetDefaultFiletype; Did select; Did store])
  end.
Proof.
  intros select store run Hdefault Hselect Hext Ha. subst run.
  unfold createScratchpadDefault.
  rewrite exec_bind, exec_act, Hdefault. cbv beta iota zeta.
  rewrite exec_bind, exec_bind, exec_act. fold select. rewrite Hselect.
  cbv beta iota zeta.
  rewrite Hext, removeFirstDot_split by exact Ha. fold store.
  rewrite exec_bind, exec_act.
  destruct (handler _ store w2) as [[[] | e |] w3]; cbv beta iota zeta;
    cbn [exec app]; try reflexivity.
  destruct (exec handler _ w3) as [[o w4] steps]. reflexivity.
Qed.

Lemma default_filetype_is_stored_without_dot_witness :
  exists rest,
    steps_of (exec (deskHost (offering declaration))
                (createScratchpadDefault TestHost.getScratchpadFilePath
                   (TestHost.config "auto" "") plainSettings 5) tt)
    = Did GetDefaultFiletype
      :: Did (SelectFiletype (Some (lit "Select default filetype")))
      :: Did (SetExtensionConfiguration CONFIG_DEFAULT_FILETYPE (JString (lit "d.ts")))
      :: rest.
Proof.
  pose proof (default_filetype_is_stored_without_dot (deskHost (offering declaration))
                TestHost.getScratchpadFilePath (TestHost.config "auto" "") plainSettings
                5 declaration [] (lit "d.ts") tt tt tt) as H.
  cbv zeta in H. specialize (H eq_refl eq_refl eq_refl eq_refl).
  unfold deskHost at 1 in H. cbv beta iota in H. rewrite H.
  destruct (exec (deskHost (offering declaration))
              (createScratchpad TestHost.getScratchpadFilePath
                 (TestHost.config "auto" "") plainSettings 5 (Some declaration)) tt)
    as [[o w4] steps].
  exists steps. reflexivity.
Defined.
